(** * F1 telemetry: packet decoders, capture recorder and replay engine

    A shallow embedding of the JavaScript sources
    - [f1-udp-reciever/telemetry.js]   (header and body decoders, drivers table),
    - [test-connection.js]             (the event service [F1UDPService]),
    - [f1-udp-reciever/f1-packages.js] (capture recorder),
    - [f1-udp-reciever/replay-data.js] (replay engine),
    together with the properties of the specification checked against them. *)

From Stdlib Require Import ZArith QArith Lia List.
From Stdlib Require Import Qround Lqa.
From Stdlib Require Import Strings.Ascii Strings.Byte Floats.SpecFloat.
From stdpp Require Import gmap strings list pretty.

Local Open Scope Z_scope.

(** ** Node.js [Buffer]: byte sequences and their accessors *)

Module Buf.

(** A [Buffer] is a finite sequence of octets. *)
Definition buffer := list byte.

(** [buffer.length], as a JavaScript number. *)
Definition blen (b : buffer) : Z := Z.of_nat (length b).

Definition u8 (x : byte) : Z := Z.of_N (Byte.to_N x).

(** The octet whose value is [z]; only used on [0 <= z < 256]. *)
Definition byte_of (z : Z) : byte :=
  match Byte.of_N (Z.to_N z) with
  | Some x => x
  | None => x00
  end.

(** The raw accessors of [Buffer] throw a [RangeError] when the read leaves
    the buffer. *)
Inductive exn := RangeError.

Inductive res (A : Type) :=
| Ret (a : A)
| Raise (e : exn).
Arguments Ret {A} a.
Arguments Raise {A} e.

Definition rbind {A B} (m : res A) (k : A -> res B) : res B :=
  match m with
  | Ret a => k a
  | Raise e => Raise e
  end.

(** Little-endian value of a run of octets. *)
Fixpoint le_value (bs : list byte) : Z :=
  match bs with
  | [] => 0
  | x :: r => u8 x + 256 * le_value r
  end.

(** The [n] little-endian octets of [v]. *)
Fixpoint le_bytes (n : nat) (v : Z) : list byte :=
  match n with
  | O => []
  | S n' => byte_of (v mod 256) :: le_bytes n' (v / 256)
  end.

(** The [n] octets at [off], when they all lie inside the buffer. *)
Definition bytesAt (b : buffer) (off : Z) (n : nat) : option (list byte) :=
  if (0 <=? off) && (off + Z.of_nat n <=? blen b)
  then Some (take n (drop (Z.to_nat off) b))
  else None.

Definition readLE (n : nat) (b : buffer) (off : Z) : res Z :=
  match bytesAt b off n with
  | Some bs => Ret (le_value bs)
  | None => Raise RangeError
  end.

Definition readUInt8 : buffer -> Z -> res Z := readLE 1.
Definition readUInt16LE : buffer -> Z -> res Z := readLE 2.
Definition readUInt32LE : buffer -> Z -> res Z := readLE 4.
Definition readBigUInt64LE : buffer -> Z -> res Z := readLE 8.

(** Two's complement reading of an octet. *)
Definition int8_of (v : Z) : Z := if v <? 128 then v else v - 256.

Definition readInt8 (b : buffer) (off : Z) : res Z :=
  rbind (readUInt8 b off) (fun v => Ret (int8_of v)).

(** IEEE 754 binary32 bit pattern to the number it denotes.  A JavaScript
    number has one NaN: the payload and sign of a NaN pattern are not
    observable in the value read. *)
Definition f32_of_bits (w : Z) : spec_float :=
  let s := 2 ^ 31 <=? w in
  let e := (w / 2 ^ 23) mod 256 in
  let m := w mod 2 ^ 23 in
  if e =? 255 then
    if m =? 0 then S754_infinity s else S754_nan
  else if e =? 0 then
    if m =? 0 then S754_zero s else S754_finite s (Z.to_pos m) (-149)
  else S754_finite s (Z.to_pos (m + 2 ^ 23)) (e - 150).

Definition readFloatLE (b : buffer) (off : Z) : res spec_float :=
  rbind (readUInt32LE b off) (fun w => Ret (f32_of_bits w)).

(** The little-endian value of the [n] octets at [off]. *)
Definition field (b : buffer) (off n : nat) : Z :=
  le_value (take n (drop off b)).

(** [buffer.slice(start, end)] for non-negative integer arguments: both
    ends are clamped to the buffer. *)
Definition slice (b : buffer) (start stop : Z) : buffer :=
  take (Z.to_nat (stop - start)) (drop (Z.to_nat start) b).

#[global] Instance res_ret : MRet res := @Ret.
#[global] Instance res_bind : MBind res := fun A B k m => rbind m k.

End Buf.

(** ** The telemetry logger: [f1-udp-reciever/telemetry.js] *)

Module Telemetry.
Import Buf.

(** Library functions of the JavaScript runtime that the decoders call and
    whose results are display strings. *)
Class JsRuntime := {
  (** [Number.prototype.toFixed(digits)] *)
  toFixed : spec_float -> nat -> string;
  (** [Buffer.toString('utf8')] followed by [.replace(/\0/g, '').trim()] *)
  utf8Trimmed : list byte -> string
}.

(** JavaScript numbers are binary64 floats; integers are kept as [Z]. *)
Definition numOfZ (z : Z) : spec_float :=
  match z with
  | Z0 => S754_zero false
  | Zpos p => S754_finite false p 0
  | Zneg p => S754_finite true p 0
  end.
Definition jsMul : spec_float -> spec_float -> spec_float := SFmul 53 1024.
Definition jsDiv : spec_float -> spec_float -> spec_float := SFdiv 53 1024.

(** [a || d] on strings: [undefined] and the empty string are falsy. *)
Definition orElse (a : option string) (d : string) : string :=
  match a with
  | Some s => if decide (s = "") then d else s
  | None => d
  end.

(** [arr[i]] on an array literal, for an integer [i]. *)
Definition arrayAt (arr : list string) (i : Z) : option string :=
  if i <? 0 then None else arr !! Z.to_nat i.

(** [obj[k]] on an object literal with integer keys. *)
Fixpoint objAt (obj : list (Z * string)) (k : Z) : option string :=
  match obj with
  | [] => None
  | (k', v) :: rest => if k' =? k then Some v else objAt rest k
  end.

Definition padStart (n : nat) (c : string) (s : string) : string :=
  String.concat "" (replicate (n - String.length s) c) +:+ s.

Record PacketHeader := {
  packetFormat : Z;
  gameYear : Z;
  gameMajorVersion : Z;
  gameMinorVersion : Z;
  packetVersion : Z;
  packetId : Z;
  sessionUID : Z;
  sessionTime : spec_float;
  frameIdentifier : Z;
  overallFrameIdentifier : Z;
  playerCarIndex : Z;
  secondaryPlayerCarIndex : Z
}.

(** [gear] is the string 'R' or 'N', or the gear number. *)
Inductive gearValue :=
| GStr (s : string)
| GNum (n : Z).

Record DriverTelemetry := {
  speed : Z;
  throttle : string;
  brake : string;
  gear : gearValue;
  engineRPM : Z;
  drs : string;
  engineTemp : Z;
  tyreTemp : Z;
  brakeTemp : Z
}.

Record DriverLapData := {
  position : Z;
  currentLap : Z;
  lastLapTime : string;
  currentLapTime : string;
  pitStatus : string;
  penalties : Z;
  warnings : Z;
  driverStatus : string
}.

Record DriverCarStatus := {
  fuel : string;
  fuelLaps : string;
  tyreCompound : string;
  tyreAge : Z;
  ersEnergy : string;
  ersMode : string;
  flags : string
}.

(** An entry of the [drivers] map: an object whose properties appear as the
    packets arrive ([{}] has none). *)
Record Driver := {
  name : option string;
  raceNumber : option Z;
  teamId : option Z;
  isPlayer : option bool;
  isAI : option bool;
  telemetry : option DriverTelemetry;
  lapData : option DriverLapData;
  carStatus : option DriverCarStatus
}.

Definition emptyDriver : Driver :=
  {| name := None; raceNumber := None; teamId := None; isPlayer := None;
     isAI := None; telemetry := None; lapData := None; carStatus := None |}.

Record SessionInfo := {
  trackName : string;
  sessionType : string;
  weather : string;
  trackTemp : Z;
  airTemp : Z;
  totalLaps : Z;
  trackId : option Z
}.

(** Lines written to the console by the decoders and the dispatcher. *)
Inductive Msg :=
| WarnParticipantsTooSmall (len : Z)
| WarnSessionTooSmall (len : Z)
| WarnPacketFormat (format : Z)
| ParseErrorMsg (id : Z) (e : exn).

(** The module-level variables of the logger. *)
Record State := {
  drivers : gmap Z Driver;
  sessionInfo : SessionInfo;
  packetCount : Z;
  errorCount : Z;
  console : list Msg
}.

Definition initialState : State :=
  {| drivers := ∅;
     sessionInfo := {| trackName := ""; sessionType := ""; weather := "";
                       trackTemp := 0; airTemp := 0; totalLaps := 0;
                       trackId := None |};
     packetCount := 0; errorCount := 0; console := [] |}.

(** Statements run on the state and may throw; what was written before a
    throw stays written. *)
Definition M (A : Type) : Type := State -> res A * State.

Definition ret {A} (a : A) : M A := fun s => (Ret a, s).
Definition bind {A B} (m : M A) (k : A -> M B) : M B :=
  fun s => match m s with
           | (Ret a, s') => k a s'
           | (Raise e, s') => (Raise e, s')
           end.
Definition liftR {A} (r : res A) : M A := fun s => (r, s).
Definition modify (f : State -> State) : M unit := fun s => (Ret tt, f s).

#[global] Instance M_ret : MRet M := @ret.
#[global] Instance M_bind : MBind M := fun A B k m => bind m k.

Definition setDrivers (f : gmap Z Driver -> gmap Z Driver) (s : State) : State :=
  {| drivers := f (drivers s); sessionInfo := sessionInfo s;
     packetCount := packetCount s; errorCount := errorCount s;
     console := console s |}.
Definition setSessionInfo (f : SessionInfo -> SessionInfo) (s : State) : State :=
  {| drivers := drivers s; sessionInfo := f (sessionInfo s);
     packetCount := packetCount s; errorCount := errorCount s;
     console := console s |}.
Definition setPacketCount (n : Z) (s : State) : State :=
  {| drivers := drivers s; sessionInfo := sessionInfo s;
     packetCount := n; errorCount := errorCount s; console := console s |}.
Definition setErrorCount (n : Z) (s : State) : State :=
  {| drivers := drivers s; sessionInfo := sessionInfo s;
     packetCount := packetCount s; errorCount := n; console := console s |}.
Definition log (m : Msg) (s : State) : State :=
  {| drivers := drivers s; sessionInfo := sessionInfo s;
     packetCount := packetCount s; errorCount := errorCount s;
     console := console s ++ [m] |}.

(** *** [parseHeader] *)

Definition readHeaderFields (buffer : buffer) : res PacketHeader :=
  f0 ← readUInt16LE buffer 0;
  f1 ← readUInt8 buffer 2;
  f2 ← readUInt8 buffer 3;
  f3 ← readUInt8 buffer 4;
  f4 ← readUInt8 buffer 5;
  f5 ← readUInt8 buffer 6;
  f6 ← readBigUInt64LE buffer 7;
  f7 ← readFloatLE buffer 15;
  f8 ← readUInt32LE buffer 19;
  f9 ← readUInt32LE buffer 23;
  f10 ← readUInt8 buffer 27;
  f11 ← readUInt8 buffer 28;
  Ret {| packetFormat := f0; gameYear := f1; gameMajorVersion := f2;
         gameMinorVersion := f3; packetVersion := f4; packetId := f5;
         sessionUID := f6; sessionTime := f7; frameIdentifier := f8;
         overallFrameIdentifier := f9; playerCarIndex := f10;
         secondaryPlayerCarIndex := f11 |}.

(** [null] is [None]; the [catch] turns a throwing read into [null]. *)
Definition parseHeader (buffer : buffer) : option PacketHeader :=
  if blen buffer <? 29 then None
  else match readHeaderFields buffer with
       | Ret h => Some h
       | Raise _ => None
       end.

(** *** The bounds-checked accessors *)

Definition safeReadUInt8 (buffer : buffer) (offset : Z) : res Z :=
  if (offset <? 0) || (offset >=? blen buffer) then Ret 0
  else readUInt8 buffer offset.

Definition safeReadUInt16LE (buffer : buffer) (offset : Z) : res Z :=
  if (offset <? 0) || (offset + 1 >=? blen buffer) then Ret 0
  else readUInt16LE buffer offset.

Definition safeReadFloatLE (buffer : buffer) (offset : Z) : res spec_float :=
  if (offset <? 0) || (offset + 3 >=? blen buffer) then Ret (S754_zero false)
  else readFloatLE buffer offset.

Definition safeReadString `{JsRuntime} (buffer : buffer) (offset length : Z)
  : res string :=
  if (offset <? 0) || (offset + length >? blen buffer) then Ret ""
  else Ret (utf8Trimmed
              (slice buffer offset (Z.min (offset + length) (blen buffer)))).

(** *** Display helpers *)

Definition formatTime (milliseconds : Z) : string :=
  if (milliseconds =? 0) || (milliseconds >? 999999999) then "--:--"
  else
    let minutes := milliseconds / 60000 in
    let seconds := (milliseconds mod 60000) / 1000 in
    let ms := milliseconds mod 1000 in
    pretty minutes +:+ ":" +:+ padStart 2 "0" (pretty seconds)
      +:+ "." +:+ padStart 3 "0" (pretty ms).

Definition getWeatherString (weather : Z) : string :=
  let types := ["Clear"; "Light Cloud"; "Overcast"; "Light Rain";
                "Heavy Rain"; "Storm"] in
  orElse (arrayAt types weather) "Unknown".

Definition getSessionTypeString (type : Z) : string :=
  let types := ["Unknown"; "FP1"; "FP2"; "FP3"; "Short FP"; "Q1"; "Q2"; "Q3";
                "Short Q"; "OSQ"; "R"; "Sprint Shootout 1";
                "Sprint Shootout 2"; "Sprint Shootout 3";
                "Short Sprint Shootout"; "R2"; "R3"; "Time Trial"] in
  orElse (arrayAt types type) "Unknown".

Definition getTyreCompoundString (compound : Z) : string :=
  let compounds :=
    [(16, "C5"); (17, "C4"); (18, "C3"); (19, "C2"); (20, "C1"); (21, "C0");
     (7, "Inter"); (8, "Wet");
     (9, "Dry"); (10, "Wet"); (11, "Super Soft"); (12, "Soft");
     (13, "Medium"); (14, "Hard"); (15, "Wet")] in
  orElse (objAt compounds compound) "Unknown".

Definition getPitStatusString (status : Z) : string :=
  let statuses := ["None"; "Pitting"; "In Pit"] in
  orElse (arrayAt statuses status) "Unknown".

Definition getDriverStatusString (status : Z) : string :=
  let statuses := ["In Garage"; "Flying Lap"; "In Lap"; "Out Lap";
                   "On Track"] in
  orElse (arrayAt statuses status) "Unknown".

Definition getERSModeString (mode : Z) : string :=
  let modes := ["None"; "Medium"; "Hotlap"; "Overtake"] in
  orElse (arrayAt modes mode) "Unknown".

Definition getFlagString (flag : Z) : string :=
  let flags := [(-1, "Invalid"); (0, "None"); (1, "Green"); (2, "Blue");
                (3, "Yellow"); (4, "Red")] in
  orElse (objAt flags flag) "None".

(** [Math.round(s / 4)] for an integer [s >= 0]: halves round up. *)
Definition roundQuarter (s : Z) : Z := (s + 2) / 4.

Section Decoders.
Context `{JsRuntime}.

(** *** [parseParticipants] *)

Record ParticipantData := {
  pd_aiControlled : bool;
  pd_driverId : Z;
  pd_networkId : Z;
  pd_teamId : Z;
  pd_myTeam : bool;
  pd_raceNumber : Z;
  pd_nationality : Z;
  pd_name : string;
  pd_yourTelemetry : Z;
  pd_showOnlineNames : bool;
  pd_platform : Z
}.

(** The reads of one loop turn, in program order. *)
Definition readParticipant (buffer : buffer) (i offset : Z)
  : res ParticipantData :=
  aiControlled ← safeReadUInt8 buffer offset;
  driverId ← safeReadUInt8 buffer (offset + 1);
  networkId ← safeReadUInt8 buffer (offset + 2);
  teamId ← safeReadUInt8 buffer (offset + 3);
  myTeam ← safeReadUInt8 buffer (offset + 4);
  raceNumber ← safeReadUInt8 buffer (offset + 5);
  nationality ← safeReadUInt8 buffer (offset + 6);
  name ← safeReadString buffer (offset + 7) 48;
  yourTelemetry ← safeReadUInt8 buffer (offset + 55);
  showOnlineNames ← safeReadUInt8 buffer (offset + 56);
  platform ← safeReadUInt8 buffer (offset + 57);
  Ret {| pd_aiControlled := aiControlled =? 1; pd_driverId := driverId;
         pd_networkId := networkId; pd_teamId := teamId;
         pd_myTeam := myTeam =? 1; pd_raceNumber := raceNumber;
         pd_nationality := nationality;
         pd_name := orElse (Some name) ("Driver " +:+ pretty (i + 1));
         pd_yourTelemetry := yourTelemetry;
         pd_showOnlineNames := showOnlineNames =? 1;
         pd_platform := platform |}.

Definition setIdentity (header : PacketHeader) (i : Z) (p : ParticipantData)
    (d : Driver) : Driver :=
  {| name := Some (pd_name p);
     raceNumber := Some (pd_raceNumber p);
     teamId := Some (pd_teamId p);
     isPlayer := Some (bool_decide (i = playerCarIndex header));
     isAI := Some (pd_aiControlled p);
     telemetry := telemetry d; lapData := lapData d;
     carStatus := carStatus d |}.

(** [drivers.has(i)] fails: [drivers.set(i, {})]; then the five
    properties are assigned on [drivers.get(i)]. *)
Definition upsertIdentity (header : PacketHeader) (i : Z)
    (p : ParticipantData) (ds : gmap Z Driver) : gmap Z Driver :=
  match ds !! i with
  | Some d => <[i := setIdentity header i p d]> ds
  | None => <[i := setIdentity header i p emptyDriver]> ds
  end.

Fixpoint participantsLoop (turns : nat) (buffer : buffer)
    (header : PacketHeader) (i offset : Z) : M unit :=
  match turns with
  | O => ret tt
  | S turns' =>
      if offset + 58 >? blen buffer then ret tt
      else
        p ← liftR (readParticipant buffer i offset);
        _ ← modify (setDrivers (upsertIdentity header i p));
        participantsLoop turns' buffer header (i + 1) (offset + 58)
  end.

Definition parseParticipants (buffer : buffer) : M unit :=
  match parseHeader buffer with
  | None => ret tt
  | Some header =>
      if blen buffer <? 1306 then
        modify (log (WarnParticipantsTooSmall (blen buffer)))
      else
        numActiveCars ← liftR (safeReadUInt8 buffer 29);
        let actualCars := Z.min numActiveCars 22 in
        participantsLoop (Z.to_nat actualCars) buffer header 0 30
  end.

(** *** [parseSession] *)

Definition parseSession (buffer : buffer) : M unit :=
  match parseHeader buffer with
  | None => ret tt
  | Some header =>
      if blen buffer <? 644 then
        modify (log (WarnSessionTooSmall (blen buffer)))
      else
        let offset := 29 in
        weather ← liftR (safeReadUInt8 buffer offset);
        trackTemp ← liftR (readInt8 buffer (offset + 1));
        airTemp ← liftR (readInt8 buffer (offset + 2));
        totalLaps ← liftR (safeReadUInt8 buffer (offset + 3));
        trackLength ← liftR (safeReadUInt16LE buffer (offset + 4));
        sessionType ← liftR (safeReadUInt8 buffer (offset + 6));
        trackId ← liftR (readInt8 buffer (offset + 7));
        modify (setSessionInfo (fun si =>
          {| trackName := trackName si;
             sessionType := getSessionTypeString sessionType;
             weather := getWeatherString weather;
             trackTemp := trackTemp;
             airTemp := airTemp;
             totalLaps := totalLaps;
             trackId := Some trackId |}))
  end.

(** *** [parseCarTelemetry] *)

Record CarTelemetryData := {
  ct_speed : Z;
  ct_throttle : spec_float;
  ct_steer : spec_float;
  ct_brake : spec_float;
  ct_clutch : Z;
  ct_gear : Z;
  ct_engineRPM : Z;
  ct_drs : Z;
  ct_brakesTemp : Z * Z * Z * Z;
  ct_tyresSurfaceTemp : Z * Z * Z * Z;
  ct_engineTemp : Z
}.

(** The reads of one loop turn, in program order.  [buffer.readInt8] is a
    method of every [Buffer], so [buffer.readInt8 ? buffer.readInt8(o) : 0]
    is the raw read. *)
Definition readCarTelemetry (buffer : buffer) (offset : Z)
  : res CarTelemetryData :=
  speed ← safeReadUInt16LE buffer offset;
  throttle ← safeReadFloatLE buffer (offset + 2);
  steer ← safeReadFloatLE buffer (offset + 6);
  brake ← safeReadFloatLE buffer (offset + 10);
  clutch ← safeReadUInt8 buffer (offset + 14);
  gear ← readInt8 buffer (offset + 15);
  engineRPM ← safeReadUInt16LE buffer (offset + 16);
  drs ← safeReadUInt8 buffer (offset + 18);
  bt0 ← safeReadUInt16LE buffer (offset + 22);
  bt1 ← safeReadUInt16LE buffer (offset + 24);
  bt2 ← safeReadUInt16LE buffer (offset + 26);
  bt3 ← safeReadUInt16LE buffer (offset + 28);
  tt0 ← safeReadUInt8 buffer (offset + 30);
  tt1 ← safeReadUInt8 buffer (offset + 31);
  tt2 ← safeReadUInt8 buffer (offset + 32);
  tt3 ← safeReadUInt8 buffer (offset + 33);
  engineTemp ← safeReadUInt16LE buffer (offset + 38);
  Ret {| ct_speed := speed; ct_throttle := throttle; ct_steer := steer;
         ct_brake := brake; ct_clutch := clutch; ct_gear := gear;
         ct_engineRPM := engineRPM; ct_drs := drs;
         ct_brakesTemp := (bt0, bt1, bt2, bt3);
         ct_tyresSurfaceTemp := (tt0, tt1, tt2, tt3);
         ct_engineTemp := engineTemp |}.

Definition gearDisplay (gear : Z) : gearValue :=
  if gear =? -1 then GStr "R" else if gear =? 0 then GStr "N" else GNum gear.

Definition telemetryOf (c : CarTelemetryData) : DriverTelemetry :=
  let '(bt0, bt1, bt2, bt3) := ct_brakesTemp c in
  let '(tt0, tt1, tt2, tt3) := ct_tyresSurfaceTemp c in
  {| speed := ct_speed c;
     throttle := toFixed (jsMul (ct_throttle c) (numOfZ 100)) 1;
     brake := toFixed (jsMul (ct_brake c) (numOfZ 100)) 1;
     gear := gearDisplay (ct_gear c);
     engineRPM := ct_engineRPM c;
     drs := if ct_drs c =? 1 then "ON" else "OFF";
     engineTemp := ct_engineTemp c;
     tyreTemp := roundQuarter (tt0 + tt1 + tt2 + tt3);
     brakeTemp := roundQuarter (bt0 + bt1 + bt2 + bt3) |}.

Definition setTelemetry (t : DriverTelemetry) (d : Driver) : Driver :=
  {| name := name d; raceNumber := raceNumber d; teamId := teamId d;
     isPlayer := isPlayer d; isAI := isAI d;
     telemetry := Some t; lapData := lapData d; carStatus := carStatus d |}.

(** [if (drivers.has(i)) { drivers.get(i).<field> = ... }] *)
Definition updateIfPresent (i : Z) (f : Driver -> Driver)
    (ds : gmap Z Driver) : gmap Z Driver :=
  match ds !! i with
  | Some d => <[i := f d]> ds
  | None => ds
  end.

Fixpoint carTelemetryLoop (turns : nat) (buffer : buffer) (i offset : Z)
  : M unit :=
  match turns with
  | O => ret tt
  | S turns' =>
      if offset + 60 >? blen buffer then ret tt
      else
        c ← liftR (readCarTelemetry buffer offset);
        _ ← modify (setDrivers
                      (updateIfPresent i (setTelemetry (telemetryOf c))));
        carTelemetryLoop turns' buffer (i + 1) (offset + 60)
  end.

Definition parseCarTelemetry (buffer : buffer) : M unit :=
  match parseHeader buffer with
  | None => ret tt
  | Some header =>
      if blen buffer <? 1352 then ret tt
      else carTelemetryLoop 22 buffer 0 29
  end.

(** *** [parseLapData] *)

Record LapRecord := {
  lr_lastLapTimeMs : Z;
  lr_currentLapTimeMs : Z;
  lr_carPosition : Z;
  lr_currentLapNum : Z;
  lr_pitStatus : Z;
  lr_penalties : Z;
  lr_totalWarnings : Z;
  lr_driverStatus : Z
}.

Definition readLapData (buffer : buffer) (offset : Z) : res LapRecord :=
  lastLapTimeMs ← readUInt32LE buffer offset;
  currentLapTimeMs ← readUInt32LE buffer (offset + 4);
  carPosition ← safeReadUInt8 buffer (offset + 32);
  currentLapNum ← safeReadUInt8 buffer (offset + 33);
  pitStatus ← safeReadUInt8 buffer (offset + 34);
  penalties ← safeReadUInt8 buffer (offset + 38);
  totalWarnings ← safeReadUInt8 buffer (offset + 39);
  driverStatus ← safeReadUInt8 buffer (offset + 44);
  Ret {| lr_lastLapTimeMs := lastLapTimeMs;
         lr_currentLapTimeMs := currentLapTimeMs;
         lr_carPosition := carPosition;
         lr_currentLapNum := currentLapNum;
         lr_pitStatus := pitStatus; lr_penalties := penalties;
         lr_totalWarnings := totalWarnings;
         lr_driverStatus := driverStatus |}.

Definition lapDataOf (r : LapRecord) : DriverLapData :=
  {| position := lr_carPosition r;
     currentLap := lr_currentLapNum r;
     lastLapTime := formatTime (lr_lastLapTimeMs r);
     currentLapTime := formatTime (lr_currentLapTimeMs r);
     pitStatus := getPitStatusString (lr_pitStatus r);
     penalties := lr_penalties r;
     warnings := lr_totalWarnings r;
     driverStatus := getDriverStatusString (lr_driverStatus r) |}.

Definition setLapData (l : DriverLapData) (d : Driver) : Driver :=
  {| name := name d; raceNumber := raceNumber d; teamId := teamId d;
     isPlayer := isPlayer d; isAI := isAI d;
     telemetry := telemetry d; lapData := Some l; carStatus := carStatus d |}.

Fixpoint lapDataLoop (turns : nat) (buffer : buffer) (i offset : Z)
  : M unit :=
  match turns with
  | O => ret tt
  | S turns' =>
      if offset + 50 >? blen buffer then ret tt
      else
        r ← liftR (readLapData buffer offset);
        _ ← modify (setDrivers
                      (updateIfPresent i (setLapData (lapDataOf r))));
        lapDataLoop turns' buffer (i + 1) (offset + 50)
  end.

Definition parseLapData (buffer : buffer) : M unit :=
  match parseHeader buffer with
  | None => ret tt
  | Some header =>
      if blen buffer <? 1131 then ret tt
      else lapDataLoop 22 buffer 0 29
  end.

(** *** [parseCarStatus] *)

Record CarStatusData := {
  cs_fuelInTank : spec_float;
  cs_fuelCapacity : spec_float;
  cs_fuelRemainingLaps : spec_float;
  cs_actualTyreCompound : Z;
  cs_tyresAgeLaps : Z;
  cs_vehicleFiaFlags : Z;
  cs_ersStoreEnergy : spec_float;
  cs_ersDeployMode : Z
}.

Definition readCarStatus (buffer : buffer) (offset : Z)
  : res CarStatusData :=
  fuelInTank ← safeReadFloatLE buffer (offset + 5);
  fuelCapacity ← safeReadFloatLE buffer (offset + 9);
  fuelRemainingLaps ← safeReadFloatLE buffer (offset + 13);
  actualTyreCompound ← safeReadUInt8 buffer (offset + 25);
  tyresAgeLaps ← safeReadUInt8 buffer (offset + 27);
  vehicleFiaFlags ← readInt8 buffer (offset + 28);
  ersStoreEnergy ← safeReadFloatLE buffer (offset + 37);
  ersDeployMode ← safeReadUInt8 buffer (offset + 41);
  Ret {| cs_fuelInTank := fuelInTank; cs_fuelCapacity := fuelCapacity;
         cs_fuelRemainingLaps := fuelRemainingLaps;
         cs_actualTyreCompound := actualTyreCompound;
         cs_tyresAgeLaps := tyresAgeLaps;
         cs_vehicleFiaFlags := vehicleFiaFlags;
         cs_ersStoreEnergy := ersStoreEnergy;
         cs_ersDeployMode := ersDeployMode |}.

Definition carStatusOf (c : CarStatusData) : DriverCarStatus :=
  {| fuel := toFixed (cs_fuelInTank c) 2;
     fuelLaps := toFixed (cs_fuelRemainingLaps c) 1;
     tyreCompound := getTyreCompoundString (cs_actualTyreCompound c);
     tyreAge := cs_tyresAgeLaps c;
     ersEnergy :=
       toFixed (jsMul (jsDiv (cs_ersStoreEnergy c) (numOfZ 4000000))
                      (numOfZ 100)) 1;
     ersMode := getERSModeString (cs_ersDeployMode c);
     flags := getFlagString (cs_vehicleFiaFlags c) |}.

Definition setCarStatus (c : DriverCarStatus) (d : Driver) : Driver :=
  {| name := name d; raceNumber := raceNumber d; teamId := teamId d;
     isPlayer := isPlayer d; isAI := isAI d;
     telemetry := telemetry d; lapData := lapData d; carStatus := Some c |}.

Fixpoint carStatusLoop (turns : nat) (buffer : buffer) (i offset : Z)
  : M unit :=
  match turns with
  | O => ret tt
  | S turns' =>
      if offset + 55 >? blen buffer then ret tt
      else
        c ← liftR (readCarStatus buffer offset);
        _ ← modify (setDrivers
                      (updateIfPresent i (setCarStatus (carStatusOf c))));
        carStatusLoop turns' buffer (i + 1) (offset + 55)
  end.

Definition parseCarStatus (buffer : buffer) : M unit :=
  match parseHeader buffer with
  | None => ret tt
  | Some header =>
      if blen buffer <? 1239 then ret tt
      else carStatusLoop 22 buffer 0 29
  end.

(** *** The ['message'] handler *)

(** The [switch] on [header.packetId]. *)
Definition dispatch (id : Z) (msg : buffer) : M unit :=
  if id =? 4 then parseParticipants msg
  else if id =? 1 then parseSession msg
  else if id =? 2 then parseLapData msg
  else if id =? 6 then parseCarTelemetry msg
  else if id =? 7 then parseCarStatus msg
  else ret tt.

Definition supportedFormat (format : Z) : bool :=
  (format =? 2025) || (format =? 2024).

(** The inner [try ... catch (parseError)]. *)
Definition guarded (id : Z) (body : M unit) (s : State) : State :=
  match body s with
  | (Ret _, s') => s'
  | (Raise e, s') =>
      let s'' := setErrorCount (errorCount s' + 1) s' in
      if errorCount s'' <? 10 then log (ParseErrorMsg id e) s'' else s''
  end.

(** Nothing outside the inner [try] throws, so the outer [catch] is never
    entered; the size comparison against [PACKET_SIZES] has an empty
    body. *)
Definition onMessage (msg : buffer) (s : State) : State :=
  let s1 := setPacketCount (packetCount s + 1) s in
  if blen msg <? 29 then setErrorCount (errorCount s1 + 1) s1
  else
    match parseHeader msg with
    | None => setErrorCount (errorCount s1 + 1) s1
    | Some header =>
        if negb (supportedFormat (packetFormat header)) then
          let s2 := if errorCount s1 <? 5
                    then log (WarnPacketFormat (packetFormat header)) s1
                    else s1 in
          setErrorCount (errorCount s2 + 1) s2
        else guarded (packetId header) (dispatch (packetId header) msg) s1
    end.

End Decoders.

(** Everything but the drivers table is the same in both states. *)
Definition sameBesidesDrivers (s s' : State) : Prop :=
  sessionInfo s' = sessionInfo s /\ packetCount s' = packetCount s
  /\ errorCount s' = errorCount s /\ console s' = console s.

(** An entry with one of its three sub-records taken away. *)
Definition withoutTelemetry (d : Driver) : Driver :=
  {| name := name d; raceNumber := raceNumber d; teamId := teamId d;
     isPlayer := isPlayer d; isAI := isAI d;
     telemetry := None; lapData := lapData d; carStatus := carStatus d |}.
Definition withoutLapData (d : Driver) : Driver :=
  {| name := name d; raceNumber := raceNumber d; teamId := teamId d;
     isPlayer := isPlayer d; isAI := isAI d;
     telemetry := telemetry d; lapData := None; carStatus := carStatus d |}.
Definition withoutCarStatus (d : Driver) : Driver :=
  {| name := name d; raceNumber := raceNumber d; teamId := teamId d;
     isPlayer := isPlayer d; isAI := isAI d;
     telemetry := telemetry d; lapData := lapData d; carStatus := None |}.

(** A statement returns normally from every state, keeps the keys of the
    drivers table and everything outside the table, leaves the slots below
    [i] as they are, and changes an entry at most in the part that [erase]
    takes away. *)
Definition keepsSlots (erase : Driver -> Driver) (i : Z) (m : M unit) : Prop :=
  forall s, exists s',
    m s = (Ret tt, s') /\ sameBesidesDrivers s s'
    /\ dom (drivers s') = dom (drivers s)
    /\ (forall j, j < i -> drivers s' !! j = drivers s !! j)
    /\ forall j d, drivers s !! j = Some d ->
                   exists d', drivers s' !! j = Some d' /\ erase d' = erase d.

(** A decoder that returns normally from every state, writes no slot that
    has no entry and creates none, and changes an entry at most in the
    sub-record that [erase] takes away. *)
Definition writesOnlyKnownSlots (erase : Driver -> Driver) (m : M unit)
  : Prop :=
  forall s, exists s',
    m s = (Ret tt, s') /\ sameBesidesDrivers s s'
    /\ dom (drivers s') = dom (drivers s)
    /\ (forall i, drivers s !! i = None -> drivers s' !! i = None)
    /\ forall i d, drivers s !! i = Some d ->
                   exists d', drivers s' !! i = Some d' /\ erase d' = erase d.

End Telemetry.

(** ** Re-encoding a header *)

Module Encode.
Import Buf Telemetry.

(** The binary32 pattern of a number that a binary32 read can produce; NaN
    is written with the canonical quiet pattern. *)
Definition bits_of_f32 (x : spec_float) : Z :=
  let sign (s : bool) := if s then 2 ^ 31 else 0 in
  match x with
  | S754_zero s => sign s
  | S754_infinity s => sign s + 255 * 2 ^ 23
  | S754_nan => 255 * 2 ^ 23 + 2 ^ 22
  | S754_finite s m e =>
      if Z.pos m <? 2 ^ 23 then sign s + Z.pos m
      else sign s + (e + 150) * 2 ^ 23 + (Z.pos m - 2 ^ 23)
  end.

(** Modelled from the spec: the header encoder, which the repository does
    not have.  Each of the twelve fields is written back at its fixed
    offset, little-endian, in the width it was read with. *)
Definition encodeHeader (h : PacketHeader) : buffer :=
  le_bytes 2 (packetFormat h)
    ++ le_bytes 1 (gameYear h)
    ++ le_bytes 1 (gameMajorVersion h)
    ++ le_bytes 1 (gameMinorVersion h)
    ++ le_bytes 1 (packetVersion h)
    ++ le_bytes 1 (packetId h)
    ++ le_bytes 8 (sessionUID h)
    ++ le_bytes 4 (bits_of_f32 (sessionTime h))
    ++ le_bytes 4 (frameIdentifier h)
    ++ le_bytes 4 (overallFrameIdentifier h)
    ++ le_bytes 1 (playerCarIndex h)
    ++ le_bytes 1 (secondaryPlayerCarIndex h).

(** The header a buffer of at least 29 octets decodes to, field by field. *)
Definition headerAt (b : buffer) : PacketHeader :=
  {| packetFormat := field b 0 2;
     gameYear := field b 2 1;
     gameMajorVersion := field b 3 1;
     gameMinorVersion := field b 4 1;
     packetVersion := field b 5 1;
     packetId := field b 6 1;
     sessionUID := field b 7 8;
     sessionTime := f32_of_bits (field b 15 4);
     frameIdentifier := field b 19 4;
     overallFrameIdentifier := field b 23 4;
     playerCarIndex := field b 27 1;
     secondaryPlayerCarIndex := field b 28 1 |}.

(** The four octets of the [sessionTime] field are a NaN pattern. *)
Definition isNaNBits (w : Z) : bool :=
  ((w / 2 ^ 23) mod 256 =? 255) && negb (w mod 2 ^ 23 =? 0).

Definition sessionTimeBits (buffer : buffer) : Z := field buffer 15 4.

End Encode.

(** ** The event service: [F1UDPService] in [test-connection.js] *)

Module Service.
Import Buf.

Definition PACKET_TYPES : list (Z * string) :=
  [(0, "Motion"); (1, "Session"); (2, "LapData"); (3, "Event");
   (4, "Participants"); (5, "CarSetups"); (6, "CarTelemetry");
   (7, "CarStatus"); (8, "FinalClassification"); (9, "LobbyInfo");
   (10, "CarDamage"); (11, "SessionHistory"); (12, "TyreSets");
   (13, "MotionEx"); (14, "TimeTrial")].

Definition lowerAscii (c : ascii) : ascii :=
  let n := nat_of_ascii c in
  if (65 <=? n)%nat && (n <=? 90)%nat then ascii_of_nat (n + 32) else c.

(** [String.prototype.toLowerCase] on the ASCII names of [PACKET_TYPES]. *)
Fixpoint toLowerCase (s : string) : string :=
  match s with
  | EmptyString => EmptyString
  | String c r => String (lowerAscii c) (toLowerCase r)
  end.

Record Config := {
  forwardingEnabled : bool;
  forwardingAddress : string;
  forwardingPort : Z
}.

Record PacketData := {
  packetType : string;
  pdBuffer : buffer;
  timestamp : Z;
  header : Telemetry.PacketHeader
}.

(** Events handed to the listeners of the service. *)
Inductive Event :=
| EvWarning (format : Z)
| EvInvalidPacket (buffer : buffer)
| EvPacket (d : PacketData)
| EvPacketKind (eventName : string) (d : PacketData).

Record Service := {
  config : Config;
  forwardSocket : bool;
  packetsReceived : Z;
  bytesReceived : Z;
  lastPacketTime : option Z;
  packetCounts : gmap string Z;
  packetRateCounter : Z;
  emitted : list Event;
  forwarded : list (buffer * Z * string)
}.

Definition emit (e : Event) (sv : Service) : Service :=
  {| config := config sv; forwardSocket := forwardSocket sv;
     packetsReceived := packetsReceived sv;
     bytesReceived := bytesReceived sv;
     lastPacketTime := lastPacketTime sv;
     packetCounts := packetCounts sv;
     packetRateCounter := packetRateCounter sv;
     emitted := emitted sv ++ [e];
     forwarded := forwarded sv |}.

(** The object literal reads the same twelve fields as the logger's
    [parseHeader]; listeners of ['warning'] are taken not to throw. *)
Definition _parsePacketHeader (buffer : buffer) (sv : Service)
  : option Telemetry.PacketHeader * Service :=
  if blen buffer <? 29 then (None, sv)
  else match Telemetry.readHeaderFields buffer with
       | Ret h =>
           if negb (Telemetry.packetFormat h =? 2025)
           then (Some h, emit (EvWarning (Telemetry.packetFormat h)) sv)
           else (Some h, sv)
       | Raise _ => (None, sv)
       end.

Definition countPacket (now : Z) (msg : buffer) (sv : Service) : Service :=
  {| config := config sv; forwardSocket := forwardSocket sv;
     packetsReceived := packetsReceived sv + 1;
     bytesReceived := bytesReceived sv + blen msg;
     lastPacketTime := Some now;
     packetCounts := packetCounts sv;
     packetRateCounter := packetRateCounter sv + 1;
     emitted := emitted sv;
     forwarded := forwarded sv |}.

Definition countKind (kind : string) (sv : Service) : Service :=
  {| config := config sv; forwardSocket := forwardSocket sv;
     packetsReceived := packetsReceived sv;
     bytesReceived := bytesReceived sv;
     lastPacketTime := lastPacketTime sv;
     packetCounts :=
       <[kind := default 0 (packetCounts sv !! kind) + 1]> (packetCounts sv);
     packetRateCounter := packetRateCounter sv;
     emitted := emitted sv;
     forwarded := forwarded sv |}.

Definition forward (msg : buffer) (sv : Service) : Service :=
  if forwardingEnabled (config sv) && forwardSocket sv then
    {| config := config sv; forwardSocket := forwardSocket sv;
       packetsReceived := packetsReceived sv;
       bytesReceived := bytesReceived sv;
       lastPacketTime := lastPacketTime sv;
       packetCounts := packetCounts sv;
       packetRateCounter := packetRateCounter sv;
       emitted := emitted sv;
       forwarded := forwarded sv
                      ++ [(msg, forwardingPort (config sv),
                           forwardingAddress (config sv))] |}
  else sv.

Definition _handleMessage (now : Z) (msg : buffer) (sv : Service) : Service :=
  let sv1 := countPacket now msg sv in
  match _parsePacketHeader msg sv1 with
  | (None, sv2) => emit (EvInvalidPacket msg) sv2
  | (Some h, sv2) =>
      let packetTypeName :=
        Telemetry.orElse
          (Telemetry.objAt PACKET_TYPES (Telemetry.packetId h)) "Unknown" in
      let sv3 := countKind packetTypeName sv2 in
      let packetData :=
        {| packetType := packetTypeName; pdBuffer := msg; timestamp := now;
           header := h |} in
      let sv4 := forward msg sv3 in
      let sv5 := emit (EvPacket packetData) sv4 in
      emit (EvPacketKind ("packet:" +:+ toLowerCase packetTypeName) packetData)
           sv5
  end.

End Service.

(** ** The capture recorder: [f1-udp-reciever/f1-packages.js] *)

Module Recorder.
Import Buf.

Inductive RecordState := IDLE | RECORDING | PAUSED | FINISHED.

#[global] Instance RecordState_eq_dec : EqDecision RecordState.
Proof. solve_decision. Defined.

Record Frame := { metadata : buffer; data : buffer }.

(** Lines written to the console, the redraws of the screen and the
    deferred redraws [setTimeout(updateDisplay, 2000)]. *)
Inductive Msg :=
| WarnAlreadyRecording
| WarnNotRecording
| WarnNoFinishedRecording
| WarnNoRecordingToDiscard
| WarnStartFirst
| InfoRecordingStarted
| InfoRecordingFinished
| InfoRecordingSaved (finalFile : string)
| InfoRecordingDiscarded
| InfoRecordingPaused
| InfoRecordingResumed
| UpdateDisplay
| UpdateDisplayLater.

Inductive FsOp :=
| CreateWriteStream (path : string)
| StreamWrite (path : string) (bytes : buffer)
| StreamEnd (path : string)
| RenameSync (oldPath newPath : string)
| UnlinkSync (path : string).

Record Stats := {
  packetCount : Z;
  dataSize : Z;
  sessionStartTime : Z;
  lastPacketTime : Z;
  maxGap : Z;
  droppedPackets : Z;
  packetStats : gmap string Z
}.

Definition zeroStats : Stats :=
  {| packetCount := 0; dataSize := 0; sessionStartTime := 0;
     lastPacketTime := 0; maxGap := 0; droppedPackets := 0;
     packetStats := ∅ |}.

(** The module-level variables; [writeStream] is the path the open stream
    writes to, [None] for [null]. *)
Record Recorder := {
  currentState : RecordState;
  writeStream : option string;
  currentTempFile : option string;
  stats : Stats;
  writeQueue : list Frame;
  console : list Msg;
  fsLog : list FsOp
}.

Definition initial : Recorder :=
  {| currentState := IDLE; writeStream := None; currentTempFile := None;
     stats := zeroStats; writeQueue := []; console := []; fsLog := [] |}.

(** How a call ends: it returns, or an exception leaves it. *)
Inductive Outcome := Returned | Threw.

Definition say (ms : list Msg) (r : Recorder) : Recorder :=
  {| currentState := currentState r; writeStream := writeStream r;
     currentTempFile := currentTempFile r; stats := stats r;
     writeQueue := writeQueue r; console := console r ++ ms;
     fsLog := fsLog r |}.

Definition fsDo (ops : list FsOp) (r : Recorder) : Recorder :=
  {| currentState := currentState r; writeStream := writeStream r;
     currentTempFile := currentTempFile r; stats := stats r;
     writeQueue := writeQueue r; console := console r;
     fsLog := fsLog r ++ ops |}.

Definition setState (st : RecordState) (r : Recorder) : Recorder :=
  {| currentState := st; writeStream := writeStream r;
     currentTempFile := currentTempFile r; stats := stats r;
     writeQueue := writeQueue r; console := console r; fsLog := fsLog r |}.

(** [if (writeStream) writeStream.end()] *)
Definition endStreamIfOpen (r : Recorder) : Recorder :=
  match writeStream r with
  | Some p => fsDo [StreamEnd p] r
  | None => r
  end.

Definition tempPath (stamp : string) : string :=
  "temp_sessions/temp_session_" +:+ stamp +:+ ".bin".
Definition finalPath (stamp : string) : string :=
  "captured_data/f1_session_" +:+ stamp +:+ ".bin".

(** [stamp] is the text derived from [new Date().toISOString()]. *)
Definition startNewRecording (stamp : string) (r : Recorder)
  : Outcome * Recorder :=
  if decide (currentState r = RECORDING) then
    (Returned, say [WarnAlreadyRecording; UpdateDisplayLater] r)
  else
    let r1 := endStreamIfOpen r in
    let file := tempPath stamp in
    let r2 :=
      {| currentState := RECORDING;
         writeStream := Some file;
         currentTempFile := Some file;
         stats := zeroStats;
         writeQueue := [];
         console := console r1;
         fsLog := fsLog r1 ++ [CreateWriteStream file] |} in
    (Returned, say [UpdateDisplay; InfoRecordingStarted] r2).

Definition concatFrames (q : list Frame) : buffer :=
  flat_map (fun f => metadata f ++ data f) q.

(** A method call on a [null] [writeStream] throws. *)
Definition finishRecording (r : Recorder) : Outcome * Recorder :=
  match currentState r with
  | RECORDING | PAUSED =>
      let r1 := setState FINISHED r in
      match writeStream r1 with
      | None => (Threw, r1)
      | Some p =>
          let r2 := match writeQueue r1 with
                    | [] => r1
                    | q => fsDo [StreamWrite p (concatFrames q)] r1
                    end in
          let r3 := fsDo [StreamEnd p] r2 in
          (Returned, say [UpdateDisplay; InfoRecordingFinished] r3)
      end
  | _ => (Returned, say [WarnNotRecording; UpdateDisplayLater] r)
  end.

(** [renameOk] tells whether [fs.renameSync] succeeds; it throws
    otherwise. *)
Definition saveRecording (stamp : string) (renameOk : bool) (r : Recorder)
  : Outcome * Recorder :=
  match currentState r, currentTempFile r with
  | FINISHED, Some temp =>
      let finalFile := finalPath stamp in
      if renameOk then
        let r1 := fsDo [RenameSync temp finalFile] r in
        let r2 :=
          {| currentState := IDLE; writeStream := None;
             currentTempFile := None; stats := stats r1;
             writeQueue := writeQueue r1; console := console r1;
             fsLog := fsLog r1 |} in
        (Returned, say [UpdateDisplay; InfoRecordingSaved finalFile] r2)
      else (Threw, r)
  | _, _ =>
      (Returned, say [WarnNoFinishedRecording; UpdateDisplayLater] r)
  end.

(** [tempExists] is the answer of [fs.existsSync(currentTempFile)]. *)
Definition discardRecording (tempExists : bool) (r : Recorder)
  : Outcome * Recorder :=
  match currentTempFile r with
  | None => (Returned, say [WarnNoRecordingToDiscard; UpdateDisplayLater] r)
  | Some temp =>
      let r1 := endStreamIfOpen r in
      let r2 := if tempExists then fsDo [UnlinkSync temp] r1 else r1 in
      let r3 :=
        {| currentState := IDLE; writeStream := None;
           currentTempFile := None; stats := stats r2;
           writeQueue := writeQueue r2; console := console r2;
           fsLog := fsLog r2 |} in
      (Returned, say [UpdateDisplay; InfoRecordingDiscarded] r3)
  end.

Definition togglePause (r : Recorder) : Outcome * Recorder :=
  match currentState r with
  | RECORDING =>
      (Returned, say [UpdateDisplay; InfoRecordingPaused] (setState PAUSED r))
  | PAUSED =>
      (Returned,
       say [UpdateDisplay; InfoRecordingResumed] (setState RECORDING r))
  | _ => (Returned, say [WarnStartFirst; UpdateDisplayLater] r)
  end.

(** A call reported a problem to the user: it wrote one of the warnings. *)
Definition isWarning (m : Msg) : bool :=
  match m with
  | WarnAlreadyRecording | WarnNotRecording | WarnNoFinishedRecording
  | WarnNoRecordingToDiscard | WarnStartFirst => true
  | _ => false
  end.

Definition warned (before after : Recorder) : Prop :=
  ∃ w rest, isWarning w = true ∧ console after = console before ++ w :: rest.

(** A call was refused: it returned, wrote a warning, and changed nothing
    but the console. *)
Definition refused (r : Recorder) (result : Outcome * Recorder) : Prop :=
  fst result = Returned
  /\ warned r (snd result)
  /\ currentState (snd result) = currentState r
  /\ writeStream (snd result) = writeStream r
  /\ currentTempFile (snd result) = currentTempFile r
  /\ stats (snd result) = stats r
  /\ writeQueue (snd result) = writeQueue r
  /\ fsLog (snd result) = fsLog r.

(** Outside [IDLE] there is a temporary file and a stream. *)
Definition hasFile (r : Recorder) : Prop :=
  currentState r <> IDLE ->
  is_Some (currentTempFile r) /\ is_Some (writeStream r).

(** The keys of the control surface, with what the environment answers. *)
Inductive Key :=
| KeyR (stamp : string)
| KeyF
| KeyS (stamp : string) (renameOk : bool)
| KeyD (tempExists : bool)
| KeyP.

Definition press (k : Key) (r : Recorder) : Outcome * Recorder :=
  match k with
  | KeyR stamp => startNewRecording stamp r
  | KeyF => finishRecording r
  | KeyS stamp renameOk => saveRecording stamp renameOk r
  | KeyD tempExists => discardRecording tempExists r
  | KeyP => togglePause r
  end.

Definition pressAll (ks : list Key) (r : Recorder) : Recorder :=
  fold_left (fun r k => snd (press k r)) ks r.

End Recorder.

(** ** The replay engine: [f1-udp-reciever/replay-data.js] *)

Module Replay.
Import Buf.

(** The variables [startReplay] closes over. *)
Record ReplayState := {
  offset : Z;
  packetCount : Z;
  firstTimestamp : option Z
}.

Definition initial : ReplayState :=
  {| offset := 0; packetCount := 0; firstTimestamp := None |}.

(** [TIMEOUT_MAX] of Node's timers. *)
Definition TIMEOUT_MAX : Z := 2 ^ 31 - 1.

(** The whole milliseconds after which Node runs the callback of
    [setTimeout(callback, after)]: a delay outside 1 .. [TIMEOUT_MAX] is
    replaced by 1, and the fraction of a millisecond is dropped. *)
Definition timerDelay (after : Q) : Z :=
  if Qle_bool 1 after && Qle_bool after (inject_Z TIMEOUT_MAX)
  then Qfloor after
  else 1.

(** How the next call of [sendNextPacket] is requested: [setImmediate], or
    [setTimeout] with a wait in milliseconds. *)
Inductive Schedule :=
| Immediate
| After (waitTime : Q).

Inductive Step :=
(** "Replay complete!", [client.close()], [process.exit(0)] *)
| Completed (sentTotal : Z)
(** an uncaught exception of a raw read ends the process *)
| Crashed (e : exn)
(** the callback of [client.send] gets an error: "Send error",
    [client.close()], [process.exit(1)], before the next call runs *)
| SendFailed (packetData : buffer)
(** [client.send(packetData, ...)] succeeds, and the next call is
    requested *)
| Sent (packetData : buffer) (next : Schedule) (st : ReplayState).

(** A socket that sends every datagram of at most 65507 octets, the most a
    UDP datagram over IPv4 carries, and fails on a larger one. *)
Definition udp4 (packetData : buffer) : bool := blen packetData <=? 65507.

(** One call of [sendNextPacket].  [sendOk] tells whether the socket sends
    the datagram it is given or reports an error to the callback of
    [client.send]; [now] is the value of [Date.now()] read when the wait is
    computed, in whole milliseconds like [replayStartTime].  [speed] is the
    number the caller passes, an integer from 1 to 10 (a non-numeric answer
    makes it [NaN], which is left out).  Numbers are exact rationals: the
    quotient by [speed] is not rounded to a double, and the stored timestamp
    is taken below 2^53, where [Number(BigInt)] is exact.  The progress line
    printed every hundred packets is left out. *)
Definition sendNextPacket (fileBuffer : buffer) (sendOk : buffer -> bool)
    (speed : Q) (replayStartTime now : Z) (st : ReplayState) : Step :=
  if offset st >=? blen fileBuffer then Completed (packetCount st)
  else
    match readUInt32LE fileBuffer (offset st) with
    | Raise e => Crashed e
    | Ret packetSize =>
        match readBigUInt64LE fileBuffer (offset st + 4) with
        | Raise e => Crashed e
        | Ret timestamp =>
            let offset1 := offset st + 12 in
            let packetData := slice fileBuffer offset1 (offset1 + packetSize) in
            let offset2 := offset1 + packetSize in
            if negb (sendOk packetData) then SendFailed packetData
            else
              let count := packetCount st + 1 in
              match firstTimestamp st with
              | None =>
                  Sent packetData Immediate
                       {| offset := offset2; packetCount := count;
                          firstTimestamp := Some timestamp |}
              | Some first =>
                  let originalDelay := inject_Z (timestamp - first) in
                  let replayDelay := (originalDelay / speed)%Q in
                  let targetTime :=
                    (inject_Z replayStartTime + replayDelay)%Q in
                  let waitTime := (targetTime - inject_Z now)%Q in
                  Sent packetData
                       (if Qle_bool waitTime 0 then Immediate
                        else After waitTime)
                       {| offset := offset2; packetCount := count;
                          firstTimestamp := Some first |}
              end
        end
    end.

Inductive Ending :=
| Finished (sentTotal : Z)
| Aborted (e : exn)
| SendError
| Unfinished.

(** The replay on an ideal clock: the callback of a timer runs exactly when
    the timer is due, that of [setImmediate] at once, and a call takes no
    time.  The trace lists the datagrams sent with the time of their send,
    in whole milliseconds. *)
Fixpoint run (fuel : nat) (fileBuffer : buffer) (sendOk : buffer -> bool)
    (speed : Q) (replayStartTime now : Z) (st : ReplayState)
  : list (Z * buffer) * Ending :=
  match fuel with
  | O => ([], Unfinished)
  | S fuel' =>
      match sendNextPacket fileBuffer sendOk speed replayStartTime now st with
      | Completed n => ([], Finished n)
      | Crashed e => ([], Aborted e)
      | SendFailed _ => ([], SendError)
      | Sent packetData next st' =>
          let now' := match next with
                      | Immediate => now
                      | After w => now + timerDelay w
                      end in
          let '(trace, ending) :=
            run fuel' fileBuffer sendOk speed replayStartTime now' st' in
          ((now, packetData) :: trace, ending)
      end
  end.

(** [startReplay]: every turn consumes at least the twelve octets of a
    frame header, so [length fileBuffer + 1] turns are enough. *)
Definition startReplay (fileBuffer : buffer) (sendOk : buffer -> bool)
    (speed : Q) (startTime : Z) : list (Z * buffer) * Ending :=
  run (S (length fileBuffer)) fileBuffer sendOk speed startTime startTime
      initial.

(** A capture frame as the recorder writes it: [u32] length, [u64]
    timestamp, payload. *)
Definition frame (declaredLength timestamp : Z) (payload : buffer) : buffer :=
  le_bytes 4 declaredLength ++ le_bytes 8 timestamp ++ payload.

(** The wall-clock target of a frame, in milliseconds after the start of
    the replay. *)
Definition targetDelay (epoch timestamp : Z) (speed : Q) : Q :=
  (inject_Z (timestamp - epoch) / speed)%Q.

End Replay.

(** ** Concrete packets and states used in examples *)

Module Fixtures.
Import Buf Telemetry.

(** A stand-in for the runtime's string functions: NUL octets are dropped,
    the other octets are taken as characters. *)
Definition plainRuntime : JsRuntime :=
  {| toFixed := fun _ _ => "0.0";
     utf8Trimmed := fun bs =>
       String.string_of_list_byte
         (List.filter (fun x => negb (Byte.eqb x x00)) bs) |}.

(** A 29-octet header: the given format and packet id, game 25 v1.0,
    session UID 1, the given [sessionTime] octets, frame 2, overall frame 3,
    player car 0, no second player. *)
Definition headerBytes (format id : Z) (time : list byte) : buffer :=
  le_bytes 2 format ++ [x19; x01; x00; x01] ++ le_bytes 1 id
    ++ le_bytes 8 1 ++ time ++ le_bytes 4 2 ++ le_bytes 4 3 ++ [x00; xff].

(** [sessionTime] 1.5, the quiet NaN 0x7FC00000 and the signalling NaN
    0x7F800001. *)
Definition timeOnePointFive : list byte := [x00; x00; xc0; x3f].
Definition timeQuietNaN : list byte := [x00; x00; xc0; x7f].
Definition timePayloadNaN : list byte := [x01; x00; x80; x7f].

Definition plainHeader : buffer := headerBytes 2025 6 timeOnePointFive.
Definition quietNaNHeader : buffer := headerBytes 2025 6 timeQuietNaN.
Definition payloadNaNHeader : buffer := headerBytes 2025 6 timePayloadNaN.

(** A Car Telemetry packet of 1352 octets: speed 287 at offset 29, gear 7 at
    offset 44, zeros elsewhere. *)
Definition telemetryPacket (format : Z) : buffer :=
  headerBytes format 6 timeOnePointFive
    ++ [x1f; x01] ++ replicate 13 x00 ++ [x07] ++ replicate 1307 x00.

(** A Participants packet of 1306 octets announcing one car. *)
Definition participantsPacket : buffer :=
  headerBytes 2025 4 timeOnePointFive ++ [x01] ++ replicate 1276 x00.

(** A Lap Data packet of 1131 octets and a Session packet of 644 octets,
    zeros after the header. *)
Definition lapDataPacket : buffer :=
  headerBytes 2025 2 timeOnePointFive ++ replicate 1102 x00.
Definition sessionPacket : buffer :=
  headerBytes 2025 1 timeOnePointFive ++ replicate 615 x00.

(** The entry that [participantsPacket] creates for slot 0. *)
Definition driverOne : Driver :=
  {| name := Some "Driver 1"; raceNumber := Some 0; teamId := Some 0;
     isPlayer := Some true; isAI := Some false;
     telemetry := None; lapData := None; carStatus := None |}.

(** The logger after it has seen [participantsPacket]: slot 0 is known. *)
Definition oneDriver : State :=
  @onMessage plainRuntime participantsPacket initialState.

(** An event service that forwards to 127.0.0.1:20778 and has counted
    nothing yet. *)
Definition forwardingService : Service.Service :=
  {| Service.config :=
       {| Service.forwardingEnabled := true;
          Service.forwardingAddress := "127.0.0.1";
          Service.forwardingPort := 20778 |};
     Service.forwardSocket := true;
     Service.packetsReceived := 0;
     Service.bytesReceived := 0;
     Service.lastPacketTime := None;
     Service.packetCounts := ∅;
     Service.packetRateCounter := 0;
     Service.emitted := [];
     Service.forwarded := [] |}.

(** The recorder after [R] then [P], and after [R] then [F]. *)
Definition pausedRecorder : Recorder.Recorder :=
  Recorder.pressAll [Recorder.KeyR "t1"; Recorder.KeyP] Recorder.initial.
Definition finishedRecorder : Recorder.Recorder :=
  Recorder.pressAll [Recorder.KeyR "t1"; Recorder.KeyF] Recorder.initial.

(** A capture file whose only frame declares 10 octets of payload and has
    3. *)
Definition truncatedCapture : buffer :=
  Replay.frame 10 5000 [x01; x02; x03].

(** A capture file of three one-octet frames recorded at 5000, 6000 and
    6500 ms. *)
Definition threeFrames : buffer :=
  Replay.frame 1 5000 [x0a] ++ Replay.frame 1 6000 [x0b]
    ++ Replay.frame 1 6500 [x0c].

End Fixtures.

(** ** The record layouts, read off the decoders *)

Module Layout.
Import Buf Telemetry.

(** The Car Telemetry record that starts at octet [off]. *)
Definition carTelemetryAt (b : buffer) (off : nat) : CarTelemetryData :=
  {| ct_speed := field b off 2;
     ct_throttle := f32_of_bits (field b (off + 2) 4);
     ct_steer := f32_of_bits (field b (off + 6) 4);
     ct_brake := f32_of_bits (field b (off + 10) 4);
     ct_clutch := field b (off + 14) 1;
     ct_gear := int8_of (field b (off + 15) 1);
     ct_engineRPM := field b (off + 16) 2;
     ct_drs := field b (off + 18) 1;
     ct_brakesTemp :=
       (field b (off + 22) 2, field b (off + 24) 2, field b (off + 26) 2,
        field b (off + 28) 2);
     ct_tyresSurfaceTemp :=
       (field b (off + 30) 1, field b (off + 31) 1, field b (off + 32) 1,
        field b (off + 33) 1);
     ct_engineTemp := field b (off + 38) 2 |}.

(** The Lap Data record that starts at octet [off]. *)
Definition lapRecordAt (b : buffer) (off : nat) : LapRecord :=
  {| lr_lastLapTimeMs := field b off 4;
     lr_currentLapTimeMs := field b (off + 4) 4;
     lr_carPosition := field b (off + 32) 1;
     lr_currentLapNum := field b (off + 33) 1;
     lr_pitStatus := field b (off + 34) 1;
     lr_penalties := field b (off + 38) 1;
     lr_totalWarnings := field b (off + 39) 1;
     lr_driverStatus := field b (off + 44) 1 |}.

(** The Car Status record that starts at octet [off]. *)
Definition carStatusAt (b : buffer) (off : nat) : CarStatusData :=
  {| cs_fuelInTank := f32_of_bits (field b (off + 5) 4);
     cs_fuelCapacity := f32_of_bits (field b (off + 9) 4);
     cs_fuelRemainingLaps := f32_of_bits (field b (off + 13) 4);
     cs_actualTyreCompound := field b (off + 25) 1;
     cs_tyresAgeLaps := field b (off + 27) 1;
     cs_vehicleFiaFlags := int8_of (field b (off + 28) 1);
     cs_ersStoreEnergy := f32_of_bits (field b (off + 37) 4);
     cs_ersDeployMode := field b (off + 41) 1 |}.

(** The Participants record of car [i] that starts at octet [off]. *)
Definition participantAt `{JsRuntime} (b : buffer) (i : Z) (off : nat)
  : ParticipantData :=
  {| pd_aiControlled := field b off 1 =? 1;
     pd_driverId := field b (off + 1) 1;
     pd_networkId := field b (off + 2) 1;
     pd_teamId := field b (off + 3) 1;
     pd_myTeam := field b (off + 4) 1 =? 1;
     pd_raceNumber := field b (off + 5) 1;
     pd_nationality := field b (off + 6) 1;
     pd_name := orElse (Some (utf8Trimmed (take 48 (drop (off + 7) b))))
                       ("Driver " +:+ pretty (i + 1));
     pd_yourTelemetry := field b (off + 55) 1;
     pd_showOnlineNames := field b (off + 56) 1 =? 1;
     pd_platform := field b (off + 57) 1 |}.

(** The session record a Session packet leaves, given the one before. *)
Definition sessionAt (b : buffer) (old : SessionInfo) : SessionInfo :=
  {| trackName := trackName old;
     sessionType := getSessionTypeString (field b 35 1);
     weather := getWeatherString (field b 29 1);
     trackTemp := int8_of (field b 30 1);
     airTemp := int8_of (field b 31 1);
     totalLaps := field b 32 1;
     trackId := Some (int8_of (field b 36 1)) |}.

(** What a packet with [n] car records does to slot [j], whose entry was
    [o]: the entry of a slot [j < n] is rewritten by [write j], when there
    is one. *)
Definition rewriteSlot (n : nat) (write : nat -> Driver -> Driver) (j : Z)
    (o : option Driver) : option Driver :=
  if decide (0 <= j < Z.of_nat n) then write (Z.to_nat j) <$> o else o.

(** What a Participants packet announcing [n] cars does to slot [j]: the
    entry of a slot [j < n] is created if need be, and rewritten. *)
Definition upsertSlot (n : nat) (write : nat -> Driver -> Driver) (j : Z)
    (o : option Driver) : option Driver :=
  if decide (0 <= j < Z.of_nat n)
  then Some (write (Z.to_nat j) (default emptyDriver o))
  else o.

(** The number of car records a packet of the given minimum size carries. *)
Definition recordsIn (b : buffer) (minSize : Z) : nat :=
  if blen b <? minSize then 0%nat else 22%nat.

Definition telemetryWrite `{JsRuntime} (b : buffer) (k : nat)
  : Driver -> Driver :=
  setTelemetry (telemetryOf (carTelemetryAt b (29 + 60 * k))).
Definition lapDataWrite (b : buffer) (k : nat) : Driver -> Driver :=
  setLapData (lapDataOf (lapRecordAt b (29 + 50 * k))).
Definition carStatusWrite `{JsRuntime} (b : buffer) (k : nat)
  : Driver -> Driver :=
  setCarStatus (carStatusOf (carStatusAt b (29 + 55 * k))).
Definition identityWrite `{JsRuntime} (b : buffer) (k : nat)
  : Driver -> Driver :=
  setIdentity (Encode.headerAt b) (Z.of_nat k)
              (participantAt b (Z.of_nat k) (30 + 58 * k)).

(** The number of cars a Participants packet announces, at most 22. *)
Definition announcedCars (b : buffer) : nat :=
  if blen b <? 1306 then 0%nat else Z.to_nat (Z.min (field b 29 1) 22).

(** The datagrams the dispatcher counts as errors: shorter than a header,
    or in a format other than 2025 and 2024. *)
Definition rejected (msg : buffer) : bool :=
  (blen msg <? 29) || negb (supportedFormat (field msg 0 2)).

(** The dispatcher as a function on one slot of the drivers table. *)
Definition slotAfter `{JsRuntime} (msg : buffer) (j : Z) (o : option Driver)
  : option Driver :=
  if rejected msg then o
  else
    let id := field msg 6 1 in
    if id =? 4 then upsertSlot (announcedCars msg) (identityWrite msg) j o
    else if id =? 2
    then rewriteSlot (recordsIn msg 1131) (lapDataWrite msg) j o
    else if id =? 6
    then rewriteSlot (recordsIn msg 1352) (telemetryWrite msg) j o
    else if id =? 7
    then rewriteSlot (recordsIn msg 1239) (carStatusWrite msg) j o
    else o.

(** The dispatcher as a function on the session record. *)
Definition sessionAfter (msg : buffer) (si : SessionInfo) : SessionInfo :=
  if rejected msg then si
  else if (field msg 6 1 =? 1) && negb (blen msg <? 644) then sessionAt msg si
  else si.

(** The lines the dispatcher and the decoders print for a datagram, when
    [errors] errors were counted before it. *)
Definition linesAfter (msg : buffer) (errors : Z) : list Msg :=
  if blen msg <? 29 then []
  else if negb (supportedFormat (field msg 0 2)) then
    if errors <? 5 then [WarnPacketFormat (field msg 0 2)] else []
  else if (field msg 6 1 =? 4) && (blen msg <? 1306)
  then [WarnParticipantsTooSmall (blen msg)]
  else if (field msg 6 1 =? 1) && (blen msg <? 644)
  then [WarnSessionTooSmall (blen msg)]
  else [].

(** A run of datagrams through the handler, first to last. *)
Definition onMessages `{JsRuntime} (msgs : list buffer) (s : State) : State :=
  fold_left (fun s msg => onMessage msg s) msgs s.

Definition isFormatWarning (m : Msg) : bool :=
  match m with WarnPacketFormat _ => true | _ => false end.
Definition isParseError (m : Msg) : bool :=
  match m with ParseErrorMsg _ _ => true | _ => false end.

End Layout.

(** ** The event service over time: statistics and the rate monitor *)

Module Monitor.
Import Buf Service.

(** What [getStatistics] returns. *)
Record Statistics := {
  st_packetsReceived : Z;
  st_bytesReceived : Z;
  st_packetsPerSecond : Z;
  st_averagePacketsPerSecond : string;
  st_runtime : string;
  st_packetCounts : gmap string Z;
  st_lastPacketTime : option Z;
  st_isRunning : bool
}.

(** The service with the fields its statistics need besides those of
    [Service]: [stats.packetsPerSecond], [stats.sessionStartTime],
    [isRunning], and the ['stats'] and ['statsReset'] events it emitted. *)
Record Monitored := {
  service : Service;
  packetsPerSecond : Z;
  sessionStartTime : option Z;
  isRunning : bool;
  statsEvents : list Statistics;
  statsResets : nat
}.

Definition withService (f : Service -> Service) (m : Monitored) : Monitored :=
  {| service := f (service m); packetsPerSecond := packetsPerSecond m;
     sessionStartTime := sessionStartTime m; isRunning := isRunning m;
     statsEvents := statsEvents m; statsResets := statsResets m |}.

(** The socket's ['message'] listener. *)
Definition onDatagram (now : Z) (msg : buffer) (m : Monitored) : Monitored :=
  withService (_handleMessage now msg) m.

(** [getStatistics()] at time [now]; a start time of [null] (or 0) is
    falsy. *)
Definition getStatistics `{Telemetry.JsRuntime} (now : Z) (m : Monitored)
  : Statistics :=
  let elapsed := match sessionStartTime m with
                 | Some t => if t =? 0 then None else Some (now - t)
                 | None => None
                 end in
  let runtime := match elapsed with
                 | Some d => Telemetry.jsDiv (Telemetry.numOfZ d)
                                             (Telemetry.numOfZ 1000)
                 | None => Telemetry.numOfZ 0
                 end in
  let positive := match elapsed with Some d => 0 <? d | None => false end in
  {| st_packetsReceived := packetsReceived (service m);
     st_bytesReceived := bytesReceived (service m);
     st_packetsPerSecond := packetsPerSecond m;
     st_averagePacketsPerSecond :=
       if positive
       then Telemetry.toFixed
              (Telemetry.jsDiv
                 (Telemetry.numOfZ (packetsReceived (service m))) runtime) 2
       else "0";
     st_runtime := Telemetry.toFixed runtime 2;
     st_packetCounts := packetCounts (service m);
     st_lastPacketTime := lastPacketTime (service m);
     st_isRunning := isRunning m |}.

Definition clearRateCounter (sv : Service) : Service :=
  {| config := config sv; forwardSocket := forwardSocket sv;
     packetsReceived := packetsReceived sv;
     bytesReceived := bytesReceived sv;
     lastPacketTime := lastPacketTime sv;
     packetCounts := packetCounts sv;
     packetRateCounter := 0;
     emitted := emitted sv;
     forwarded := forwarded sv |}.

(** The callback of [_startPacketRateMonitor], run every second. *)
Definition rateTick `{Telemetry.JsRuntime} (now : Z) (m : Monitored)
  : Monitored :=
  let m1 :=
    {| service := clearRateCounter (service m);
       packetsPerSecond := packetRateCounter (service m);
       sessionStartTime := sessionStartTime m; isRunning := isRunning m;
       statsEvents := statsEvents m; statsResets := statsResets m |} in
  {| service := service m1; packetsPerSecond := packetsPerSecond m1;
     sessionStartTime := sessionStartTime m1; isRunning := isRunning m1;
     statsEvents := statsEvents m1 ++ [getStatistics now m1];
     statsResets := statsResets m1 |}.

Definition resetStatistics (now : Z) (m : Monitored) : Monitored :=
  {| service :=
       {| config := config (service m);
          forwardSocket := forwardSocket (service m);
          packetsReceived := 0;
          bytesReceived := 0;
          lastPacketTime := None;
          packetCounts := ∅;
          packetRateCounter := 0;
          emitted := emitted (service m);
          forwarded := forwarded (service m) |};
     packetsPerSecond := 0;
     sessionStartTime := Some now;
     isRunning := isRunning m;
     statsEvents := statsEvents m;
     statsResets := S (statsResets m) |}.

(** Datagrams with their arrival times, handled first to last. *)
Definition handleAll (arrivals : list (Z * buffer)) (sv : Service) : Service :=
  fold_left (fun sv a => _handleMessage (fst a) (snd a) sv) arrivals sv.

Definition onDatagrams (arrivals : list (Z * buffer)) (m : Monitored)
  : Monitored :=
  fold_left (fun m a => onDatagram (fst a) (snd a) m) arrivals m.

(** The octets of a run of datagrams. *)
Definition totalBytes (arrivals : list (Z * buffer)) : Z :=
  foldr (fun a acc => blen (snd a) + acc) 0 arrivals.

(** The datagrams too short to hold a header. *)
Definition isShort (a : Z * buffer) : bool := blen (snd a) <? 29.

(** The sum of the per-kind counts. *)
Definition totalCount (counts : gmap string Z) : Z :=
  map_fold (fun _ v acc => v + acc) 0 counts.

Definition isInvalidEvent (e : Event) : bool :=
  match e with EvInvalidPacket _ => true | _ => false end.

(** The name of the packet kind with the given id. *)
Definition kindName (id : Z) : string :=
  Telemetry.orElse (Telemetry.objAt PACKET_TYPES id) "Unknown".

(** The events a datagram of at least 29 octets is published with. *)
Definition published (now : Z) (msg : buffer) : list Event :=
  let h := Encode.headerAt msg in
  let pd := {| packetType := kindName (Telemetry.packetId h);
               pdBuffer := msg; timestamp := now; header := h |} in
  (if Telemetry.packetFormat h =? 2025 then []
   else [EvWarning (Telemetry.packetFormat h)])
    ++ [EvPacket pd;
        EvPacketKind ("packet:" +:+ toLowerCase (kindName (Telemetry.packetId h)))
                     pd].

End Monitor.

(** ** The capture recorder's data path: the ['message'] handler, the write
    queue and the shutdown *)

Module Capture.
Import Buf Recorder.

Definition packetTypes : list string :=
  ["Motion"; "Session"; "Lap Data"; "Event"; "Participants";
   "Car Setups"; "Car Telemetry"; "Car Status"; "Final Classification";
   "Lobby Info"; "Car Damage"; "Session History"; "Tyre Sets";
   "Motion Ex"; "Time Trial"].

(** Lines of the data path, kept apart from the recorder's console. *)
Inductive Note :=
| NoteReceivingData
| NoteWriteError
| NoteShuttingDown
| NoteAutoSaving
| NoteUnsavedAutoSaving
| NoteGoodbye.

(** The recorder with [isWriting] and, for each [writeStream.write] whose
    callback has not run yet, the length of its batch. *)
Record Capture := {
  recorder : Recorder;
  isWriting : bool;
  pending : list nat;
  notes : list Note
}.

Definition fresh : Capture :=
  {| recorder := initial; isWriting := false; pending := []; notes := [] |}.

Definition withRecorder (f : Recorder -> Recorder) (c : Capture) : Capture :=
  {| recorder := f (recorder c); isWriting := isWriting c;
     pending := pending c; notes := notes c |}.

Definition note (n : Note) (c : Capture) : Capture :=
  {| recorder := recorder c; isWriting := isWriting c;
     pending := pending c; notes := notes c ++ [n] |}.

Definition withStats (f : Stats -> Stats) (r : Recorder) : Recorder :=
  {| currentState := currentState r; writeStream := writeStream r;
     currentTempFile := currentTempFile r; stats := f (stats r);
     writeQueue := writeQueue r; console := console r; fsLog := fsLog r |}.

Definition withQueue (q : list Frame) (r : Recorder) : Recorder :=
  {| currentState := currentState r; writeStream := writeStream r;
     currentTempFile := currentTempFile r; stats := stats r;
     writeQueue := q; console := console r; fsLog := fsLog r |}.

(** [processWriteQueue]: a batch of at most 100 frames is handed to the
    stream unless a write is in flight. *)
Definition processWriteQueue (c : Capture) : Capture :=
  match writeStream (recorder c), isWriting c, writeQueue (recorder c) with
  | Some p, false, _ :: _ =>
      let batch := take 100 (writeQueue (recorder c)) in
      let rest := drop 100 (writeQueue (recorder c)) in
      {| recorder :=
           fsDo [StreamWrite p (concatFrames batch)]
                (withQueue rest (recorder c));
         isWriting := true;
         pending := pending c ++ [length batch];
         notes := notes c |}
  | _, _, _ => c
  end.

(** The callback of the oldest write in flight, with or without an error. *)
Definition writeDone (err : bool) (c : Capture) : Capture :=
  match pending c with
  | [] => c
  | batchLength :: others =>
      let c1 := {| recorder := recorder c; isWriting := false;
                   pending := others; notes := notes c |} in
      let c2 :=
        if err then
          note NoteWriteError
               (withRecorder
                  (withStats (fun st =>
                     {| packetCount := packetCount st;
                        dataSize := dataSize st;
                        sessionStartTime := sessionStartTime st;
                        lastPacketTime := lastPacketTime st;
                        maxGap := maxGap st;
                        droppedPackets :=
                          droppedPackets st + Z.of_nat batchLength;
                        packetStats := packetStats st |})) c1)
        else c1 in
      processWriteQueue c2
  end.

(** The statistics after a datagram arrived at [now], up to the point where
    the header is read. *)
Definition timed (now : Z) (st : Stats) : Stats :=
  let start := if sessionStartTime st =? 0 then now else sessionStartTime st in
  let gap := now - lastPacketTime st in
  let timing := 0 <? lastPacketTime st in
  let missed := gap / 50 - 1 in
  {| packetCount := packetCount st + 1;
     dataSize := dataSize st;
     sessionStartTime := start;
     lastPacketTime := now;
     maxGap := if timing then Z.max (maxGap st) gap else maxGap st;
     droppedPackets :=
       if timing && (100 <? gap) && (0 <? missed)
       then droppedPackets st + missed else droppedPackets st;
     packetStats := packetStats st |}.

(** [packetStats[packetType] = (packetStats[packetType] || 0) + 1] *)
Definition counted (kind : string) (st : Stats) : Stats :=
  {| packetCount := packetCount st;
     dataSize := dataSize st;
     sessionStartTime := sessionStartTime st;
     lastPacketTime := lastPacketTime st;
     maxGap := maxGap st;
     droppedPackets := droppedPackets st;
     packetStats :=
       <[kind := default 0 (packetStats st !! kind) + 1]>
         (packetStats st) |}.

(** [dataSize += metadataBuffer.length + msg.length] *)
Definition sized (size : Z) (st : Stats) : Stats :=
  {| packetCount := packetCount st;
     dataSize := dataSize st + size;
     sessionStartTime := sessionStartTime st;
     lastPacketTime := lastPacketTime st;
     maxGap := maxGap st;
     droppedPackets := droppedPackets st;
     packetStats := packetStats st |}.

(** The ['message'] handler at time [now].  The two header reads are raw
    and throw on a datagram shorter than 7 octets; [writeUInt32LE] takes a
    length below 2^32 and [writeBigUInt64LE] a time in 0 .. 2^64 - 1, and
    throw otherwise.  What was assigned before a throw stays assigned. *)
Definition onMessage (now : Z) (msg : buffer) (c : Capture)
  : Outcome * Capture :=
  match currentState (recorder c) with
  | RECORDING =>
      let first := sessionStartTime (stats (recorder c)) =? 0 in
      let c1 := withRecorder (withStats (timed now)) c in
      let c2 := if first
                then note NoteReceivingData
                          (withRecorder (say [UpdateDisplay]) c1)
                else c1 in
      match readUInt16LE msg 0, readUInt8 msg 6 with
      | Ret packetFormat, Ret packetId =>
          let packetType :=
            Telemetry.orElse (Telemetry.arrayAt packetTypes packetId)
                             "Unknown" in
          let c3 := withRecorder (withStats (counted packetType)) c2 in
          if (2 ^ 32 <=? blen msg) || (now <? 0) || (2 ^ 64 <=? now)
          then (Threw, c3)
          else
            let metadataBuffer := le_bytes 4 (blen msg) ++ le_bytes 8 now in
            let queued :=
              withRecorder
                (fun r =>
                   withStats (sized (12 + blen msg))
                     (withQueue
                        (writeQueue r
                           ++ [{| metadata := metadataBuffer; data := msg |}])
                        r)) c3 in
            (Returned, processWriteQueue queued)
      | _, _ => (Threw, c2)
      end
  | _ => (Returned, c)
  end.

(** A key of the control surface on the recorder inside. *)
Definition onKey (k : Key) (c : Capture) : Outcome * Capture :=
  (fst (press k (recorder c)), withRecorder (fun r => snd (press k r)) c).

(** [cleanup]: a recording in progress or unsaved is finished and saved
    before the process exits. *)
Definition cleanup (stamp : string) (renameOk : bool) (c : Capture)
  : Outcome * Capture :=
  let c0 := note NoteShuttingDown c in
  let saved :=
    match currentState (recorder c0) with
    | RECORDING | PAUSED =>
        let c1 := note NoteAutoSaving c0 in
        match finishRecording (recorder c1) with
        | (Threw, r) => (Threw, withRecorder (fun _ => r) c1)
        | (Returned, r) =>
            (fst (saveRecording stamp renameOk r),
             withRecorder (fun _ => snd (saveRecording stamp renameOk r)) c1)
        end
    | FINISHED =>
        let c1 := note NoteUnsavedAutoSaving c0 in
        (fst (saveRecording stamp renameOk (recorder c1)),
         withRecorder (fun r => snd (saveRecording stamp renameOk r)) c1)
    | IDLE => (Returned, c0)
    end in
  match saved with
  | (Threw, c2) => (Threw, c2)
  | (Returned, c2) =>
      (Returned, note NoteGoodbye (withRecorder endStreamIfOpen c2))
  end.

(** What happens to the recorder while it runs: a datagram arrives, the
    callback of a write runs, a key is pressed. *)
Inductive Event :=
| Datagram (now : Z) (msg : buffer)
| WriteDone (err : bool)
| KeyPress (k : Key).

Definition step (e : Event) (c : Capture) : Capture :=
  match e with
  | Datagram now msg => snd (onMessage now msg c)
  | WriteDone err => writeDone err c
  | KeyPress k => snd (onKey k c)
  end.

Definition steps (es : list Event) (c : Capture) : Capture :=
  fold_left (fun c e => step e c) es c.

(** The events of one recording session: datagrams the handler can frame
    (at least the 7 octets of header it reads, a length that fits 32 bits,
    and an arrival time not before 1970 that a JavaScript number holds
    exactly, as every value of [Date.now()] is), write callbacks, and the
    pause key. *)
Definition inSession (e : Event) : Prop :=
  match e with
  | Datagram now msg => 7 <= blen msg < 2 ^ 32 /\ 0 <= now < 2 ^ 53
  | WriteDone _ => True
  | KeyPress k => k = KeyP
  end.

Definition isRecording (r : Recorder) : bool :=
  match currentState r with RECORDING => true | _ => false end.

(** The frame of a datagram that arrived at [now]. *)
Definition frameOf (now : Z) (msg : buffer) : Frame :=
  {| metadata := le_bytes 4 (blen msg) ++ le_bytes 8 now; data := msg |}.

(** The frames of the datagrams of a session that arrive while the recorder
    records, given whether it records at first. *)
Fixpoint framesOf (recording : bool) (es : list Event) : list Frame :=
  match es with
  | [] => []
  | Datagram now msg :: rest =>
      if recording then frameOf now msg :: framesOf recording rest
      else framesOf recording rest
  | WriteDone _ :: rest => framesOf recording rest
  | KeyPress _ :: rest => framesOf (negb recording) rest
  end.

(** The octets passed to [write] on the stream of [path], in order, whether
    the write has a callback or not.  They are what the recorder gave the
    stream, not what the file holds: a write whose callback reports an error
    has failed, and the write without a callback reports nothing. *)
Definition passedTo (path : string) (log : list FsOp) : buffer :=
  flat_map (fun op => match op with
                      | StreamWrite p bytes =>
                          if decide (p = path) then bytes else []
                      | _ => []
                      end) log.

(** The octets passed to the stream of [path] so far, followed by those of
    the frames still queued. *)
Definition heldFor (path : string) (r : Recorder) : buffer :=
  passedTo path (fsLog r) ++ concatFrames (writeQueue r).

(** An event that is not the callback of a failed write. *)
Definition acknowledged (e : Event) : Prop :=
  match e with
  | WriteDone err => err = false
  | _ => True
  end.

Definition isWriteError (n : Note) : bool :=
  match n with NoteWriteError => true | _ => false end.

(** File operations that are all writes on the stream of [path]. *)
Definition writesOn (path : string) (ops : list FsOp) : Prop :=
  Forall (fun op => exists bytes, op = StreamWrite path bytes) ops.

(** What [finishRecording] does to the stream [p] with the queue [q]. *)
Definition flushOps (p : string) (q : list Frame) : list FsOp :=
  match q with
  | [] => [StreamEnd p]
  | _ => [StreamWrite p (concatFrames q); StreamEnd p]
  end.

End Capture.

(** ** A capture played back: what the replay engine does with the frames
    the recorder writes *)

Module Playback.
Import Buf.

(** The arrival time stored in a frame. *)
Definition stampOf (f : Recorder.Frame) : Z := field (Recorder.metadata f) 4 8.

(** A frame as the ['message'] handler of the recorder builds it, with an
    arrival time that [Number(BigInt)] gives back exactly. *)
Definition framed (f : Recorder.Frame) : Prop :=
  exists now,
    0 <= now < 2 ^ 53 /\ blen (Recorder.data f) < 2 ^ 32
    /\ f = Capture.frameOf now (Recorder.data f).

(** The socket sends the datagram of every frame. *)
Definition sendsAll (sendOk : buffer -> bool) (fs : list Recorder.Frame)
  : Prop :=
  Forall (fun f => sendOk (Recorder.data f) = true) fs.

(** The time of the call after the one that ran at [now] and sent the frame
    stamped [timestamp], on the ideal clock of [Replay.run]. *)
Definition nextSend (speed : Q) (start first timestamp now : Z) : Z :=
  let waitTime :=
    (inject_Z start + Replay.targetDelay first timestamp speed
     - inject_Z now)%Q in
  if Qle_bool waitTime 0 then now else now + Replay.timerDelay waitTime.

(** The times of the sends for frames stamped [stamps], from a call at
    [now] with [firstTimestamp] as given. *)
Fixpoint sendsFrom (speed : Q) (start : Z) (first : option Z) (now : Z)
    (stamps : list Z) : list Z :=
  match stamps with
  | [] => []
  | timestamp :: rest =>
      now :: sendsFrom speed start (Some (default timestamp first))
               (match first with
                | None => now
                | Some f => nextSend speed start f timestamp now
                end) rest
  end.

Definition sendTimes (speed : Q) (start : Z) (stamps : list Z) : list Z :=
  sendsFrom speed start None start stamps.

(** Stamps that never decrease. *)
Fixpoint ascending (prev : Z) (stamps : list Z) : Prop :=
  match stamps with
  | [] => True
  | timestamp :: rest => prev <= timestamp /\ ascending timestamp rest
  end.

Definition inOrder (stamps : list Z) : Prop :=
  match stamps with
  | [] => True
  | timestamp :: rest => ascending timestamp rest
  end.

(** The target of the frame stamped [timestamp] is a whole number of
    milliseconds after the start, and at most [TIMEOUT_MAX]. *)
Definition wholeTarget (speed : Q) (first timestamp : Z) : Prop :=
  exists delay : Z,
    (Replay.targetDelay first timestamp speed == inject_Z delay)%Q
    /\ delay <= Replay.TIMEOUT_MAX.

Definition wholeTargets (speed : Q) (stamps : list Z) : Prop :=
  match stamps with
  | [] => True
  | first :: _ => Forall (wholeTarget speed first) stamps
  end.

(** For each frame the target time of the frame before it, rounded down to
    the millisecond; for the first frame the start of the replay. *)
Definition targetsBefore (speed : Q) (start : Z) (stamps : list Z) : list Z :=
  match stamps with
  | [] => []
  | first :: _ =>
      start :: map (fun timestamp =>
                      start + Qfloor (Replay.targetDelay first timestamp speed))
                   (removelast stamps)
  end.

End Playback.

(** ** Sessions of the recorder used in examples *)

Module Scenarios.
Import Buf Recorder Capture.

(** A Car Status packet of 1239 octets, zeros after the header. *)
Definition carStatusPacket : buffer :=
  Fixtures.headerBytes 2025 7 Fixtures.timeOnePointFive
    ++ replicate 1210 x00.

(** The first 7 octets of a header in format 2025 with packet id 0, and the
    first 6 of them. *)
Definition motionDatagram : buffer := [xe9; x07; x19; x01; x00; x01; x00].
Definition shortDatagram : buffer := [xe9; x07; x19; x01; x00; x01].

(** A session: a datagram, a pause during which a datagram arrives, and a
    Car Telemetry header after the resume; the first write is
    acknowledged at the end. *)
Definition session : list Event :=
  [Datagram 1000 motionDatagram; KeyPress KeyP;
   Datagram 1010 motionDatagram; KeyPress KeyP;
   Datagram 1020 Fixtures.plainHeader; WriteDone false].

(** The recorder right after the key R. *)
Definition recording : Capture := steps [KeyPress (KeyR "t1")] fresh.

(** The recorder with a write in flight and a frame in the queue. *)
Definition backlogged : Capture :=
  steps [Datagram 1000 motionDatagram; Datagram 1020 motionDatagram]
        recording.

(** The frames of [Fixtures.threeFrames]. *)
Definition threeFrameList : list Frame :=
  [frameOf 5000 [x0a]; frameOf 6000 [x0b]; frameOf 6500 [x0c]].

End Scenarios.

(** * Properties *)

(** Closed comparisons such as [29 <= blen b < 1352] on a concrete buffer. *)
Ltac range_by_compute := vm_compute; split; [discriminate | reflexivity].

Section BufferFacts.
Import Buf.

Lemma u8_range (x : byte) : 0 <= u8 x < 256.
Proof.
  unfold u8. pose proof (Byte.to_N_bounded x) as H.
  split; [apply N2Z.is_nonneg|].
  apply N2Z.inj_le in H. simpl in H. lia.
Qed.

Lemma byte_of_u8 (x : byte) : byte_of (u8 x) = x.
Proof.
  unfold byte_of, u8. rewrite N2Z.id. now rewrite Byte.of_to_N.
Qed.

Lemma le_value_range (bs : list byte) :
  0 <= le_value bs < 256 ^ Z.of_nat (length bs).
Proof.
  induction bs as [|x r IH].
  - simpl. lia.
  - cbn [le_value length]. rewrite Nat2Z.inj_succ, Z.pow_succ_r by lia.
    pose proof (u8_range x). lia.
Qed.

Lemma le_bytes_le_value (bs : list byte) :
  le_bytes (length bs) (le_value bs) = bs.
Proof.
  induction bs as [|x r IH]; [reflexivity|].
  cbn [length le_bytes le_value]. pose proof (u8_range x) as Hx.
  rewrite <- (Z.mod_unique_pos _ 256 (le_value r) (u8 x)) by lia.
  rewrite <- (Z.div_unique_pos _ 256 (le_value r) (u8 x)) by lia.
  now rewrite byte_of_u8, IH.
Qed.

Lemma bytesAt_Some (b : buffer) (off : Z) (n : nat) :
  0 <= off -> off + Z.of_nat n <= blen b ->
  bytesAt b off n = Some (take n (drop (Z.to_nat off) b)).
Proof.
  intros H0 H1. unfold bytesAt.
  destruct (Z.leb_spec 0 off); [|lia].
  destruct (Z.leb_spec (off + Z.of_nat n) (blen b)); [reflexivity|lia].
Qed.

Lemma bytesAt_None (b : buffer) (off : Z) (n : nat) :
  off < 0 \/ blen b < off + Z.of_nat n -> bytesAt b off n = None.
Proof.
  intros H. unfold bytesAt.
  destruct (Z.leb_spec 0 off); [|reflexivity].
  destruct (Z.leb_spec (off + Z.of_nat n) (blen b)); [lia|reflexivity].
Qed.

Lemma bytesAt_length (b : buffer) (off : Z) (n : nat) (bs : list byte) :
  bytesAt b off n = Some bs -> length bs = n.
Proof.
  unfold bytesAt, blen.
  destruct (Z.leb_spec 0 off); [|discriminate].
  destruct (Z.leb_spec (off + Z.of_nat n) (Z.of_nat (length b)));
    [|discriminate].
  intros [= <-]. rewrite length_take, length_drop. lia.
Qed.

Lemma readLE_in (n : nat) (b : buffer) (off : Z) :
  0 <= off -> off + Z.of_nat n <= blen b ->
  readLE n b off = Ret (le_value (take n (drop (Z.to_nat off) b))).
Proof. intros. unfold readLE. now rewrite bytesAt_Some. Qed.

Lemma readLE_out (n : nat) (b : buffer) (off : Z) :
  off < 0 \/ blen b < off + Z.of_nat n -> readLE n b off = Raise RangeError.
Proof. intros. unfold readLE. now rewrite bytesAt_None. Qed.

Lemma readLE_field (n : nat) (b : buffer) (off : nat) :
  (off + n <= length b)%nat ->
  readLE n b (Z.of_nat off) = Ret (field b off n).
Proof.
  intros Hb. rewrite readLE_in by (unfold blen; lia).
  now rewrite Nat2Z.id.
Qed.

Lemma le_bytes_field (b : buffer) (off n : nat) :
  (off + n <= length b)%nat ->
  le_bytes n (field b off n) = take n (drop off b).
Proof.
  intros Hb. unfold field.
  assert (length (take n (drop off b)) = n) as E
    by (rewrite length_take, length_drop; lia).
  rewrite <- E at 1. apply le_bytes_le_value.
Qed.

Lemma field_range (b : buffer) (off n : nat) :
  0 <= field b off n < 256 ^ Z.of_nat n.
Proof.
  unfold field. pose proof (le_value_range (take n (drop off b))) as H.
  assert (length (take n (drop off b)) <= n)%nat as L
    by (rewrite length_take; lia).
  split; [lia|]. eapply Z.lt_le_trans; [apply H|].
  apply Z.pow_le_mono_r; lia.
Qed.

Lemma take_drop_glue (b : buffer) (off n off' m k : nat) :
  off' = (off + n)%nat -> k = (n + m)%nat ->
  take n (drop off b) ++ take m (drop off' b) = take k (drop off b).
Proof.
  intros -> ->. rewrite <- (take_take_drop (drop off b) n m).
  now rewrite drop_drop.
Qed.

End BufferFacts.

(** ** The header decoder *)

Section HeaderFacts.
Import Buf Telemetry Encode.

Lemma readLE_at (n : nat) (b : buffer) (off : Z) :
  0 <= off -> (Z.to_nat off + n <= length b)%nat ->
  readLE n b off = Ret (field b (Z.to_nat off) n).
Proof.
  intros H0 Hb. rewrite <- (Z2Nat.id off) at 1 by lia.
  now apply readLE_field.
Qed.

Lemma readHeaderFields_ok (b : buffer) :
  29 <= blen b -> readHeaderFields b = Ret (headerAt b).
Proof.
  unfold blen. intros Hb.
  unfold readHeaderFields, readFloatLE, readUInt16LE, readUInt8,
    readBigUInt64LE, readUInt32LE.
  repeat (rewrite readLE_at by (simpl; lia); cbn [mbind res_bind rbind]).
  reflexivity.
Qed.

(** [parseHeader] succeeds exactly on the buffers of 29 octets or more. *)
Lemma parseHeader_spec (b : buffer) :
  parseHeader b = if blen b <? 29 then None else Some (headerAt b).
Proof.
  unfold parseHeader. destruct (Z.ltb_spec (blen b) 29); [reflexivity|].
  now rewrite readHeaderFields_ok.
Qed.

Lemma parseHeader_Some (b : buffer) :
  29 <= blen b -> parseHeader b = Some (headerAt b).
Proof.
  intros Hb. rewrite parseHeader_spec.
  destruct (Z.ltb_spec (blen b) 29); [lia|reflexivity].
Qed.

Lemma parseHeader_None (b : buffer) :
  blen b < 29 -> parseHeader b = None.
Proof.
  intros Hb. rewrite parseHeader_spec.
  destruct (Z.ltb_spec (blen b) 29); [reflexivity|lia].
Qed.

Lemma f32_bits_roundtrip (w : Z) :
  0 <= w < 2 ^ 32 -> isNaNBits w = false -> bits_of_f32 (f32_of_bits w) = w.
Proof.
  intros Hw Hnan. unfold isNaNBits in Hnan. unfold f32_of_bits, bits_of_f32.
  change (2 ^ 23) with 8388608 in *. change (2 ^ 31) with 2147483648 in *.
  change (2 ^ 32) with 4294967296 in *. change (2 ^ 22) with 4194304 in *.
  pose proof (Z.div_mod w 8388608 ltac:(lia)) as E1.
  pose proof (Z.mod_pos_bound w 8388608 ltac:(lia)) as B1.
  pose proof (Z.div_mod (w / 8388608) 256 ltac:(lia)) as E2.
  pose proof (Z.mod_pos_bound (w / 8388608) 256 ltac:(lia)) as B2.
  set (m := w mod 8388608) in *. set (q := w / 8388608) in *.
  set (e := q mod 256) in *. set (t := q / 256) in *.
  assert (0 <= t <= 1) as Ht by lia.
  destruct (Z.eqb_spec e 255) as [He|He]; cbn [andb negb] in Hnan.
  - destruct (Z.eqb_spec m 0) as [Hm|Hm]; [|discriminate].
    destruct (Z.leb_spec 2147483648 w); lia.
  - destruct (Z.eqb_spec e 0) as [He0|He0].
    + destruct (Z.eqb_spec m 0) as [Hm|Hm].
      * destruct (Z.leb_spec 2147483648 w); lia.
      * rewrite Z2Pos.id by lia.
        destruct (Z.ltb_spec m 8388608); [|lia].
        destruct (Z.leb_spec 2147483648 w); lia.
    + rewrite Z2Pos.id by lia.
      destruct (Z.ltb_spec (m + 8388608) 8388608); [lia|].
      destruct (Z.leb_spec 2147483648 w); lia.
Qed.

Lemma encodeHeader_headerAt (b : buffer) :
  29 <= blen b -> isNaNBits (sessionTimeBits b) = false ->
  encodeHeader (headerAt b) = take 29 b.
Proof.
  unfold blen, sessionTimeBits. intros Hb Hnan.
  unfold encodeHeader, headerAt; cbn [packetFormat gameYear gameMajorVersion
    gameMinorVersion packetVersion packetId sessionUID sessionTime
    frameIdentifier overallFrameIdentifier playerCarIndex
    secondaryPlayerCarIndex].
  rewrite f32_bits_roundtrip by (apply (field_range b 15 4) || exact Hnan).
  rewrite !le_bytes_field by lia.
  rewrite (take_drop_glue b 27 1 28 1 2), (take_drop_glue b 23 4 27 2 6),
    (take_drop_glue b 19 4 23 6 10), (take_drop_glue b 15 4 19 10 14),
    (take_drop_glue b 7 8 15 14 22), (take_drop_glue b 6 1 7 22 23),
    (take_drop_glue b 5 1 6 23 24), (take_drop_glue b 4 1 5 24 25),
    (take_drop_glue b 3 1 4 25 26), (take_drop_glue b 2 1 3 26 27),
    (take_drop_glue b 0 2 2 27 29) by reflexivity.
  reflexivity.
Qed.

(** C10 (amended): for every buffer that [parseHeader] accepts and whose
    [sessionTime] octets are not a NaN pattern, decoding the twelve fields
    and writing them back at their fixed little-endian offsets gives the
    first 29 octets of the buffer again; a 29-octet header is reproduced
    whole. *)
Theorem C10_header_roundtrip (b : buffer) (h : PacketHeader) :
  parseHeader b = Some h ->
  isNaNBits (sessionTimeBits b) = false ->
  encodeHeader h = take 29 b /\ (length b = 29%nat -> encodeHeader h = b).
Proof.
  intros Hh Hnan. rewrite parseHeader_spec in Hh.
  destruct (Z.ltb_spec (blen b) 29) as [|Hb]; [discriminate|].
  injection Hh as <-.
  assert (encodeHeader (headerAt b) = take 29 b) as E
    by now apply encodeHeader_headerAt.
  split; [exact E|].
  intros L. rewrite E, <- L. apply firstn_all.
Qed.

Lemma C10_header_roundtrip_witness :
  parseHeader Fixtures.plainHeader = Some (headerAt Fixtures.plainHeader)
  /\ isNaNBits (sessionTimeBits Fixtures.plainHeader) = false
  /\ encodeHeader (headerAt Fixtures.plainHeader) = Fixtures.plainHeader.
Proof.
  split; [reflexivity|]. split; [reflexivity|].
  apply (C10_header_roundtrip Fixtures.plainHeader
           (headerAt Fixtures.plainHeader)); reflexivity.
Defined.

(** C10 (as stated) fails: the header whose [sessionTime] octets are a NaN
    with a payload is accepted, and writing its fields back does not give
    its octets; it decodes to the same fields as the header with the quiet
    NaN, so no encoder of the fields can reproduce both. *)
Lemma C10_counterexample :
  length Fixtures.payloadNaNHeader = 29%nat
  /\ parseHeader Fixtures.payloadNaNHeader
     = Some (headerAt Fixtures.payloadNaNHeader)
  /\ encodeHeader (headerAt Fixtures.payloadNaNHeader)
     <> Fixtures.payloadNaNHeader
  /\ parseHeader Fixtures.quietNaNHeader
     = parseHeader Fixtures.payloadNaNHeader
  /\ Fixtures.quietNaNHeader <> Fixtures.payloadNaNHeader.
Proof.
  repeat split; try reflexivity; vm_compute; discriminate.
Qed.

End HeaderFacts.

(** ** The body decoders *)

Section DecoderFacts.
Import Buf Telemetry.
Context `{JsRuntime}.

Lemma inside_true (off k len : Z) :
  0 <= off -> off + k < len -> (off <? 0) || (off + k >=? len) = false.
Proof.
  intros. destruct (Z.ltb_spec off 0); [lia|].
  destruct (Z.geb_spec (off + k) len); [lia|reflexivity].
Qed.

(** The bounds-checked accessors return on every buffer and offset: the
    value read when the field lies inside, the default otherwise. *)
Lemma safeReadUInt8_spec (b : buffer) (off : Z) :
  safeReadUInt8 b off
  = Ret (if (off <? 0) || (off >=? blen b) then 0
         else field b (Z.to_nat off) 1).
Proof.
  unfold safeReadUInt8, readUInt8, blen.
  destruct (Z.ltb_spec off 0); [reflexivity|].
  destruct (Z.geb_spec off (Z.of_nat (length b))); [reflexivity|].
  cbn [orb]. apply readLE_at; lia.
Qed.

Lemma safeReadUInt16LE_spec (b : buffer) (off : Z) :
  safeReadUInt16LE b off
  = Ret (if (off <? 0) || (off + 1 >=? blen b) then 0
         else field b (Z.to_nat off) 2).
Proof.
  unfold safeReadUInt16LE, readUInt16LE, blen.
  destruct (Z.ltb_spec off 0); [reflexivity|].
  destruct (Z.geb_spec (off + 1) (Z.of_nat (length b))); [reflexivity|].
  cbn [orb]. apply readLE_at; lia.
Qed.

Lemma safeReadFloatLE_spec (b : buffer) (off : Z) :
  safeReadFloatLE b off
  = Ret (if (off <? 0) || (off + 3 >=? blen b) then S754_zero false
         else f32_of_bits (field b (Z.to_nat off) 4)).
Proof.
  unfold safeReadFloatLE, readFloatLE, readUInt32LE, blen.
  destruct (Z.ltb_spec off 0); [reflexivity|].
  destruct (Z.geb_spec (off + 3) (Z.of_nat (length b))); [reflexivity|].
  cbn [orb]. now rewrite readLE_at by lia.
Qed.

Lemma safeReadString_spec (b : buffer) (off len : Z) :
  safeReadString b off len
  = Ret (if (off <? 0) || (off + len >? blen b) then ""
         else utf8Trimmed (slice b off (Z.min (off + len) (blen b)))).
Proof.
  unfold safeReadString.
  now destruct ((off <? 0) || (off + len >? blen b)).
Qed.

(** The raw accessors throw outside the buffer. *)
Lemma readInt8_at (b : buffer) (off : Z) :
  0 <= off < blen b ->
  readInt8 b off = Ret (int8_of (field b (Z.to_nat off) 1)).
Proof.
  unfold readInt8, readUInt8, blen. intros Hb.
  now rewrite readLE_at by lia.
Qed.

Lemma readInt8_out (b : buffer) (off : Z) :
  off < 0 \/ blen b <= off -> readInt8 b off = Raise RangeError.
Proof.
  unfold readInt8, readUInt8. intros Hb.
  now rewrite readLE_out by (simpl; lia).
Qed.

Lemma readUInt32LE_at (b : buffer) (off : Z) :
  0 <= off -> off + 4 <= blen b ->
  readUInt32LE b off = Ret (field b (Z.to_nat off) 4).
Proof. unfold readUInt32LE, blen. intros. apply readLE_at; lia. Qed.

Lemma readUInt32LE_out (b : buffer) (off : Z) :
  off < 0 \/ blen b < off + 4 -> readUInt32LE b off = Raise RangeError.
Proof. unfold readUInt32LE. intros. apply readLE_out. simpl. lia. Qed.

Ltac safe_reads :=
  rewrite ?safeReadUInt8_spec, ?safeReadUInt16LE_spec, ?safeReadFloatLE_spec,
    ?safeReadString_spec;
  cbn [mbind res_bind rbind].

(** The reads of one record succeed when the record lies inside the buffer,
    which the loop guard checks before each turn. *)
Lemma readCarTelemetry_ok (b : buffer) (off : Z) :
  0 <= off -> off + 60 <= blen b ->
  exists c, readCarTelemetry b off = Ret c
            /\ ct_speed c = field b (Z.to_nat off) 2
            /\ ct_gear c = int8_of (field b (Z.to_nat (off + 15)) 1).
Proof.
  intros H0 Hb. unfold readCarTelemetry.
  rewrite (readInt8_at b (off + 15)) by lia. safe_reads.
  eexists. split; [reflexivity|]. cbn [ct_speed ct_gear].
  rewrite (inside_true off 1) by lia. split; reflexivity.
Qed.

Lemma readLapData_ok (b : buffer) (off : Z) :
  0 <= off -> off + 50 <= blen b -> exists r, readLapData b off = Ret r.
Proof.
  intros H0 Hb. unfold readLapData.
  rewrite (readUInt32LE_at b off), (readUInt32LE_at b (off + 4)) by lia.
  safe_reads. eexists. reflexivity.
Qed.

Lemma readCarStatus_ok (b : buffer) (off : Z) :
  0 <= off -> off + 55 <= blen b -> exists c, readCarStatus b off = Ret c.
Proof.
  intros H0 Hb. unfold readCarStatus.
  rewrite (readInt8_at b (off + 28)) by lia.
  safe_reads. eexists. reflexivity.
Qed.


End DecoderFacts.

Section TableFacts.
Import Buf Telemetry.
Context `{JsRuntime}.

Lemma updateIfPresent_dom (i : Z) (f : Driver -> Driver) (ds : gmap Z Driver) :
  dom (updateIfPresent i f ds) = dom ds.
Proof.
  unfold updateIfPresent. destruct (ds !! i) eqn:E; [|reflexivity].
  apply dom_insert_lookup_L. now exists d.
Qed.

Lemma updateIfPresent_ne (i j : Z) (f : Driver -> Driver) (ds : gmap Z Driver) :
  i <> j -> updateIfPresent i f ds !! j = ds !! j.
Proof.
  intros Hij. unfold updateIfPresent. destruct (ds !! i); [|reflexivity].
  now rewrite lookup_insert_ne.
Qed.

Lemma updateIfPresent_eq (i : Z) (f : Driver -> Driver) (ds : gmap Z Driver) :
  updateIfPresent i f ds !! i = f <$> ds !! i.
Proof.
  unfold updateIfPresent. destruct (ds !! i) eqn:E.
  - now rewrite lookup_insert_eq.
  - now rewrite E.
Qed.

Lemma sameBesidesDrivers_refl (s : State) : sameBesidesDrivers s s.
Proof. repeat split. Qed.

Lemma sameBesidesDrivers_trans (s1 s2 s3 : State) :
  sameBesidesDrivers s1 s2 -> sameBesidesDrivers s2 s3 ->
  sameBesidesDrivers s1 s3.
Proof.
  intros (A1 & A2 & A3 & A4) (B1 & B2 & B3 & B4).
  repeat split; congruence.
Qed.

Lemma keepsSlots_ret (erase : Driver -> Driver) (i : Z) :
  keepsSlots erase i (ret tt).
Proof.
  intros s. exists s. split; [reflexivity|].
  split; [apply sameBesidesDrivers_refl|]. split; [reflexivity|].
  split; [reflexivity|]. intros j d Hd. now exists d.
Qed.

Lemma keepsSlots_turn (erase : Driver -> Driver) (i : Z)
    (f : Driver -> Driver) :
  (forall d, erase (f d) = erase d) ->
  keepsSlots erase i (modify (setDrivers (updateIfPresent i f))).
Proof.
  intros Hf s. eexists. split; [reflexivity|].
  split; [repeat split|]. cbn [setDrivers drivers].
  split; [apply updateIfPresent_dom|].
  split; [intros j Hj; apply updateIfPresent_ne; lia|].
  intros j d Hd. destruct (decide (i = j)) as [->|Hij].
  - exists (f d). now rewrite updateIfPresent_eq, Hd.
  - exists d. now rewrite updateIfPresent_ne.
Qed.

Lemma keepsSlots_mono (erase : Driver -> Driver) (i j : Z) (m : M unit) :
  i <= j -> keepsSlots erase j m -> keepsSlots erase i m.
Proof.
  intros Hij Hm s. destruct (Hm s) as (s' & E & S & D & L & K).
  exists s'. repeat split; try apply S; try assumption.
  intros k Hk. apply L. lia.
Qed.

Lemma keepsSlots_then (erase : Driver -> Driver) (i : Z) (m1 m2 : M unit) :
  keepsSlots erase i m1 -> keepsSlots erase i m2 ->
  keepsSlots erase i (m1 ≫= fun _ => m2).
Proof.
  intros H1 H2 s. destruct (H1 s) as (s1 & E1 & S1 & D1 & L1 & K1).
  destruct (H2 s1) as (s2 & E2 & S2 & D2 & L2 & K2).
  exists s2. unfold mbind, M_bind, bind. rewrite E1, E2.
  split; [reflexivity|].
  split; [eapply sameBesidesDrivers_trans; eassumption|].
  split; [congruence|].
  split; [intros j Hj; rewrite L2, L1 by assumption; reflexivity|].
  intros j d Hd. destruct (K1 j d Hd) as (d1 & Hd1 & Ed1).
  destruct (K2 j d1 Hd1) as (d2 & Hd2 & Ed2).
  exists d2. split; [exact Hd2|congruence].
Qed.

Lemma keepsSlots_read {A} (erase : Driver -> Driver) (i : Z) (r : res A)
    (a : A) (k : A -> M unit) :
  r = Ret a -> keepsSlots erase i (k a) -> keepsSlots erase i (liftR r ≫= k).
Proof.
  intros -> Hk s. destruct (Hk s) as (s' & E & R).
  exists s'. unfold mbind, M_bind, bind, liftR. now rewrite E.
Qed.

(** The three loops over the car array return normally and only overwrite
    entries that exist. *)
Lemma carTelemetryLoop_keeps (n : nat) (b : buffer) (i off : Z) :
  0 <= off -> keepsSlots withoutTelemetry i (carTelemetryLoop n b i off).
Proof.
  revert i off. induction n as [|n IH]; intros i off Hoff;
    cbn [carTelemetryLoop]; [apply keepsSlots_ret|].
  destruct (Z.gtb_spec (off + 60) (blen b)) as [|Hin]; [apply keepsSlots_ret|].
  destruct (readCarTelemetry_ok b off) as (c & Hc & _); [lia..|].
  eapply keepsSlots_read; [exact Hc|].
  apply keepsSlots_then; [now apply keepsSlots_turn|].
  apply (keepsSlots_mono _ i (i + 1)); [lia|]. apply IH. lia.
Qed.

Lemma lapDataLoop_keeps (n : nat) (b : buffer) (i off : Z) :
  0 <= off -> keepsSlots withoutLapData i (lapDataLoop n b i off).
Proof.
  revert i off. induction n as [|n IH]; intros i off Hoff;
    cbn [lapDataLoop]; [apply keepsSlots_ret|].
  destruct (Z.gtb_spec (off + 50) (blen b)) as [|Hin]; [apply keepsSlots_ret|].
  destruct (readLapData_ok b off) as (c & Hc); [lia..|].
  eapply keepsSlots_read; [exact Hc|].
  apply keepsSlots_then; [now apply keepsSlots_turn|].
  apply (keepsSlots_mono _ i (i + 1)); [lia|]. apply IH. lia.
Qed.

Lemma carStatusLoop_keeps (n : nat) (b : buffer) (i off : Z) :
  0 <= off -> keepsSlots withoutCarStatus i (carStatusLoop n b i off).
Proof.
  revert i off. induction n as [|n IH]; intros i off Hoff;
    cbn [carStatusLoop]; [apply keepsSlots_ret|].
  destruct (Z.gtb_spec (off + 55) (blen b)) as [|Hin]; [apply keepsSlots_ret|].
  destruct (readCarStatus_ok b off) as (c & Hc); [lia..|].
  eapply keepsSlots_read; [exact Hc|].
  apply keepsSlots_then; [now apply keepsSlots_turn|].
  apply (keepsSlots_mono _ i (i + 1)); [lia|]. apply IH. lia.
Qed.

Lemma parseCarTelemetry_keeps (b : buffer) :
  keepsSlots withoutTelemetry 0 (parseCarTelemetry b).
Proof.
  unfold parseCarTelemetry. destruct (parseHeader b); [|apply keepsSlots_ret].
  destruct (blen b <? 1352); [apply keepsSlots_ret|].
  now apply carTelemetryLoop_keeps.
Qed.

Lemma parseLapData_keeps (b : buffer) :
  keepsSlots withoutLapData 0 (parseLapData b).
Proof.
  unfold parseLapData. destruct (parseHeader b); [|apply keepsSlots_ret].
  destruct (blen b <? 1131); [apply keepsSlots_ret|].
  now apply lapDataLoop_keeps.
Qed.

Lemma parseCarStatus_keeps (b : buffer) :
  keepsSlots withoutCarStatus 0 (parseCarStatus b).
Proof.
  unfold parseCarStatus. destruct (parseHeader b); [|apply keepsSlots_ret].
  destruct (blen b <? 1239); [apply keepsSlots_ret|].
  now apply carStatusLoop_keeps.
Qed.

(** [parseSession] returns normally and does not touch the drivers table:
    its three raw reads lie below offset 644. *)
Lemma parseSession_returns (b : buffer) (s : State) :
  exists s', parseSession b s = (Ret tt, s') /\ drivers s' = drivers s
             /\ packetCount s' = packetCount s /\ errorCount s' = errorCount s.
Proof.
  unfold parseSession. destruct (parseHeader b); [|now exists s].
  destruct (Z.ltb_spec (blen b) 644) as [|Hb]; [now eexists|].
  rewrite safeReadUInt8_spec, safeReadUInt16LE_spec.
  rewrite !readInt8_at by lia.
  rewrite !safeReadUInt8_spec.
  eexists. split; [reflexivity|]. repeat split.
Qed.



End TableFacts.

(** ** The dispatcher and the drivers table *)

Section TelemetryClaims.
Import Buf Telemetry.
Context `{JsRuntime}.

Lemma onMessage_supported (msg : buffer) (s : State) :
  29 <= blen msg ->
  supportedFormat (packetFormat (Encode.headerAt msg)) = true ->
  onMessage msg s
  = guarded (packetId (Encode.headerAt msg))
            (dispatch (packetId (Encode.headerAt msg)) msg)
            (setPacketCount (packetCount s + 1) s).
Proof.
  intros Hb Hf. unfold onMessage.
  destruct (Z.ltb_spec (blen msg) 29); [lia|].
  rewrite parseHeader_Some by lia. now rewrite Hf.
Qed.

Lemma onMessage_unsupported (msg : buffer) (s : State) :
  29 <= blen msg ->
  supportedFormat (packetFormat (Encode.headerAt msg)) = false ->
  onMessage msg s
  = let s1 := setPacketCount (packetCount s + 1) s in
    let s2 := if errorCount s <? 5
              then log (WarnPacketFormat (packetFormat (Encode.headerAt msg))) s1
              else s1 in
    setErrorCount (errorCount s + 1) s2.
Proof.
  intros Hb Hf. unfold onMessage.
  destruct (Z.ltb_spec (blen msg) 29); [lia|].
  rewrite parseHeader_Some by lia. rewrite Hf. cbn [negb].
  cbn [setPacketCount errorCount]. now destruct (errorCount s <? 5).
Qed.

Lemma parseCarTelemetry_short (msg : buffer) (s : State) :
  blen msg < 1352 -> parseCarTelemetry msg s = (Ret tt, s).
Proof.
  intros Hb. unfold parseCarTelemetry. destruct (parseHeader msg); [|reflexivity].
  destruct (Z.ltb_spec (blen msg) 1352); [reflexivity|lia].
Qed.

(** C1 (amended): a Car Telemetry datagram of at least 29 and fewer than
    1352 octets is dropped without a write to the drivers table or to the
    session record, and the packet counter goes up by one; the error counter
    [errorCount] stays as it is when the packet format is 2025 or 2024, and
    goes up by one only when the format is not supported.  The decoder
    itself returns without any effect. *)
Theorem C1_short_car_telemetry_dropped (msg : buffer) (s : State) :
  29 <= blen msg < 1352 ->
  packetId (Encode.headerAt msg) = 6 ->
  drivers (onMessage msg s) = drivers s
  /\ sessionInfo (onMessage msg s) = sessionInfo s
  /\ packetCount (onMessage msg s) = packetCount s + 1
  /\ errorCount (onMessage msg s)
     = (if supportedFormat (packetFormat (Encode.headerAt msg))
        then errorCount s else errorCount s + 1)
  /\ parseCarTelemetry msg s = (Ret tt, s).
Proof.
  intros Hb Hid.
  destruct (supportedFormat (packetFormat (Encode.headerAt msg))) eqn:Hf.
  - rewrite onMessage_supported by (assumption || lia).
    rewrite Hid. change (dispatch 6 msg) with (parseCarTelemetry msg).
    unfold guarded. rewrite !parseCarTelemetry_short by lia.
    repeat split.
  - rewrite onMessage_unsupported by (assumption || lia).
    rewrite parseCarTelemetry_short by lia.
    cbn zeta. destruct (errorCount s <? 5); repeat split.
Qed.

End TelemetryClaims.

Section TableClaims.
Import Buf Telemetry.
Context `{JsRuntime}.

Lemma guarded_ret (id : Z) (m : M unit) (s s' : State) :
  m s = (Ret tt, s') -> guarded id m s = s'.
Proof. intros E. unfold guarded. now rewrite E. Qed.

Lemma telemetryOf_fields (c : CarTelemetryData) :
  speed (telemetryOf c) = ct_speed c
  /\ gear (telemetryOf c) = gearDisplay (ct_gear c).
Proof.
  unfold telemetryOf.
  destruct (ct_brakesTemp c) as [[[? ?] ?] ?].
  destruct (ct_tyresSurfaceTemp c) as [[[? ?] ?] ?].
  split; reflexivity.
Qed.

(** The first turn of the loop writes the record at [off] to slot [i] when
    the slot has an entry; the later turns leave that slot alone. *)
Lemma carTelemetryLoop_first (n : nat) (b : buffer) (i off : Z) (s : State)
    (d : Driver) :
  0 <= off -> off + 60 <= blen b -> drivers s !! i = Some d ->
  exists c s',
    readCarTelemetry b off = Ret c
    /\ carTelemetryLoop (S n) b i off s = (Ret tt, s')
    /\ sameBesidesDrivers s s'
    /\ drivers s' !! i = Some (setTelemetry (telemetryOf c) d).
Proof.
  intros H0 Hb Hd.
  destruct (readCarTelemetry_ok b off) as (c & Hc & _); [lia..|].
  exists c. cbn [carTelemetryLoop].
  destruct (Z.gtb_spec (off + 60) (blen b)); [lia|].
  unfold mbind, M_bind, bind, liftR, modify. rewrite Hc.
  destruct (carTelemetryLoop_keeps n b (i + 1) (off + 60) ltac:(lia)
              (setDrivers (updateIfPresent i (setTelemetry (telemetryOf c))) s))
    as (s' & E & S & _ & L & _).
  exists s'. split; [reflexivity|]. split; [exact E|].
  split; [eapply sameBesidesDrivers_trans; [|exact S]; repeat split|].
  rewrite L by lia. cbn [setDrivers drivers].
  now rewrite updateIfPresent_eq, Hd.
Qed.

Lemma parseCarTelemetry_slot0 (b : buffer) (s : State) (d : Driver) :
  1352 <= blen b -> drivers s !! 0 = Some d ->
  exists c s',
    readCarTelemetry b 29 = Ret c
    /\ parseCarTelemetry b s = (Ret tt, s')
    /\ sameBesidesDrivers s s'
    /\ drivers s' !! 0 = Some (setTelemetry (telemetryOf c) d).
Proof.
  intros Hb Hd. unfold parseCarTelemetry. rewrite parseHeader_Some by lia.
  destruct (Z.ltb_spec (blen b) 1352); [lia|].
  apply carTelemetryLoop_first; (lia || assumption).
Qed.

(** C4 (amended): a Car Telemetry datagram of 1352 octets (or more) with a
    supported format writes [Telemetry.speed] and [Telemetry.gear] of slot 0
    from the octets at 29 and 44, provided slot 0 already has an entry in
    the drivers table: with 287 at offset 29 and 7 at offset 44 the speed is
    287 and the gear 7; the gear octet 255 (that is -1) gives "R" and 0
    gives "N". *)
Theorem C4_car_telemetry_slot0 (msg : buffer) (s : State) (d : Driver) :
  1352 <= blen msg ->
  supportedFormat (packetFormat (Encode.headerAt msg)) = true ->
  packetId (Encode.headerAt msg) = 6 ->
  drivers s !! 0 = Some d ->
  exists t,
    drivers (onMessage msg s) !! 0 = Some (setTelemetry t d)
    /\ speed t = field msg 29 2
    /\ gear t = gearDisplay (int8_of (field msg 44 1))
    /\ (field msg 29 2 = 287 -> field msg 44 1 = 7 ->
        speed t = 287 /\ gear t = GNum 7)
    /\ (field msg 44 1 = 255 -> gear t = GStr "R")
    /\ (field msg 44 1 = 0 -> gear t = GStr "N").
Proof.
  intros Hb Hf Hid Hd.
  rewrite onMessage_supported by (assumption || lia).
  rewrite Hid. change (dispatch 6 msg) with (parseCarTelemetry msg).
  destruct (readCarTelemetry_ok msg 29) as (c & Hc & Hs & Hg); [lia..|].
  destruct (parseCarTelemetry_slot0 msg (setPacketCount (packetCount s + 1) s) d)
    as (c' & s' & Hc' & E & _ & L); [lia|exact Hd|].
  assert (c' = c) as -> by congruence.
  rewrite (guarded_ret _ _ _ _ E).
  destruct (telemetryOf_fields c) as [Es Eg].
  exists (telemetryOf c). split; [exact L|].
  rewrite Es, Eg, Hs, Hg. change (Z.to_nat 29) with 29%nat.
  change (Z.to_nat (29 + 15)) with 44%nat.
  split; [reflexivity|]. split; [reflexivity|].
  split; [intros -> ->; split; reflexivity|].
  split; intros ->; reflexivity.
Qed.

Lemma keepsSlots_writesOnlyKnownSlots (erase : Driver -> Driver) (i : Z)
    (m : M unit) :
  keepsSlots erase i m -> writesOnlyKnownSlots erase m.
Proof.
  intros Hm s. destruct (Hm s) as (s' & E & S & D & _ & K).
  exists s'. repeat split; try apply S; try assumption.
  intros j Hj. apply not_elem_of_dom. rewrite D. now apply not_elem_of_dom.
Qed.

Lemma onMessage_keeps_dom (msg : buffer) (s : State) (h : PacketHeader) :
  parseHeader msg = Some h -> packetId h <> 4 ->
  dom (drivers (onMessage msg s)) = dom (drivers s).
Proof.
  intros Hh Hid. unfold onMessage. rewrite Hh.
  destruct (blen msg <? 29); [reflexivity|].
  destruct (supportedFormat (packetFormat h)); cbn [negb].
  2: { cbn [setPacketCount errorCount]. now destruct (errorCount s <? 5). }
  unfold dispatch. destruct (Z.eqb_spec (packetId h) 4); [contradiction|].
  set (s1 := setPacketCount (packetCount s + 1) s).
  change (drivers s) with (drivers s1).
  destruct (packetId h =? 1).
  { destruct (parseSession_returns msg s1) as (s' & E & D & _).
    rewrite (guarded_ret _ _ _ _ E). now rewrite D. }
  destruct (packetId h =? 2).
  { destruct (parseLapData_keeps msg s1) as (s' & E & _ & D & _).
    now rewrite (guarded_ret _ _ _ _ E). }
  destruct (packetId h =? 6).
  { destruct (parseCarTelemetry_keeps msg s1) as (s' & E & _ & D & _).
    now rewrite (guarded_ret _ _ _ _ E). }
  destruct (packetId h =? 7).
  { destruct (parseCarStatus_keeps msg s1) as (s' & E & _ & D & _).
    now rewrite (guarded_ret _ _ _ _ E). }
  reflexivity.
Qed.

(** C5: the Car Telemetry, Lap Data and Car Status decoders return normally
    on every datagram, keep the set of slots that have an entry and change
    nothing outside the drivers table; a slot without an entry stays
    without one, so what was decoded for it is dropped, and an entry that
    exists changes at most in the sub-record of that packet kind.  Through
    the dispatcher only a Participants packet (id 4) can add an entry. *)
Theorem C5_only_existing_entries_written (b : buffer) (s : State) :
  writesOnlyKnownSlots withoutTelemetry (parseCarTelemetry b)
  /\ writesOnlyKnownSlots withoutLapData (parseLapData b)
  /\ writesOnlyKnownSlots withoutCarStatus (parseCarStatus b)
  /\ (forall h, parseHeader b = Some h -> packetId h <> 4 ->
                dom (drivers (onMessage b s)) = dom (drivers s))
  /\ (parseHeader b = None -> drivers (onMessage b s) = drivers s).
Proof.
  split; [apply (keepsSlots_writesOnlyKnownSlots _ 0), parseCarTelemetry_keeps|].
  split; [apply (keepsSlots_writesOnlyKnownSlots _ 0), parseLapData_keeps|].
  split; [apply (keepsSlots_writesOnlyKnownSlots _ 0), parseCarStatus_keeps|].
  split; [intros h; apply onMessage_keeps_dom|].
  intros Hn. unfold onMessage. rewrite Hn.
  now destruct (blen b <? 29).
Qed.


End TableClaims.

Section TelemetryExamples.
Import Buf Telemetry.

Lemma C1_short_car_telemetry_dropped_witness :
  29 <= blen Fixtures.plainHeader < 1352
  /\ packetId (Encode.headerAt Fixtures.plainHeader) = 6
  /\ drivers (@onMessage Fixtures.plainRuntime Fixtures.plainHeader
                         Fixtures.oneDriver)
     = drivers Fixtures.oneDriver.
Proof.
  assert (29 <= blen Fixtures.plainHeader < 1352) as Hb by range_by_compute.
  assert (packetId (Encode.headerAt Fixtures.plainHeader) = 6) as Hid
    by (vm_compute; reflexivity).
  split; [exact Hb|]. split; [exact Hid|].
  exact (proj1 (@C1_short_car_telemetry_dropped Fixtures.plainRuntime
                  Fixtures.plainHeader Fixtures.oneDriver Hb Hid)).
Defined.

(** C1 (as stated) fails: a 29-octet Car Telemetry datagram in format 2025 is
    dropped, and the error counter is not incremented. *)
Lemma C1_counterexample :
  29 <= blen Fixtures.plainHeader < 1352
  /\ packetId (Encode.headerAt Fixtures.plainHeader) = 6
  /\ errorCount (@onMessage Fixtures.plainRuntime Fixtures.plainHeader
                            initialState)
     = errorCount initialState
  /\ errorCount (@onMessage Fixtures.plainRuntime Fixtures.plainHeader
                            initialState)
     <> errorCount initialState + 1.
Proof.
  split; [range_by_compute|].
  repeat split; first [reflexivity | vm_compute; discriminate].
Qed.

(** A Participants packet is what creates an entry. *)
Lemma participants_create_entry :
  drivers initialState !! 0 = None
  /\ drivers Fixtures.oneDriver !! 0 = Some Fixtures.driverOne.
Proof. split; vm_compute; reflexivity. Qed.

Lemma C4_car_telemetry_slot0_witness :
  1352 <= blen (Fixtures.telemetryPacket 2025)
  /\ supportedFormat
       (packetFormat (Encode.headerAt (Fixtures.telemetryPacket 2025))) = true
  /\ packetId (Encode.headerAt (Fixtures.telemetryPacket 2025)) = 6
  /\ drivers Fixtures.oneDriver !! 0 = Some Fixtures.driverOne
  /\ exists t,
       drivers (@onMessage Fixtures.plainRuntime
                           (Fixtures.telemetryPacket 2025) Fixtures.oneDriver)
         !! 0
       = Some (setTelemetry t Fixtures.driverOne)
       /\ speed t = 287 /\ gear t = GNum 7.
Proof.
  assert (1352 <= blen (Fixtures.telemetryPacket 2025)) as Hb
    by (vm_compute; discriminate).
  assert (supportedFormat
            (packetFormat (Encode.headerAt (Fixtures.telemetryPacket 2025)))
          = true) as Hf by (vm_compute; reflexivity).
  assert (packetId (Encode.headerAt (Fixtures.telemetryPacket 2025)) = 6)
    as Hid by (vm_compute; reflexivity).
  assert (drivers Fixtures.oneDriver !! 0 = Some Fixtures.driverOne) as Hd
    by (vm_compute; reflexivity).
  repeat (split; [assumption|]).
  destruct (@C4_car_telemetry_slot0 Fixtures.plainRuntime
              (Fixtures.telemetryPacket 2025) Fixtures.oneDriver
              Fixtures.driverOne Hb Hf Hid Hd)
    as (t & L & _ & _ & Hv & _).
  exists t. split; [exact L|].
  apply Hv; vm_compute; reflexivity.
Defined.

(** C4 (as stated) fails: the same datagram fed to the logger before any
    Participants packet leaves slot 0 without an entry, so there is no
    [Telemetry.speed] to read. *)
Lemma C4_counterexample :
  blen (Fixtures.telemetryPacket 2025) = 1352
  /\ parseHeader (Fixtures.telemetryPacket 2025)
     = Some (Encode.headerAt (Fixtures.telemetryPacket 2025))
  /\ packetFormat (Encode.headerAt (Fixtures.telemetryPacket 2025)) = 2025
  /\ packetId (Encode.headerAt (Fixtures.telemetryPacket 2025)) = 6
  /\ field (Fixtures.telemetryPacket 2025) 29 2 = 287
  /\ field (Fixtures.telemetryPacket 2025) 44 1 = 7
  /\ drivers (@onMessage Fixtures.plainRuntime
                         (Fixtures.telemetryPacket 2025) initialState) !! 0
     = None.
Proof. repeat split; vm_compute; reflexivity. Qed.


End TelemetryExamples.

(** ** The enumeration tables *)

Section EnumFacts.
Import Buf Telemetry.

Lemma arrayAt_outside (arr : list string) (i : Z) :
  ~ (0 <= i < Z.of_nat (length arr)) -> arrayAt arr i = None.
Proof.
  intros Hi. unfold arrayAt. destruct (Z.ltb_spec i 0); [reflexivity|].
  apply lookup_ge_None. lia.
Qed.

Ltac outside_keys :=
  cbn [objAt];
  repeat match goal with
         | |- context [?k =? ?c] => destruct (Z.eqb_spec k c); [lia|]
         end;
  reflexivity.

(** C7 (amended): a code outside the table maps to "Unknown" for the
    weather (table 0..5), the session type (0..17), the tyre compound
    (7..21), the pit status (0..2), the driver status (0..4) and the ERS
    mode (0..3); for the flag state (table -1..4) it maps to "None". *)
Theorem C7_out_of_range_codes (code : Z) :
  (~ 0 <= code <= 5 -> getWeatherString code = "Unknown")
  /\ (~ 0 <= code <= 17 -> getSessionTypeString code = "Unknown")
  /\ (~ 7 <= code <= 21 -> getTyreCompoundString code = "Unknown")
  /\ (~ 0 <= code <= 2 -> getPitStatusString code = "Unknown")
  /\ (~ 0 <= code <= 4 -> getDriverStatusString code = "Unknown")
  /\ (~ 0 <= code <= 3 -> getERSModeString code = "Unknown")
  /\ (~ -1 <= code <= 4 -> getFlagString code = "None").
Proof.
  repeat apply conj; intros Hc.
  - unfold getWeatherString. rewrite arrayAt_outside; [reflexivity|simpl; lia].
  - unfold getSessionTypeString.
    rewrite arrayAt_outside; [reflexivity|simpl; lia].
  - unfold getTyreCompoundString. outside_keys.
  - unfold getPitStatusString.
    rewrite arrayAt_outside; [reflexivity|simpl; lia].
  - unfold getDriverStatusString.
    rewrite arrayAt_outside; [reflexivity|simpl; lia].
  - unfold getERSModeString. rewrite arrayAt_outside; [reflexivity|simpl; lia].
  - unfold getFlagString. outside_keys.
Qed.

(** C7 (as stated) fails for the flag state: code 5 is outside the table and
    the lookup answers "None", not "Unknown". *)
Lemma C7_counterexample :
  getFlagString 5 = "None" /\ getFlagString 5 <> "Unknown"
  /\ getFlagString (-2) = "None".
Proof. repeat split; first [reflexivity | discriminate]. Qed.

(** The scenario of the specification: weather code 3 is "Light Rain". *)
Lemma weather_light_rain : getWeatherString 3 = "Light Rain".
Proof. reflexivity. Qed.

End EnumFacts.

(** ** Unsupported packet formats *)

Section FormatFacts.
Import Buf Telemetry Service.
Context `{JsRuntime}.

Lemma parsePacketHeader_spec (b : buffer) (sv : Service) :
  _parsePacketHeader b sv
  = if blen b <? 29 then (None, sv)
    else (Some (Encode.headerAt b),
          if negb (packetFormat (Encode.headerAt b) =? 2025)
          then emit (EvWarning (packetFormat (Encode.headerAt b))) sv
          else sv).
Proof.
  unfold _parsePacketHeader. destruct (Z.ltb_spec (blen b) 29); [reflexivity|].
  rewrite readHeaderFields_ok by lia.
  now destruct (negb (packetFormat (Encode.headerAt b) =? 2025)).
Qed.

Lemma header_decoding_fails_iff_short (b : buffer) (sv : Service) :
  (parseHeader b = None <-> blen b < 29)
  /\ (fst (_parsePacketHeader b sv) = None <-> blen b < 29).
Proof.
  rewrite parseHeader_spec, parsePacketHeader_spec.
  destruct (Z.ltb_spec (blen b) 29); cbn [fst]; split; split;
    intros; (reflexivity || lia || discriminate).
Qed.

(** C3 (amended): on every datagram of at least 29 octets header decoding
    succeeds in both programs, and it fails only below 29 octets.  When the
    format is neither 2025 nor 2024 the two programs differ.  The event
    service emits a warning, counts the packet and its kind, forwards the
    datagram when forwarding is on, and publishes the generic and the
    kind-specific event.  The telemetry logger rejects the packet before any
    body decoder runs: the drivers table and the session record are left as
    they are, the error counter goes up by one, and the warning is printed
    while fewer than five errors have been counted. *)
Theorem C3_unsupported_format (msg : buffer) (s : State) (now : Z)
    (sv : Service) :
  29 <= blen msg ->
  packetFormat (Encode.headerAt msg) <> 2025 ->
  packetFormat (Encode.headerAt msg) <> 2024 ->
  parseHeader msg = Some (Encode.headerAt msg)
  /\ fst (_parsePacketHeader msg sv) = Some (Encode.headerAt msg)
  /\ (forall b sv0,
        (parseHeader b = None <-> blen b < 29)
        /\ (fst (_parsePacketHeader b sv0) = None <-> blen b < 29))
  /\ (let sv' := _handleMessage now msg sv in
      let kind :=
        orElse (objAt PACKET_TYPES (packetId (Encode.headerAt msg)))
               "Unknown" in
      let pd := {| packetType := kind; pdBuffer := msg; timestamp := now;
                   header := Encode.headerAt msg |} in
      emitted sv'
      = emitted sv
          ++ [EvWarning (packetFormat (Encode.headerAt msg)); EvPacket pd;
              EvPacketKind ("packet:" +:+ toLowerCase kind) pd]
      /\ packetsReceived sv' = packetsReceived sv + 1
      /\ packetCounts sv' !! kind
         = Some (default 0 (packetCounts sv !! kind) + 1)
      /\ forwarded sv'
         = forwarded sv
             ++ (if forwardingEnabled (config sv) && forwardSocket sv
                 then [(msg, forwardingPort (config sv),
                        forwardingAddress (config sv))]
                 else []))
  /\ (let s' := onMessage msg s in
      drivers s' = drivers s
      /\ sessionInfo s' = sessionInfo s
      /\ packetCount s' = packetCount s + 1
      /\ errorCount s' = errorCount s + 1
      /\ console s'
         = console s
             ++ (if errorCount s <? 5
                 then [WarnPacketFormat (packetFormat (Encode.headerAt msg))]
                 else [])).
Proof.
  intros Hb H25 H24.
  split; [now apply parseHeader_Some|].
  assert ((blen msg <? 29) = false) as Hlen by (apply Z.ltb_ge; lia).
  assert (negb (packetFormat (Encode.headerAt msg) =? 2025) = true) as Hw
    by (destruct (Z.eqb_spec (packetFormat (Encode.headerAt msg)) 2025);
        [contradiction|reflexivity]).
  split; [now rewrite parsePacketHeader_spec, Hlen|].
  split; [intros b sv0; apply header_decoding_fails_iff_short|].
  split.
  - cbv zeta. unfold _handleMessage.
    rewrite parsePacketHeader_spec, Hlen, Hw.
    cbn [emit countPacket countKind emitted packetsReceived packetCounts
         forwarded config forwardSocket].
    unfold forward.
    cbn [emit countPacket countKind emitted packetsReceived packetCounts
         forwarded config forwardSocket].
    destruct (forwardingEnabled (config sv) && forwardSocket sv);
      cbn [emit countPacket countKind emitted packetsReceived packetCounts
           forwarded config forwardSocket];
      rewrite <- ?app_assoc, ?app_nil_r, lookup_insert_eq;
      repeat split.
  - assert (supportedFormat (packetFormat (Encode.headerAt msg)) = false)
      as Hf.
    { unfold supportedFormat.
      destruct (Z.eqb_spec (packetFormat (Encode.headerAt msg)) 2025);
        [contradiction|].
      destruct (Z.eqb_spec (packetFormat (Encode.headerAt msg)) 2024);
        [contradiction|reflexivity]. }
    cbv zeta. rewrite onMessage_unsupported by assumption. cbv zeta.
    destruct (errorCount s <? 5); cbn; rewrite ?app_nil_r; repeat split.
Qed.

End FormatFacts.

Section FormatExamples.
Import Buf Telemetry Service.

Lemma C3_unsupported_format_witness :
  29 <= blen (Fixtures.telemetryPacket 2023)
  /\ packetFormat (Encode.headerAt (Fixtures.telemetryPacket 2023)) <> 2025
  /\ packetFormat (Encode.headerAt (Fixtures.telemetryPacket 2023)) <> 2024
  /\ parseHeader (Fixtures.telemetryPacket 2023)
     = Some (Encode.headerAt (Fixtures.telemetryPacket 2023)).
Proof.
  assert (29 <= blen (Fixtures.telemetryPacket 2023)) as Hb
    by (vm_compute; discriminate).
  assert (packetFormat (Encode.headerAt (Fixtures.telemetryPacket 2023))
          <> 2025) as H25 by (vm_compute; discriminate).
  assert (packetFormat (Encode.headerAt (Fixtures.telemetryPacket 2023))
          <> 2024) as H24 by (vm_compute; discriminate).
  repeat (split; [assumption|]).
  exact (proj1 (@C3_unsupported_format Fixtures.plainRuntime
                  (Fixtures.telemetryPacket 2023) Fixtures.oneDriver 0
                  Fixtures.forwardingService Hb H25 H24)).
Defined.

(** C3 (as stated) fails in the telemetry logger: a full Car Telemetry
    datagram in format 2023 is counted as an error and never reaches the
    body decoder, which would have written speed 287 to the known slot 0. *)
Lemma C3_counterexample :
  29 <= blen (Fixtures.telemetryPacket 2023)
  /\ packetFormat (Encode.headerAt (Fixtures.telemetryPacket 2023)) = 2023
  /\ telemetry
       <$> (drivers (@onMessage Fixtures.plainRuntime
                                (Fixtures.telemetryPacket 2023)
                                Fixtures.oneDriver) !! 0)
     = Some None
  /\ errorCount (@onMessage Fixtures.plainRuntime
                            (Fixtures.telemetryPacket 2023) Fixtures.oneDriver)
     = errorCount Fixtures.oneDriver + 1
  /\ speed
       <$> (drivers (snd (@parseCarTelemetry Fixtures.plainRuntime
                            (Fixtures.telemetryPacket 2023)
                            Fixtures.oneDriver)) !! 0
            ≫= telemetry)
     = Some 287.
Proof.
  split; [vm_compute; discriminate|].
  repeat split; vm_compute; reflexivity.
Qed.

End FormatExamples.

(** ** The capture recorder *)

Section RecorderFacts.
Import Recorder.

Lemma say_refused (r : Recorder) (w : Msg) (rest : list Msg) :
  isWarning w = true -> refused r (Returned, say (w :: rest) r).
Proof.
  intros Hw. split; [reflexivity|].
  split; [exists w, rest; split; [exact Hw|reflexivity]|].
  repeat split.
Qed.

Lemma saveRecording_refused (stamp : string) (renameOk : bool) (r : Recorder) :
  currentState r <> FINISHED -> refused r (saveRecording stamp renameOk r).
Proof.
  intros Hs. unfold saveRecording.
  destruct (currentState r); try contradiction; now apply say_refused.
Qed.

Lemma startNewRecording_refused (stamp : string) (r : Recorder) :
  currentState r = RECORDING -> refused r (startNewRecording stamp r).
Proof.
  intros Hs. unfold startNewRecording.
  destruct (decide (currentState r = RECORDING)); [|contradiction].
  now apply say_refused.
Qed.

Lemma startNewRecording_starts (stamp : string) (r : Recorder) :
  currentState r <> RECORDING ->
  fst (startNewRecording stamp r) = Returned
  /\ currentState (snd (startNewRecording stamp r)) = RECORDING
  /\ currentTempFile (snd (startNewRecording stamp r))
     = Some (tempPath stamp)
  /\ writeStream (snd (startNewRecording stamp r)) = Some (tempPath stamp)
  /\ stats (snd (startNewRecording stamp r)) = zeroStats
  /\ writeQueue (snd (startNewRecording stamp r)) = []
  /\ fsLog (snd (startNewRecording stamp r))
     = fsLog r
         ++ match writeStream r with
            | Some open => [StreamEnd open]
            | None => []
            end
         ++ [CreateWriteStream (tempPath stamp)]
  /\ console (snd (startNewRecording stamp r))
     = console r ++ [UpdateDisplay; InfoRecordingStarted].
Proof.
  intros Hs. unfold startNewRecording.
  destruct (decide (currentState r = RECORDING)); [contradiction|].
  unfold endStreamIfOpen.
  destruct (writeStream r); cbn; rewrite <- ?app_assoc; repeat split.
Qed.

Lemma saveRecording_changes (stamp : string) (renameOk : bool) (r : Recorder) :
  currentState (snd (saveRecording stamp renameOk r)) <> currentState r ->
  currentState r = FINISHED
  /\ currentState (snd (saveRecording stamp renameOk r)) = IDLE.
Proof.
  unfold saveRecording.
  destruct (currentState r) eqn:E, (currentTempFile r), renameOk;
    cbn [snd say currentState]; rewrite ?E; intros Hne;
    try contradiction; split; reflexivity.
Qed.

Lemma press_hasFile (k : Key) (r : Recorder) :
  hasFile r -> hasFile (snd (press k r)).
Proof.
  unfold hasFile. intros H0.
  destruct k as [stamp| |stamp ok|ex|]; cbn [press].
  - unfold startNewRecording.
    destruct (decide (currentState r = RECORDING)); cbn; [exact H0|].
    intros _. split; eauto.
  - unfold finishRecording.
    destruct (currentState r) eqn:E; cbn; try (intros Hn; contradiction).
    + destruct H0 as [[t Ht] [w Hw]]; [discriminate|]. rewrite Hw.
      destruct (writeQueue r); cbn; rewrite ?Ht, ?Hw; intros _; split; eauto.
    + destruct H0 as [[t Ht] [w Hw]]; [discriminate|]. rewrite Hw.
      destruct (writeQueue r); cbn; rewrite ?Ht, ?Hw; intros _; split; eauto.
    + rewrite E. exact H0.
  - unfold saveRecording.
    destruct (currentState r) eqn:E; cbn; rewrite ?E; try exact H0.
    destruct (currentTempFile r) eqn:T; cbn; rewrite ?E, ?T; [|exact H0].
    destruct ok; cbn; [intros Hne; contradiction|].
    rewrite E, T. exact H0.
  - unfold discardRecording.
    destruct (currentTempFile r) eqn:T; cbn; [intros Hne; contradiction|].
    rewrite T. exact H0.
  - unfold togglePause.
    destruct (currentState r) eqn:E; cbn; rewrite ?E; try exact H0;
      intros _; apply H0; discriminate.
Qed.

(** Whatever keys were pressed, a recorder outside [IDLE] has its file. *)
Lemma pressAll_hasFile (ks : list Key) : hasFile (pressAll ks initial).
Proof.
  unfold pressAll.
  assert (hasFile initial) as H0 by (intros Hne; contradiction).
  revert H0. generalize initial.
  induction ks as [|k ks IH]; intros r Hr; [exact Hr|].
  cbn [fold_left]. apply IH. now apply press_hasFile.
Qed.

(** So [save] is accepted in every [FINISHED] state the keys can lead to,
    and [finish] never meets a missing stream. *)
Lemma save_from_finished (ks : list Key) (stamp : string) :
  currentState (pressAll ks initial) = FINISHED ->
  currentState (snd (saveRecording stamp true (pressAll ks initial))) = IDLE.
Proof.
  intros Hs. destruct (pressAll_hasFile ks) as [[t Ht] _];
    [rewrite Hs; discriminate|].
  unfold saveRecording. now rewrite Hs, Ht.
Qed.

Lemma finish_returns (ks : list Key) :
  fst (finishRecording (pressAll ks initial)) = Returned.
Proof.
  unfold finishRecording.
  destruct (currentState (pressAll ks initial)) eqn:Hs; try reflexivity;
    (destruct (pressAll_hasFile ks) as [_ [w Hw]];
     [rewrite Hs; discriminate|]);
    cbn [setState writeStream]; now rewrite Hw.
Qed.

(** C2 (amended): [save] changes the recording state only from [FINISHED]
    (to [IDLE]); from every other state it is refused: it returns, prints a
    warning and leaves the recorder as it was.  [start] is refused in the
    same way only while [RECORDING]; from [IDLE], [PAUSED] and [FINISHED] it
    returns after it has ended the stream that was open, if any, reset the
    statistics and the write queue, and opened a stream on a fresh temporary
    file, with the recorder in [RECORDING]; it does nothing else to the
    file system and prints no warning. *)
Theorem C2_recorder_transitions (stamp : string) (renameOk : bool)
    (r : Recorder) :
  (currentState (snd (saveRecording stamp renameOk r)) <> currentState r ->
   currentState r = FINISHED
   /\ currentState (snd (saveRecording stamp renameOk r)) = IDLE)
  /\ (currentState r <> FINISHED ->
      refused r (saveRecording stamp renameOk r))
  /\ (currentState r = RECORDING -> refused r (startNewRecording stamp r))
  /\ (currentState r <> RECORDING ->
      fst (startNewRecording stamp r) = Returned
      /\ currentState (snd (startNewRecording stamp r)) = RECORDING
      /\ currentTempFile (snd (startNewRecording stamp r))
         = Some (tempPath stamp)
      /\ writeStream (snd (startNewRecording stamp r))
         = Some (tempPath stamp)
      /\ stats (snd (startNewRecording stamp r)) = zeroStats
      /\ writeQueue (snd (startNewRecording stamp r)) = []
      /\ fsLog (snd (startNewRecording stamp r))
         = fsLog r
             ++ match writeStream r with
                | Some open => [StreamEnd open]
                | None => []
                end
             ++ [CreateWriteStream (tempPath stamp)]
      /\ console (snd (startNewRecording stamp r))
         = console r ++ [UpdateDisplay; InfoRecordingStarted]).
Proof.
  split; [apply saveRecording_changes|].
  split; [apply saveRecording_refused|].
  split; [apply startNewRecording_refused|apply startNewRecording_starts].
Qed.

(** C2 (as stated) fails: [start] is not refused while [PAUSED] or
    [FINISHED]; it returns without a warning and the recorder is
    [RECORDING]. *)
Lemma C2_counterexample :
  currentState Fixtures.pausedRecorder = PAUSED
  /\ currentState (snd (startNewRecording "t2" Fixtures.pausedRecorder))
     = RECORDING
  /\ currentState Fixtures.finishedRecorder = FINISHED
  /\ currentState (snd (startNewRecording "t2" Fixtures.finishedRecorder))
     = RECORDING
  /\ console (snd (startNewRecording "t2" Fixtures.pausedRecorder))
     = console Fixtures.pausedRecorder ++ [UpdateDisplay; InfoRecordingStarted].
Proof. repeat split; vm_compute; reflexivity. Qed.

End RecorderFacts.

(** ** The replay engine *)

Section ReplayFacts.
Import Buf Replay.

(** One call on a frame whose twelve-octet header lies inside the file. *)
Lemma sendNextPacket_frame (file : buffer) (sendOk : buffer -> bool)
    (speed : Q) (start now : Z) (st : ReplayState) :
  0 <= offset st -> offset st + 12 <= blen file ->
  sendNextPacket file sendOk speed start now st
  = let size := field file (Z.to_nat (offset st)) 4 in
    let timestamp := field file (Z.to_nat (offset st + 4)) 8 in
    let payload := slice file (offset st + 12) (offset st + 12 + size) in
    let st' first :=
      {| offset := offset st + 12 + size;
         packetCount := packetCount st + 1;
         firstTimestamp := Some first |} in
    if negb (sendOk payload) then SendFailed payload
    else
      match firstTimestamp st with
      | None => Sent payload Immediate (st' timestamp)
      | Some first =>
          let waitTime :=
            (inject_Z start + targetDelay first timestamp speed
             - inject_Z now)%Q in
          Sent payload
               (if Qle_bool waitTime 0 then Immediate else After waitTime)
               (st' first)
      end.
Proof.
  unfold blen. intros H0 Hb. unfold sendNextPacket.
  destruct (Z.geb_spec (offset st) (blen file)); [unfold blen in *; lia|].
  unfold readUInt32LE, readBigUInt64LE.
  rewrite !readLE_at by lia. reflexivity.
Qed.

Lemma sendNextPacket_done (file : buffer) (sendOk : buffer -> bool)
    (speed : Q) (start now : Z) (st : ReplayState) :
  blen file <= offset st ->
  sendNextPacket file sendOk speed start now st = Completed (packetCount st).
Proof.
  intros Hb. unfold sendNextPacket.
  destruct (Z.geb_spec (offset st) (blen file)); [reflexivity|lia].
Qed.

Lemma sendNextPacket_truncated_header (file : buffer)
    (sendOk : buffer -> bool) (speed : Q) (start now : Z)
    (st : ReplayState) :
  0 <= offset st < blen file -> blen file < offset st + 12 ->
  sendNextPacket file sendOk speed start now st = Crashed RangeError.
Proof.
  intros H0 Hb. unfold sendNextPacket.
  destruct (Z.geb_spec (offset st) (blen file)); [lia|].
  unfold readUInt32LE, readBigUInt64LE, readLE.
  destruct (bytesAt file (offset st) 4); [|reflexivity].
  unfold bytesAt.
  destruct (Z.leb_spec (offset st + 4 + Z.of_nat 8) (blen file)); [lia|].
  now rewrite andb_false_r.
Qed.

Lemma slice_past_end (b : buffer) (start stop : Z) :
  0 <= start -> blen b <= stop -> slice b start stop = drop (Z.to_nat start) b.
Proof.
  unfold blen, slice. intros H0 Hb. apply take_ge.
  rewrite length_drop. lia.
Qed.

(** C9 (amended): a frame whose length field points past the end of the
    file is not detected as such.  When its twelve-octet header lies inside
    the file, the call takes the octets that remain, possibly none, as the
    payload.  If the socket sends them, the frame is counted and the
    following call finds the offset past the end and reports the replay
    complete: nothing is aborted and no error is reported.  If the socket
    refuses them, as a UDP socket over IPv4 does with more than 65507
    octets, the run ends by the send error and nothing of the frame is
    sent. *)
Theorem C9_length_past_end (file : buffer) (sendOk : buffer -> bool)
    (speed : Q) (start now : Z) (st : ReplayState) :
  0 <= offset st ->
  offset st + 12 <= blen file ->
  blen file < offset st + 12 + field file (Z.to_nat (offset st)) 4 ->
  let remaining := drop (Z.to_nat (offset st + 12)) file in
  (sendOk remaining = true ->
   exists next st',
     sendNextPacket file sendOk speed start now st = Sent remaining next st'
     /\ packetCount st' = packetCount st + 1
     /\ forall now', sendNextPacket file sendOk speed start now' st'
                     = Completed (packetCount st + 1))
  /\ (sendOk remaining = false ->
      sendNextPacket file sendOk speed start now st = SendFailed remaining)
  /\ (udp4 remaining = true <-> blen file - (offset st + 12) <= 65507).
Proof.
  intros H0 Hh Hp. cbv zeta.
  rewrite sendNextPacket_frame by assumption. cbv zeta.
  rewrite slice_past_end by lia.
  split; [|split].
  - intros Hok. rewrite Hok. cbn [negb].
    destruct (firstTimestamp st); eexists _, _;
      (split; [reflexivity|]); (split; [reflexivity|]);
      intros now'; apply sendNextPacket_done; cbn [offset]; lia.
  - intros Hno. now rewrite Hno.
  - unfold udp4, blen in *. rewrite length_drop.
    destruct (Z.leb_spec (Z.of_nat (length file - Z.to_nat (offset st + 12)))
                         65507); split; intros; try lia; congruence.
Qed.

(** Doubling the speed halves every target. *)
Lemma targetDelay_double_speed (epoch timestamp : Z) (speed : Q) :
  ~ (speed == 0)%Q ->
  (targetDelay epoch timestamp (2 * speed)
   == targetDelay epoch timestamp speed / 2)%Q.
Proof. intros Hs. unfold targetDelay. field. exact Hs. Qed.

Lemma targetDelay_speed_two (epoch timestamp : Z) :
  (targetDelay epoch timestamp 2 == targetDelay epoch timestamp 1 / 2)%Q.
Proof. unfold targetDelay. field. Qed.





(** On the ideal clock the second frame of every capture leaves at the start
    time, together with the first, whatever its timestamp, when the socket
    sends both. *)
Lemma second_frame_sent_at_start (file : buffer) (sendOk : buffer -> bool)
    (speed : Q) (start : Z) :
  let n1 := field file 0 4 in
  let n2 := field file (Z.to_nat (12 + n1)) 4 in
  12 + n1 + 12 <= blen file ->
  sendOk (slice file 12 (12 + n1)) = true ->
  sendOk (slice file (12 + n1 + 12) (12 + n1 + 12 + n2)) = true ->
  exists rest ending,
    startReplay file sendOk speed start
    = ((start, slice file 12 (12 + n1))
         :: (start, slice file (12 + n1 + 12) (12 + n1 + 12 + n2)) :: rest,
       ending).
Proof.
  intros n1 n2 Hb Hs1 Hs2.
  assert (0 <= n1) as Hn1 by apply (field_range file 0 4).
  unfold startReplay.
  destruct (length file) as [|m] eqn:El; [unfold blen in Hb; lia|].
  cbn [run]. rewrite sendNextPacket_frame by (cbn; lia).
  cbn [firstTimestamp initial offset packetCount]. cbv zeta.
  change (Z.to_nat 0) with 0%nat. fold n1.
  change (0 + 12) with 12. rewrite Hs1. cbn [negb].
  rewrite sendNextPacket_frame by (cbn [offset]; lia).
  cbn [firstTimestamp offset packetCount]. cbv zeta.
  change (0 + 12 + n1) with (12 + n1). fold n2. rewrite Hs2. cbn [negb].
  match goal with
  | |- context [run ?f ?b ?k ?s ?t ?n ?st] =>
      destruct (run f b k s t n st) as [tr e]
  end.
  eexists _, _. reflexivity.
Qed.

Lemma C9_length_past_end_witness :
  0 <= offset initial
  /\ offset initial + 12 <= blen Fixtures.truncatedCapture
  /\ blen Fixtures.truncatedCapture
     < offset initial + 12
       + field Fixtures.truncatedCapture (Z.to_nat (offset initial)) 4
  /\ exists next st',
       sendNextPacket Fixtures.truncatedCapture udp4 1 0 0 initial
       = Sent (drop (Z.to_nat (offset initial + 12)) Fixtures.truncatedCapture)
              next st'
       /\ packetCount st' = packetCount initial + 1.
Proof.
  assert (0 <= offset initial) as H0 by (vm_compute; discriminate).
  assert (offset initial + 12 <= blen Fixtures.truncatedCapture) as Hh
    by (vm_compute; discriminate).
  assert (blen Fixtures.truncatedCapture
          < offset initial + 12
            + field Fixtures.truncatedCapture (Z.to_nat (offset initial)) 4)
    as Hp by (vm_compute; reflexivity).
  assert (udp4 (drop (Z.to_nat (offset initial + 12))
                     Fixtures.truncatedCapture) = true) as Hok
    by (vm_compute; reflexivity).
  repeat (split; [assumption|]).
  destruct (proj1 (C9_length_past_end Fixtures.truncatedCapture udp4 1 0 0
                     initial H0 Hh Hp) Hok) as (next & st' & E & Hc & _).
  exists next, st'. split; [exact E|exact Hc].
Defined.

(** C9 (as stated) fails: the only frame of the file declares ten octets and
    has three; the three octets are sent and the replay ends as complete,
    with one packet counted. *)
Lemma C9_counterexample :
  field Fixtures.truncatedCapture 0 4 = 10
  /\ blen Fixtures.truncatedCapture = 15
  /\ startReplay Fixtures.truncatedCapture udp4 1 0
     = ([(0, [x01; x02; x03])], Finished 1).
Proof. repeat split; vm_compute; reflexivity. Qed.

(** C8 at a failing input: three frames recorded at 5000, 6000 and 6500 ms,
    replayed at speed 1 from time 0.  The targets of the second and third
    frame are 1000 and 1500 ms after the start; the second frame leaves at
    0 and the third at 1000, each at the target of the frame before it.  At
    speed 2 the third frame leaves at 500. *)
Theorem C8_frames_sent_one_slot_early :
  fst (startReplay Fixtures.threeFrames udp4 1 0)
  = [(0, [x0a]); (0, [x0b]); (1000, [x0c])]
  /\ snd (startReplay Fixtures.threeFrames udp4 1 0) = Finished 3
  /\ Qred (targetDelay 5000 6000 1) = 1000%Q
  /\ Qred (targetDelay 5000 6500 1) = 1500%Q
  /\ map fst (fst (startReplay Fixtures.threeFrames udp4 2 0))
     = [0; 0; 500].
Proof. repeat split; vm_compute; reflexivity. Qed.

End ReplayFacts.

(** ** The record layouts and the whole car array *)

Section LayoutFacts.
Import Buf Telemetry Layout.
Context `{JsRuntime}.

Lemma inside_false_u8 (b : buffer) (off : Z) :
  0 <= off < blen b -> (off <? 0) || (off >=? blen b) = false.
Proof.
  intros. destruct (Z.ltb_spec off 0); [lia|].
  destruct (Z.geb_spec off (blen b)); [lia|reflexivity].
Qed.

Ltac nat_offsets :=
  repeat match goal with
         | |- context [Z.to_nat (Z.of_nat ?o + ?k)] =>
             replace (Z.to_nat (Z.of_nat o + k)) with (o + Z.to_nat k)%nat
               by lia
         | |- context [Z.to_nat (Z.of_nat ?o)] => rewrite (Nat2Z.id o)
         end.

(** A record that lies inside the buffer is read field by field at the
    fixed offsets. *)
Lemma readCarTelemetry_inside (b : buffer) (off : nat) :
  Z.of_nat off + 60 <= blen b ->
  readCarTelemetry b (Z.of_nat off) = Ret (carTelemetryAt b off).
Proof.
  intros Hb. unfold readCarTelemetry.
  rewrite (readInt8_at b (Z.of_nat off + 15)) by lia.
  rewrite !safeReadUInt8_spec, !safeReadUInt16LE_spec, !safeReadFloatLE_spec.
  cbn [mbind res_bind rbind].
  rewrite !inside_false_u8 by lia.
  rewrite (inside_true (Z.of_nat off) 1), !(inside_true (Z.of_nat off + _) 1),
    !(inside_true (Z.of_nat off + _) 3) by lia.
  nat_offsets. reflexivity.
Qed.


Lemma readLapData_inside (b : buffer) (off : nat) :
  Z.of_nat off + 50 <= blen b ->
  readLapData b (Z.of_nat off) = Ret (lapRecordAt b off).
Proof.
  intros Hb. unfold readLapData.
  rewrite (readUInt32LE_at b (Z.of_nat off)),
    (readUInt32LE_at b (Z.of_nat off + 4)) by lia.
  rewrite !safeReadUInt8_spec. cbn [mbind res_bind rbind].
  rewrite !inside_false_u8 by lia.
  nat_offsets. reflexivity.
Qed.

Lemma readCarStatus_inside (b : buffer) (off : nat) :
  Z.of_nat off + 55 <= blen b ->
  readCarStatus b (Z.of_nat off) = Ret (carStatusAt b off).
Proof.
  intros Hb. unfold readCarStatus.
  rewrite (readInt8_at b (Z.of_nat off + 28)) by lia.
  rewrite !safeReadUInt8_spec, !safeReadFloatLE_spec.
  cbn [mbind res_bind rbind].
  rewrite !inside_false_u8 by lia.
  rewrite !(inside_true (Z.of_nat off + _) 3) by lia.
  nat_offsets. reflexivity.
Qed.

Lemma slice_inside (b : buffer) (off n : nat) :
  slice b (Z.of_nat off) (Z.min (Z.of_nat off + Z.of_nat n) (blen b))
  = take n (drop off b).
Proof.
  unfold slice, blen. rewrite Nat2Z.id.
  destruct (Z.min_spec (Z.of_nat off + Z.of_nat n) (Z.of_nat (length b)))
    as [[Hlt ->]|[Hge ->]].
  - f_equal. lia.
  - rewrite !take_ge; [reflexivity|rewrite length_drop; lia..].
Qed.

Lemma readParticipant_inside (b : buffer) (i : Z) (off : nat) :
  Z.of_nat off + 58 <= blen b ->
  readParticipant b i (Z.of_nat off) = Ret (participantAt b i off).
Proof.
  intros Hb. unfold readParticipant.
  rewrite !safeReadUInt8_spec, safeReadString_spec.
  cbn [mbind res_bind rbind].
  rewrite inside_false_u8, !(inside_false_u8 _ (Z.of_nat off + _)) by lia.
  replace ((Z.of_nat off + 7 <? 0) || (Z.of_nat off + 7 + 48 >? blen b))
    with false
    by (symmetry; destruct (Z.ltb_spec (Z.of_nat off + 7) 0); [lia|];
        destruct (Z.gtb_spec (Z.of_nat off + 7 + 48) (blen b));
        [lia|reflexivity]).
  replace (Z.of_nat off + 7) with (Z.of_nat (off + 7)) by lia.
  change 48 with (Z.of_nat 48). rewrite slice_inside.
  nat_offsets. reflexivity.
Qed.

End LayoutFacts.

Section CarArray.
Import Buf Telemetry Layout.
Context {A : Type} (stride : nat) (decodeAt : buffer -> nat -> A)
  (read : buffer -> Z -> res A) (upd : A -> Driver -> Driver)
  (loop : nat -> buffer -> Z -> Z -> M unit).
Hypothesis read_inside : forall b off,
  Z.of_nat off + Z.of_nat stride <= blen b ->
  read b (Z.of_nat off) = Ret (decodeAt b off).
Hypothesis loop_O : forall b i off, loop O b i off = ret tt.
Hypothesis loop_S : forall n b i off,
  loop (S n) b i off
  = if off + Z.of_nat stride >? blen b then ret tt
    else c ← liftR (read b off);
         _ ← modify (setDrivers (updateIfPresent i (upd c)));
         loop n b (i + 1) (off + Z.of_nat stride).

(** When [n] records fit in the buffer the loop takes all [n] turns: slot
    [k0 + k] is rewritten from the record at [off + stride * k]. *)
Lemma loop_all (n : nat) (b : buffer) (k0 off : nat) (s : State) :
  (off + stride * n <= length b)%nat ->
  exists s',
    loop n b (Z.of_nat k0) (Z.of_nat off) s = (Ret tt, s')
    /\ sameBesidesDrivers s s'
    /\ forall j,
         drivers s' !! j
         = if decide (Z.of_nat k0 <= j < Z.of_nat (k0 + n))
           then upd (decodeAt b (off + stride * (Z.to_nat j - k0)))
                  <$> drivers s !! j
           else drivers s !! j.
Proof.
  revert k0 off s. induction n as [|n IH]; intros k0 off s Hfit.
  - rewrite loop_O. exists s. split; [reflexivity|].
    split; [apply sameBesidesDrivers_refl|]. intros j.
    destruct (decide _) as [Hj|]; [lia|reflexivity].
  - rewrite loop_S.
    destruct (Z.gtb_spec (Z.of_nat off + Z.of_nat stride) (blen b)) as [Hgt|_];
      [unfold blen in Hgt; nia|].
    rewrite read_inside by (unfold blen; nia).
    unfold mbind, M_bind, bind, liftR, modify.
    set (s1 := setDrivers _ s).
    destruct (IH (S k0) (off + stride)%nat s1 ltac:(nia))
      as (s' & E & Hsame & L).
    replace (Z.of_nat (S k0)) with (Z.of_nat k0 + 1) in E by lia.
    replace (Z.of_nat (off + stride)) with (Z.of_nat off + Z.of_nat stride)
      in E by lia.
    exists s'. split; [exact E|].
    split; [eapply sameBesidesDrivers_trans; [|exact Hsame]; repeat split|].
    intros j. rewrite L. subst s1. cbn [setDrivers drivers].
    destruct (decide (Z.of_nat (S k0) <= j < Z.of_nat (S k0 + n))) as [Hj|Hj].
    + rewrite updateIfPresent_ne by lia.
      destruct (decide _) as [_|]; [|lia].
      do 3 f_equal. nia.
    + destruct (decide (j = Z.of_nat k0)) as [->|Hne].
      * rewrite updateIfPresent_eq.
        destruct (decide _) as [_|]; [|lia].
        do 3 f_equal. rewrite Nat2Z.id. nia.
      * rewrite updateIfPresent_ne by lia.
        destruct (decide _) as [|_]; [lia|reflexivity].
Qed.

End CarArray.

Section TableContents.
Import Buf Telemetry Layout.
Context `{JsRuntime}.

Lemma rewriteSlot_none (write : nat -> Driver -> Driver) (j : Z)
    (o : option Driver) :
  rewriteSlot 0 write j o = o.
Proof. unfold rewriteSlot. destruct (decide _); [lia|reflexivity]. Qed.

Lemma recordsIn_short (b : buffer) (m : Z) : blen b < m -> recordsIn b m = 0%nat.
Proof. unfold recordsIn. destruct (Z.ltb_spec (blen b) m); [reflexivity|lia]. Qed.

Lemma recordsIn_full (b : buffer) (m : Z) : m <= blen b -> recordsIn b m = 22%nat.
Proof. unfold recordsIn. destruct (Z.ltb_spec (blen b) m); [lia|reflexivity]. Qed.

(** What each of the three car-array decoders leaves in the table, on
    every buffer. *)
Lemma parseCarTelemetry_table (b : buffer) (s : State) :
  exists s',
    parseCarTelemetry b s = (Ret tt, s') /\ sameBesidesDrivers s s'
    /\ forall j, drivers s' !! j
                 = rewriteSlot (recordsIn b 1352) (telemetryWrite b) j
                                (drivers s !! j).
Proof.
  destruct (Z.lt_ge_cases (blen b) 1352) as [Hs|Hl].
  - rewrite parseCarTelemetry_short, recordsIn_short by lia.
    exists s. split; [reflexivity|]. split; [apply sameBesidesDrivers_refl|].
    intros j. now rewrite rewriteSlot_none.
  - rewrite recordsIn_full by lia. unfold parseCarTelemetry.
    rewrite parseHeader_Some by lia.
    destruct (Z.ltb_spec (blen b) 1352); [lia|].
    destruct (loop_all 60 carTelemetryAt readCarTelemetry
                (fun c => setTelemetry (telemetryOf c)) carTelemetryLoop
                readCarTelemetry_inside (fun _ _ _ => eq_refl)
                (fun _ _ _ _ => eq_refl) 22 b 0 29 s)
      as (s' & E & Hsame & L); [unfold blen in *; lia|].
    exists s'. split; [exact E|]. split; [exact Hsame|].
    intros j. rewrite L. unfold rewriteSlot, telemetryWrite.
    destruct (decide (0 <= j < Z.of_nat 22)) as [Hj|Hj];
      (destruct (decide _) as [Hj'|Hj']; [|try lia]); try lia;
      try reflexivity.
    now rewrite Nat.sub_0_r.
Qed.

Lemma parseLapData_short (msg : buffer) (s : State) :
  blen msg < 1131 -> parseLapData msg s = (Ret tt, s).
Proof.
  intros Hb. unfold parseLapData. destruct (parseHeader msg); [|reflexivity].
  destruct (Z.ltb_spec (blen msg) 1131); [reflexivity|lia].
Qed.

Lemma parseCarStatus_short (msg : buffer) (s : State) :
  blen msg < 1239 -> parseCarStatus msg s = (Ret tt, s).
Proof.
  intros Hb. unfold parseCarStatus. destruct (parseHeader msg); [|reflexivity].
  destruct (Z.ltb_spec (blen msg) 1239); [reflexivity|lia].
Qed.

Lemma parseLapData_table (b : buffer) (s : State) :
  exists s',
    parseLapData b s = (Ret tt, s') /\ sameBesidesDrivers s s'
    /\ forall j, drivers s' !! j
                 = rewriteSlot (recordsIn b 1131) (lapDataWrite b) j
                                (drivers s !! j).
Proof.
  destruct (Z.lt_ge_cases (blen b) 1131) as [Hs|Hl].
  - rewrite parseLapData_short, recordsIn_short by lia.
    exists s. split; [reflexivity|]. split; [apply sameBesidesDrivers_refl|].
    intros j. now rewrite rewriteSlot_none.
  - rewrite recordsIn_full by lia. unfold parseLapData.
    rewrite parseHeader_Some by lia.
    destruct (Z.ltb_spec (blen b) 1131); [lia|].
    destruct (loop_all 50 lapRecordAt readLapData
                (fun r => setLapData (lapDataOf r)) lapDataLoop
                readLapData_inside (fun _ _ _ => eq_refl)
                (fun _ _ _ _ => eq_refl) 22 b 0 29 s)
      as (s' & E & Hsame & L); [unfold blen in *; lia|].
    exists s'. split; [exact E|]. split; [exact Hsame|].
    intros j. rewrite L. unfold rewriteSlot, lapDataWrite.
    destruct (decide (0 <= j < Z.of_nat 22)) as [Hj|Hj];
      (destruct (decide _) as [Hj'|Hj']; [|try lia]); try lia;
      try reflexivity.
    now rewrite Nat.sub_0_r.
Qed.

Lemma parseCarStatus_table (b : buffer) (s : State) :
  exists s',
    parseCarStatus b s = (Ret tt, s') /\ sameBesidesDrivers s s'
    /\ forall j, drivers s' !! j
                 = rewriteSlot (recordsIn b 1239) (carStatusWrite b) j
                                (drivers s !! j).
Proof.
  destruct (Z.lt_ge_cases (blen b) 1239) as [Hs|Hl].
  - rewrite parseCarStatus_short, recordsIn_short by lia.
    exists s. split; [reflexivity|]. split; [apply sameBesidesDrivers_refl|].
    intros j. now rewrite rewriteSlot_none.
  - rewrite recordsIn_full by lia. unfold parseCarStatus.
    rewrite parseHeader_Some by lia.
    destruct (Z.ltb_spec (blen b) 1239); [lia|].
    destruct (loop_all 55 carStatusAt readCarStatus
                (fun c => setCarStatus (carStatusOf c)) carStatusLoop
                readCarStatus_inside (fun _ _ _ => eq_refl)
                (fun _ _ _ _ => eq_refl) 22 b 0 29 s)
      as (s' & E & Hsame & L); [unfold blen in *; lia|].
    exists s'. split; [exact E|]. split; [exact Hsame|].
    intros j. rewrite L. unfold rewriteSlot, carStatusWrite.
    destruct (decide (0 <= j < Z.of_nat 22)) as [Hj|Hj];
      (destruct (decide _) as [Hj'|Hj']; [|try lia]); try lia;
      try reflexivity.
    now rewrite Nat.sub_0_r.
Qed.

End TableContents.

Section IdentityAndSession.
Import Buf Telemetry Layout.
Context `{JsRuntime}.

Lemma upsertIdentity_lookup (h : PacketHeader) (i : Z) (p : ParticipantData)
    (ds : gmap Z Driver) (j : Z) :
  upsertIdentity h i p ds !! j
  = if decide (j = i)
    then Some (setIdentity h i p (default emptyDriver (ds !! i)))
    else ds !! j.
Proof.
  unfold upsertIdentity.
  destruct (decide (j = i)) as [->|Hne].
  - destruct (ds !! i); cbn [default]; now rewrite lookup_insert_eq.
  - destruct (ds !! i); now rewrite lookup_insert_ne.
Qed.

Lemma participantsLoop_all (n : nat) (b : buffer) (h : PacketHeader)
    (k0 off : nat) (s : State) :
  (off + 58 * n <= length b)%nat ->
  exists s',
    participantsLoop n b h (Z.of_nat k0) (Z.of_nat off) s = (Ret tt, s')
    /\ sameBesidesDrivers s s'
    /\ forall j,
         drivers s' !! j
         = if decide (Z.of_nat k0 <= j < Z.of_nat (k0 + n))
           then Some (setIdentity h j
                        (participantAt b j (off + 58 * (Z.to_nat j - k0)))
                        (default emptyDriver (drivers s !! j)))
           else drivers s !! j.
Proof.
  revert k0 off s. induction n as [|n IH]; intros k0 off s Hfit;
    cbn [participantsLoop].
  - exists s. split; [reflexivity|].
    split; [apply sameBesidesDrivers_refl|]. intros j.
    destruct (decide _) as [Hj|]; [lia|reflexivity].
  - destruct (Z.gtb_spec (Z.of_nat off + 58) (blen b)) as [Hgt|_];
      [unfold blen in Hgt; lia|].
    rewrite readParticipant_inside by (unfold blen; lia).
    unfold mbind, M_bind, bind, liftR, modify.
    set (s1 := setDrivers _ s).
    destruct (IH (S k0) (off + 58)%nat s1 ltac:(lia))
      as (s' & E & Hsame & L).
    replace (Z.of_nat (S k0)) with (Z.of_nat k0 + 1) in E by lia.
    replace (Z.of_nat (off + 58)) with (Z.of_nat off + 58) in E by lia.
    exists s'. split; [exact E|].
    split; [eapply sameBesidesDrivers_trans; [|exact Hsame]; repeat split|].
    intros j. rewrite L. subst s1. cbn [setDrivers drivers].
    rewrite upsertIdentity_lookup.
    destruct (decide (Z.of_nat (S k0) <= j < Z.of_nat (S k0 + n))) as [Hj|Hj].
    + destruct (decide (j = Z.of_nat k0)); [lia|].
      destruct (decide _) as [_|]; [|lia].
      do 3 f_equal. lia.
    + destruct (decide (j = Z.of_nat k0)) as [->|Hne].
      * destruct (decide _) as [_|]; [|lia].
        do 3 f_equal. rewrite Nat2Z.id. lia.
      * destruct (decide _) as [|_]; [lia|reflexivity].
Qed.

(** What [parseParticipants] leaves, on every buffer. *)
Lemma parseParticipants_table (b : buffer) (s : State) :
  exists s',
    parseParticipants b s = (Ret tt, s')
    /\ sessionInfo s' = sessionInfo s /\ packetCount s' = packetCount s
    /\ errorCount s' = errorCount s
    /\ console s'
       = console s
           ++ (if (29 <=? blen b) && (blen b <? 1306)
               then [WarnParticipantsTooSmall (blen b)] else [])
    /\ forall j, drivers s' !! j
                 = upsertSlot (announcedCars b) (identityWrite b) j
                              (drivers s !! j).
Proof.
  unfold parseParticipants, announcedCars. rewrite parseHeader_spec.
  destruct (Z.ltb_spec (blen b) 29) as [Hh|Hh].
  - destruct (Z.ltb_spec (blen b) 1306); [|lia].
    exists s. cbn [andb]. destruct (Z.leb_spec 29 (blen b)); [lia|].
    rewrite app_nil_r. repeat split. intros j. unfold upsertSlot.
    destruct (decide _); [lia|reflexivity].
  - destruct (Z.leb_spec 29 (blen b)); [|lia].
    destruct (Z.ltb_spec (blen b) 1306) as [Hs|Hl]; cbn [andb].
    + eexists. split; [reflexivity|]. repeat split. intros j.
      cbn [log drivers]. unfold upsertSlot.
      destruct (decide _); [lia|reflexivity].
    + rewrite safeReadUInt8_spec, inside_false_u8 by lia.
      unfold mbind, M_bind, bind, liftR.
      change (Z.to_nat 29) with 29%nat.
      pose proof (field_range b 29 1) as Hr.
      destruct (participantsLoop_all
                  (Z.to_nat (Z.min (field b 29 1) 22)) b (Encode.headerAt b)
                  0 30 s) as (s' & E & (S1 & S2 & S3 & S4) & L);
        [unfold blen in *; lia|].
      exists s'. split; [exact E|]. rewrite app_nil_r.
      repeat split; try assumption.
      intros j. rewrite L. unfold upsertSlot, identityWrite.
      destruct (decide (0 <= j < _)) as [Hj|Hj];
        (destruct (decide _) as [Hj'|Hj']; [|try lia]); try lia;
        try reflexivity.
      rewrite Nat.sub_0_r, Z2Nat.id by lia. reflexivity.
Qed.

(** What [parseSession] leaves, on every buffer. *)
Lemma parseSession_table (b : buffer) (s : State) :
  exists s',
    parseSession b s = (Ret tt, s')
    /\ drivers s' = drivers s /\ packetCount s' = packetCount s
    /\ errorCount s' = errorCount s
    /\ console s'
       = console s
           ++ (if (29 <=? blen b) && (blen b <? 644)
               then [WarnSessionTooSmall (blen b)] else [])
    /\ sessionInfo s'
       = if blen b <? 644 then sessionInfo s else sessionAt b (sessionInfo s).
Proof.
  unfold parseSession. rewrite parseHeader_spec.
  destruct (Z.ltb_spec (blen b) 29) as [Hh|Hh].
  - destruct (Z.ltb_spec (blen b) 644); [|lia].
    exists s. destruct (Z.leb_spec 29 (blen b)); [lia|].
    cbn [andb]. rewrite app_nil_r. repeat split.
  - destruct (Z.leb_spec 29 (blen b)); [|lia].
    destruct (Z.ltb_spec (blen b) 644) as [Hs|Hl]; cbn [andb].
    + eexists. split; [reflexivity|]. repeat split.
    + rewrite !safeReadUInt8_spec, safeReadUInt16LE_spec.
      rewrite !readInt8_at by lia.
      rewrite ?safeReadUInt8_spec, !inside_false_u8 by lia.
      eexists. split; [reflexivity|]. cbn. rewrite app_nil_r.
      repeat split.
Qed.

End IdentityAndSession.

Section DispatcherEffect.
Import Buf Telemetry Layout.
Context `{JsRuntime}.

Lemma rejected_short (msg : buffer) : blen msg < 29 -> rejected msg = true.
Proof.
  intros Hb. unfold rejected.
  destruct (Z.ltb_spec (blen msg) 29); [reflexivity|lia].
Qed.

Lemma rejected_long (msg : buffer) :
  29 <= blen msg ->
  rejected msg = negb (supportedFormat (packetFormat (Encode.headerAt msg))).
Proof.
  intros Hb. unfold rejected.
  destruct (Z.ltb_spec (blen msg) 29); [lia|reflexivity].
Qed.

(** The handler on every component of the state, in terms of the
    datagram alone. *)
Lemma onMessage_acts (msg : buffer) (s : State) :
  (forall j, drivers (onMessage msg s) !! j = slotAfter msg j (drivers s !! j))
  /\ sessionInfo (onMessage msg s) = sessionAfter msg (sessionInfo s)
  /\ packetCount (onMessage msg s) = packetCount s + 1
  /\ errorCount (onMessage msg s)
     = errorCount s + (if rejected msg then 1 else 0)
  /\ console (onMessage msg s)
     = console s ++ linesAfter msg (errorCount s).
Proof.
  unfold slotAfter, sessionAfter, linesAfter.
  destruct (Z.lt_ge_cases (blen msg) 29) as [Hs|Hl].
  { rewrite rejected_short by lia. unfold onMessage.
    destruct (Z.ltb_spec (blen msg) 29); [|lia].
    cbn. rewrite app_nil_r. repeat split. }
  rewrite rejected_long by lia.
  destruct (Z.ltb_spec (blen msg) 29); [lia|].
  change (field msg 0 2) with (packetFormat (Encode.headerAt msg)).
  change (field msg 6 1) with (packetId (Encode.headerAt msg)).
  destruct (supportedFormat (packetFormat (Encode.headerAt msg))) eqn:Hf;
    cbn [negb].
  2: { rewrite onMessage_unsupported by assumption. cbv zeta.
       destruct (errorCount s <? 5); cbn; rewrite ?app_nil_r; repeat split. }
  rewrite onMessage_supported by assumption.
  set (s1 := setPacketCount (packetCount s + 1) s).
  set (id := packetId (Encode.headerAt msg)).
  change (drivers s) with (drivers s1).
  change (sessionInfo s) with (sessionInfo s1).
  change (errorCount s) with (errorCount s1).
  change (console s) with (console s1).
  change (packetCount s + 1) with (packetCount s1).
  unfold dispatch.
  destruct (Z.eqb_spec id 4) as [E4|N4].
  { destruct (parseParticipants_table msg s1)
      as (s' & E & S1 & S2 & S3 & S4 & L).
    rewrite (guarded_ret _ _ _ _ E).
    destruct (Z.leb_spec 29 (blen msg)); [|lia].
    destruct (Z.eqb_spec id 1); [lia|]. cbn [andb] in *.
    rewrite S4. destruct (blen msg <? 1306); repeat split; try assumption;
      lia. }
  cbn [andb].
  destruct (Z.eqb_spec id 1) as [E1|N1].
  { destruct (parseSession_table msg s1) as (s' & E & S1 & S2 & S3 & S4 & S5).
    rewrite (guarded_ret _ _ _ _ E).
    destruct (Z.leb_spec 29 (blen msg)); [|lia].
    destruct (Z.eqb_spec id 2); [lia|]. destruct (Z.eqb_spec id 6); [lia|].
    destruct (Z.eqb_spec id 7); [lia|]. cbn [andb] in *.
    rewrite S1, S4, S5.
    destruct (blen msg <? 644); cbn [negb]; repeat split; try assumption;
      lia. }
  cbn [andb].
  destruct (Z.eqb_spec id 2) as [E2|N2].
  { destruct (parseLapData_table msg s1) as (s' & E & (S1 & S2 & S3 & S4) & L).
    rewrite (guarded_ret _ _ _ _ E). rewrite app_nil_r.
    repeat split; try assumption; lia. }
  destruct (Z.eqb_spec id 6) as [E6|N6].
  { destruct (parseCarTelemetry_table msg s1)
      as (s' & E & (S1 & S2 & S3 & S4) & L).
    rewrite (guarded_ret _ _ _ _ E). rewrite app_nil_r.
    repeat split; try assumption; lia. }
  destruct (Z.eqb_spec id 7) as [E7|N7].
  { destruct (parseCarStatus_table msg s1)
      as (s' & E & (S1 & S2 & S3 & S4) & L).
    rewrite (guarded_ret _ _ _ _ E). rewrite app_nil_r.
    repeat split; try assumption; lia. }
  unfold guarded, ret. rewrite app_nil_r. repeat split. lia.
Qed.

(** X6. The handler is a function of the datagram on each slot of the
    drivers table, on the session record, on the two counters and on the
    console: a rejected datagram (shorter than 29 octets, or in a format
    other than 2025 and 2024) only counts as an error; any other datagram
    is decoded by its packet id, never counts as an error, and a body
    below its minimum size decodes to nothing. *)
Theorem onMessage_effect (msg : buffer) (s : State) :
  (forall j, drivers (onMessage msg s) !! j = slotAfter msg j (drivers s !! j))
  /\ sessionInfo (onMessage msg s) = sessionAfter msg (sessionInfo s)
  /\ packetCount (onMessage msg s) = packetCount s + 1
  /\ errorCount (onMessage msg s)
     = errorCount s + (if rejected msg then 1 else 0)
  /\ console (onMessage msg s)
     = console s ++ linesAfter msg (errorCount s).
Proof. exact (onMessage_acts msg s). Qed.

End DispatcherEffect.

Section DecodedState.
Import Buf Telemetry Layout.
Context `{JsRuntime}.

(** X1. A Car Telemetry packet of 1352 octets or more is decoded whole:
    for each of the 22 slots that has an entry, the telemetry sub-record is
    replaced by the one built from the 60-octet record at 29 + 60 k (speed
    u16 at 0, throttle f32 at 2, steer f32 at 6, brake f32 at 10, clutch u8
    at 14, gear i8 at 15, engineRPM u16 at 16, drs u8 at 18, brake
    temperatures 4 x u16 at 22, tyre surface temperatures 4 x u8 at 30,
    engine temperature u16 at 38); nothing else changes. *)
Theorem parseCarTelemetry_all_slots (b : buffer) (s : State) :
  1352 <= blen b ->
  exists s',
    parseCarTelemetry b s = (Ret tt, s') /\ sameBesidesDrivers s s'
    /\ forall j, drivers s' !! j
                 = rewriteSlot 22 (telemetryWrite b) j (drivers s !! j).
Proof.
  intros Hb. destruct (parseCarTelemetry_table b s) as (s' & E & S1 & L).
  rewrite recordsIn_full in L by lia. eauto.
Qed.

(** X2. A Lap Data packet of 1131 octets or more is decoded whole: for each
    of the 22 slots that has an entry, the lap sub-record is replaced by the
    one built from the 50-octet record at 29 + 50 k (last lap time u32 at 0,
    current lap time u32 at 4, position u8 at 32, lap number u8 at 33, pit
    status u8 at 34, penalties u8 at 38, warnings u8 at 39, driver status u8
    at 44); nothing else changes. *)
Theorem parseLapData_all_slots (b : buffer) (s : State) :
  1131 <= blen b ->
  exists s',
    parseLapData b s = (Ret tt, s') /\ sameBesidesDrivers s s'
    /\ forall j, drivers s' !! j
                 = rewriteSlot 22 (lapDataWrite b) j (drivers s !! j).
Proof.
  intros Hb. destruct (parseLapData_table b s) as (s' & E & S1 & L).
  rewrite recordsIn_full in L by lia. eauto.
Qed.

(** X3. A Car Status packet of 1239 octets or more is decoded whole: for
    each of the 22 slots that has an entry, the status sub-record is
    replaced by the one built from the 55-octet record at 29 + 55 k (fuel in
    tank f32 at 5, fuel capacity f32 at 9, fuel remaining laps f32 at 13,
    tyre compound u8 at 25, tyre age u8 at 27, FIA flags i8 at 28, ERS store
    energy f32 at 37, ERS deploy mode u8 at 41); nothing else changes. *)
Theorem parseCarStatus_all_slots (b : buffer) (s : State) :
  1239 <= blen b ->
  exists s',
    parseCarStatus b s = (Ret tt, s') /\ sameBesidesDrivers s s'
    /\ forall j, drivers s' !! j
                 = rewriteSlot 22 (carStatusWrite b) j (drivers s !! j).
Proof.
  intros Hb. destruct (parseCarStatus_table b s) as (s' & E & S1 & L).
  rewrite recordsIn_full in L by lia. eauto.
Qed.

(** X4. A Participants packet of 1306 octets or more creates or rewrites
    the entries of the slots below min(numActiveCars, 22), where
    numActiveCars is the octet at 29: name, race number, team, player flag
    and AI flag come from the 58-octet record at 30 + 58 k, the three
    sub-records of an entry that existed are kept, and no other slot
    changes. *)
Theorem parseParticipants_all_slots (b : buffer) (s : State) :
  1306 <= blen b ->
  exists s',
    parseParticipants b s = (Ret tt, s') /\ sameBesidesDrivers s s'
    /\ forall j,
         drivers s' !! j
         = upsertSlot (Z.to_nat (Z.min (field b 29 1) 22)) (identityWrite b) j
                      (drivers s !! j).
Proof.
  intros Hb.
  destruct (parseParticipants_table b s) as (s' & E & S1 & S2 & S3 & S4 & L).
  exists s'. split; [exact E|]. unfold announcedCars in L.
  destruct (Z.ltb_spec (blen b) 1306); [lia|].
  rewrite andb_false_r, app_nil_r in S4. repeat split; assumption.
Qed.

(** X5. A Session packet of 644 octets or more overwrites the session
    record from the octets at 29..36 (weather u8 at 29, track temperature i8
    at 30, air temperature i8 at 31, total laps u8 at 32, session type u8 at
    35, track id i8 at 36) and keeps the track name; the drivers table, the
    counters and the console are untouched. *)
Theorem parseSession_overwrites (b : buffer) (s : State) :
  644 <= blen b ->
  exists s',
    parseSession b s = (Ret tt, s')
    /\ sessionInfo s' = sessionAt b (sessionInfo s)
    /\ drivers s' = drivers s /\ packetCount s' = packetCount s
    /\ errorCount s' = errorCount s /\ console s' = console s.
Proof.
  intros Hb.
  destruct (parseSession_table b s) as (s' & E & S1 & S2 & S3 & S4 & S5).
  exists s'. destruct (Z.ltb_spec (blen b) 644); [lia|].
  rewrite andb_false_r, app_nil_r in S4. repeat split; assumption.
Qed.

Lemma onMessages_snoc (msgs : list buffer) (msg : buffer) (s : State) :
  onMessages (msgs ++ [msg]) s = onMessage msg (onMessages msgs s).
Proof. unfold onMessages. now rewrite fold_left_app. Qed.

(** X7. Over any run of datagrams the packet counter grows by the number of
    datagrams and the error counter by the number of rejected ones, so the
    errors never outnumber the packets. *)
Theorem onMessages_counters (msgs : list buffer) (s : State) :
  packetCount (onMessages msgs s) = packetCount s + Z.of_nat (length msgs)
  /\ errorCount (onMessages msgs s)
     = errorCount s + Z.of_nat (length (List.filter rejected msgs))
  /\ errorCount (onMessages msgs initialState)
     <= packetCount (onMessages msgs initialState).
Proof.
  assert (forall s0,
             packetCount (onMessages msgs s0)
             = packetCount s0 + Z.of_nat (length msgs)
             /\ errorCount (onMessages msgs s0)
                = errorCount s0 + Z.of_nat (length (List.filter rejected msgs)))
    as G.
  { induction msgs as [|msg msgs IH]; intros s0; cbn [onMessages fold_left].
    - cbn. lia.
    - destruct (IH (onMessage msg s0)) as [P E]. unfold onMessages in P, E.
      rewrite P, E.
      destruct (onMessage_acts msg s0) as (_ & _ & P1 & E1 & _).
      rewrite P1, E1. cbn [List.filter].
      destruct (rejected msg); cbn [length]; lia. }
  split; [apply G|]. split; [apply G|].
  destruct (G initialState) as [P E]. rewrite P, E. cbn.
  pose proof (filter_length_le rejected msgs). lia.
Qed.

Lemma linesAfter_no_parse_error (msg : buffer) (e : Z) :
  List.filter isParseError (linesAfter msg e) = [].
Proof.
  unfold linesAfter.
  repeat match goal with
         | |- context [if ?c then _ else _] => destruct c
         end; reflexivity.
Qed.

Lemma linesAfter_format_warnings (msg : buffer) (e : Z) :
  length (List.filter isFormatWarning (linesAfter msg e))
  = if rejected msg && (e <? 5) && negb (blen msg <? 29) then 1%nat
    else 0%nat.
Proof.
  unfold linesAfter, rejected.
  destruct (blen msg <? 29);
    [cbn [negb]; now rewrite andb_false_r|]. cbn [orb negb andb].
  destruct (supportedFormat (field msg 0 2)); cbn [negb andb].
  - repeat match goal with
           | |- context [if ?c then _ else _] => destruct c
           end; reflexivity.
  - rewrite andb_true_r. destruct (e <? 5); reflexivity.
Qed.

(** X8. Whatever datagrams arrive after the start, the console never shows
    a parse error (the inner [catch] is never entered) and shows the format
    warning at most five times. *)
Theorem console_bounds (msgs : list buffer) :
  List.filter isParseError (console (onMessages msgs initialState)) = []
  /\ (length (List.filter isFormatWarning
                (console (onMessages msgs initialState))) <= 5)%nat.
Proof.
  assert (List.filter isParseError (console (onMessages msgs initialState))
          = []
          /\ Z.of_nat (length (List.filter isFormatWarning
                                 (console (onMessages msgs initialState))))
             <= Z.min 5 (errorCount (onMessages msgs initialState))) as G.
  { induction msgs as [|msg msgs IH] using rev_ind;
      [cbn; split; [reflexivity|lia]|].
    rewrite onMessages_snoc.
    destruct (onMessage_acts msg (onMessages msgs initialState))
      as (_ & _ & _ & E & C).
    destruct IH as [IH1 IH2].
    rewrite C, E, !List.filter_app, IH1, linesAfter_no_parse_error.
    split; [reflexivity|].
    rewrite length_app, linesAfter_format_warnings.
    destruct (rejected msg); cbn [andb]; [|lia].
    destruct (Z.ltb_spec (errorCount (onMessages msgs initialState)) 5);
      cbn [andb]; [|lia].
    destruct (blen msg <? 29); cbn [negb]; lia. }
  destruct G as [G1 G2]. split; [exact G1|lia].
Qed.

End DecodedState.

Section Composition.
Import Buf Telemetry Layout.
Context `{JsRuntime}.

Lemma announcedCars_le (b : buffer) : (announcedCars b <= 22)%nat.
Proof. unfold announcedCars. destruct (blen b <? 1306); lia. Qed.

Lemma recordsIn_le (b : buffer) (m : Z) : (recordsIn b m <= 22)%nat.
Proof. unfold recordsIn. destruct (blen b <? m); lia. Qed.

Lemma slotAfter_keeps (msg : buffer) (j : Z) (o : option Driver) :
  is_Some o -> is_Some (slotAfter msg j o).
Proof.
  intros [d ->]. unfold slotAfter, rewriteSlot, upsertSlot.
  repeat match goal with
         | |- context [if ?c then _ else _] => destruct c
         end; cbn; eauto.
Qed.

Lemma slotAfter_creates (msg : buffer) (j : Z) :
  is_Some (slotAfter msg j None) ->
  0 <= j < 22 /\ rejected msg = false /\ field msg 6 1 = 4.
Proof.
  unfold slotAfter, rewriteSlot, upsertSlot.
  pose proof (announcedCars_le msg).
  destruct (rejected msg); [intros [? [=]]|].
  destruct (Z.eqb_spec (field msg 6 1) 4) as [E|].
  - destruct (decide _); [intros _; lia|intros [? [=]]].
  - repeat match goal with
           | |- context [if ?c then _ else _] => destruct c
           end; cbn; intros [? [=]].
Qed.

(** X9. No datagram removes an entry from the drivers table, and from the
    start every key of the table is a car slot 0..21. *)
Theorem table_keys (msgs : list buffer) (s : State) (j : Z) :
  (is_Some (drivers s !! j) -> is_Some (drivers (onMessages msgs s) !! j))
  /\ (is_Some (drivers (onMessages msgs initialState) !! j) -> 0 <= j < 22).
Proof.
  split.
  - revert s. induction msgs as [|msg msgs IH]; intros s Hs; [exact Hs|].
    cbn [onMessages fold_left]. apply IH.
    destruct (onMessage_acts msg s) as (L & _). rewrite L.
    now apply slotAfter_keeps.
  - induction msgs as [|msg msgs IH] using rev_ind.
    + cbn. rewrite lookup_empty. intros [? [=]].
    + rewrite onMessages_snoc.
      destruct (onMessage_acts msg (onMessages msgs initialState))
        as (L & _).
      rewrite L.
      destruct (drivers (onMessages msgs initialState) !! j) eqn:E.
      * intros _. apply IH. eauto.
      * intros Hs. now apply slotAfter_creates in Hs.
Qed.

Lemma State_drivers_eq (s1 s2 : State) :
  (forall j, drivers s1 !! j = drivers s2 !! j) -> drivers s1 = drivers s2.
Proof. intros L. now apply map_eq. Qed.

Lemma rewriteSlot_twice (n1 n2 : nat) (w1 w2 : nat -> Driver -> Driver)
    (j : Z) (o : option Driver) :
  (n1 <= n2)%nat -> (forall k d, w2 k (w1 k d) = w2 k d) ->
  rewriteSlot n2 w2 j (rewriteSlot n1 w1 j o) = rewriteSlot n2 w2 j o.
Proof.
  intros Hn Hw. unfold rewriteSlot.
  destruct (decide (0 <= j < Z.of_nat n2)), (decide (0 <= j < Z.of_nat n1));
    try lia; try reflexivity.
  destruct o; cbn; [|reflexivity]. now rewrite Hw.
Qed.

Lemma rewriteSlot_swap (n1 n2 : nat) (w1 w2 : nat -> Driver -> Driver)
    (j : Z) (o : option Driver) :
  (forall k1 k2 d, w2 k2 (w1 k1 d) = w1 k1 (w2 k2 d)) ->
  rewriteSlot n2 w2 j (rewriteSlot n1 w1 j o)
  = rewriteSlot n1 w1 j (rewriteSlot n2 w2 j o).
Proof.
  intros Hw. unfold rewriteSlot.
  destruct (decide (0 <= j < Z.of_nat n2)), (decide (0 <= j < Z.of_nat n1));
    try reflexivity.
  destruct o; cbn; [|reflexivity]. now rewrite Hw.
Qed.

Lemma slotAfter_twice (msg : buffer) (j : Z) (o : option Driver) :
  slotAfter msg j (slotAfter msg j o) = slotAfter msg j o.
Proof.
  unfold slotAfter. destruct (rejected msg); [reflexivity|]. cbv zeta.
  destruct (field msg 6 1 =? 4).
  { unfold upsertSlot. destruct (decide _); reflexivity. }
  destruct (field msg 6 1 =? 2); [now apply rewriteSlot_twice|].
  destruct (field msg 6 1 =? 6); [now apply rewriteSlot_twice|].
  destruct (field msg 6 1 =? 7); [now apply rewriteSlot_twice|].
  reflexivity.
Qed.

Lemma sessionAfter_twice (msg : buffer) (si : SessionInfo) :
  sessionAfter msg (sessionAfter msg si) = sessionAfter msg si.
Proof.
  unfold sessionAfter. destruct (rejected msg); [reflexivity|].
  destruct ((field msg 6 1 =? 1) && negb (blen msg <? 644)); reflexivity.
Qed.

(** X10. A datagram that arrives twice leaves the drivers table and the
    session record as after its first arrival. *)
Theorem duplicate_datagram (msg : buffer) (s : State) :
  drivers (onMessage msg (onMessage msg s)) = drivers (onMessage msg s)
  /\ sessionInfo (onMessage msg (onMessage msg s))
     = sessionInfo (onMessage msg s).
Proof.
  destruct (onMessage_acts msg s) as (L1 & S1 & _).
  destruct (onMessage_acts msg (onMessage msg s)) as (L2 & S2 & _).
  split.
  - apply map_eq. intros j. now rewrite L2, L1, slotAfter_twice.
  - now rewrite S2, S1, sessionAfter_twice.
Qed.

Lemma slotAfter_swap (m1 m2 : buffer) (j : Z) (o : option Driver) :
  field m1 6 1 <> 4 -> field m2 6 1 <> 4 -> field m1 6 1 <> field m2 6 1 ->
  slotAfter m2 j (slotAfter m1 j o) = slotAfter m1 j (slotAfter m2 j o).
Proof.
  intros N1 N2 Nd. unfold slotAfter.
  destruct (rejected m1), (rejected m2); try reflexivity. cbv zeta.
  destruct (Z.eqb_spec (field m1 6 1) 4); [contradiction|].
  destruct (Z.eqb_spec (field m2 6 1) 4); [contradiction|].
  destruct (Z.eqb_spec (field m1 6 1) 2), (Z.eqb_spec (field m2 6 1) 2),
    (Z.eqb_spec (field m1 6 1) 6), (Z.eqb_spec (field m2 6 1) 6),
    (Z.eqb_spec (field m1 6 1) 7), (Z.eqb_spec (field m2 6 1) 7);
    try lia; try reflexivity; now apply rewriteSlot_swap.
Qed.

Lemma sessionAfter_swap (m1 m2 : buffer) (si : SessionInfo) :
  field m1 6 1 <> field m2 6 1 ->
  sessionAfter m2 (sessionAfter m1 si) = sessionAfter m1 (sessionAfter m2 si).
Proof.
  intros Nd. unfold sessionAfter.
  destruct (rejected m1), (rejected m2); try reflexivity.
  destruct (Z.eqb_spec (field m1 6 1) 1), (Z.eqb_spec (field m2 6 1) 1);
    try lia; cbn [andb];
    repeat match goal with
           | |- context [if ?c then _ else _] => destruct c
           end; reflexivity.
Qed.

(** X11. The sub-records are independent: two datagrams of different packet
    kinds, neither of them a Participants packet, leave the same drivers
    table and session record in either order of arrival. *)
Theorem kinds_commute (m1 m2 : buffer) (s : State) :
  field m1 6 1 <> 4 -> field m2 6 1 <> 4 -> field m1 6 1 <> field m2 6 1 ->
  drivers (onMessage m2 (onMessage m1 s))
  = drivers (onMessage m1 (onMessage m2 s))
  /\ sessionInfo (onMessage m2 (onMessage m1 s))
     = sessionInfo (onMessage m1 (onMessage m2 s)).
Proof.
  intros N1 N2 Nd.
  destruct (onMessage_acts m1 s) as (L1 & S1 & _).
  destruct (onMessage_acts m2 s) as (L2 & S2 & _).
  destruct (onMessage_acts m2 (onMessage m1 s)) as (L21 & S21 & _).
  destruct (onMessage_acts m1 (onMessage m2 s)) as (L12 & S12 & _).
  split.
  - apply map_eq. intros j. rewrite L21, L1, L12, L2.
    now apply slotAfter_swap.
  - rewrite S21, S1, S12, S2. now apply sessionAfter_swap.
Qed.

(** X12. A sub-record is overwritten wholesale: after a full-size Car
    Telemetry, Lap Data or Car Status packet in a supported format, the
    drivers table does not depend on an earlier packet of the same kind. *)
Theorem last_packet_wins (m1 m2 : buffer) (s : State) :
  rejected m2 = false ->
  field m1 6 1 = field m2 6 1 ->
  (field m2 6 1 = 6 /\ 1352 <= blen m2)
  \/ (field m2 6 1 = 2 /\ 1131 <= blen m2)
  \/ (field m2 6 1 = 7 /\ 1239 <= blen m2) ->
  drivers (onMessage m2 (onMessage m1 s)) = drivers (onMessage m2 s).
Proof.
  intros R2 Eid Hk.
  destruct (onMessage_acts m1 s) as (L1 & _).
  destruct (onMessage_acts m2 s) as (L2 & _).
  destruct (onMessage_acts m2 (onMessage m1 s)) as (L21 & _).
  apply map_eq. intros j. rewrite L21, L1, L2.
  unfold slotAfter. rewrite R2, Eid.
  destruct (rejected m1); [reflexivity|]. cbv zeta.
  destruct Hk as [[E Hb]|[[E Hb]|[E Hb]]]; rewrite E; cbn;
    rewrite (recordsIn_full m2) by lia;
    apply rewriteSlot_twice; (apply recordsIn_le || reflexivity).
Qed.

End Composition.

(** ** The event service over time *)

Section ServiceFacts.
Import Buf Service Monitor.

(** [_handleMessage] on every field of the service. *)
Lemma handleMessage_acts (now : Z) (msg : buffer) (sv : Service) :
  let sv' := _handleMessage now msg sv in
  packetsReceived sv' = packetsReceived sv + 1
  /\ bytesReceived sv' = bytesReceived sv + blen msg
  /\ lastPacketTime sv' = Some now
  /\ packetRateCounter sv' = packetRateCounter sv + 1
  /\ config sv' = config sv /\ forwardSocket sv' = forwardSocket sv
  /\ (blen msg < 29 ->
      emitted sv' = emitted sv ++ [EvInvalidPacket msg]
      /\ packetCounts sv' = packetCounts sv
      /\ forwarded sv' = forwarded sv)
  /\ (29 <= blen msg ->
      emitted sv' = emitted sv ++ published now msg
      /\ packetCounts sv'
         = <[kindName (Telemetry.packetId (Encode.headerAt msg))
             := default 0 (packetCounts sv
                             !! kindName (Telemetry.packetId
                                            (Encode.headerAt msg))) + 1]>
             (packetCounts sv)
      /\ forwarded sv'
         = forwarded sv
             ++ (if forwardingEnabled (config sv) && forwardSocket sv
                 then [(msg, forwardingPort (config sv),
                        forwardingAddress (config sv))]
                 else [])).
Proof.
  cbv zeta. unfold _handleMessage. rewrite parsePacketHeader_spec.
  cbn [countPacket].
  destruct (Z.ltb_spec (blen msg) 29) as [Hs|Hl].
  - cbn. repeat split; try lia.
  - unfold published, kindName.
    destruct (Z.eqb_spec (Telemetry.packetFormat (Encode.headerAt msg)) 2025);
      cbn [negb]; unfold forward;
      cbn [emit countPacket countKind emitted packetsReceived packetCounts
           forwarded config forwardSocket bytesReceived lastPacketTime
           packetRateCounter];
      destruct (forwardingEnabled (config sv) && forwardSocket sv);
      cbn [emit countPacket countKind emitted packetsReceived packetCounts
           forwarded config forwardSocket bytesReceived lastPacketTime
           packetRateCounter];
      rewrite <- ?app_assoc, ?app_nil_r;
      repeat split; try lia.
Qed.

(** X13. What [_handleMessage] does to every datagram.  It is always
    counted in [packetsReceived], [bytesReceived], [lastPacketTime] and the
    rate counter.  Below 29 octets only ['invalidPacket'] is emitted: no
    kind is counted and nothing is forwarded.  From 29 octets on, the kind
    of the packet id is counted once, the datagram is forwarded once when
    forwarding is on, and it is published as ['packet'] and then as
    ['packet:<kind>'], after a ['warning'] when the format is not 2025. *)
Theorem handleMessage_effect (now : Z) (msg : buffer) (sv : Service) :
  let sv' := _handleMessage now msg sv in
  packetsReceived sv' = packetsReceived sv + 1
  /\ bytesReceived sv' = bytesReceived sv + blen msg
  /\ lastPacketTime sv' = Some now
  /\ packetRateCounter sv' = packetRateCounter sv + 1
  /\ config sv' = config sv /\ forwardSocket sv' = forwardSocket sv
  /\ (blen msg < 29 ->
      emitted sv' = emitted sv ++ [EvInvalidPacket msg]
      /\ packetCounts sv' = packetCounts sv
      /\ forwarded sv' = forwarded sv)
  /\ (29 <= blen msg ->
      emitted sv' = emitted sv ++ published now msg
      /\ packetCounts sv'
         = <[kindName (Telemetry.packetId (Encode.headerAt msg))
             := default 0 (packetCounts sv
                             !! kindName (Telemetry.packetId
                                            (Encode.headerAt msg))) + 1]>
             (packetCounts sv)
      /\ forwarded sv'
         = forwarded sv
             ++ (if forwardingEnabled (config sv) && forwardSocket sv
                 then [(msg, forwardingPort (config sv),
                        forwardingAddress (config sv))]
                 else [])).
Proof. exact (handleMessage_acts now msg sv). Qed.



Lemma totalCount_bump (counts : gmap string Z) (k : string) :
  totalCount (<[k := default 0 (counts !! k) + 1]> counts)
  = totalCount counts + 1.
Proof.
  unfold totalCount.
  assert (forall (m : gmap string Z) (j1 j2 : string) (z1 z2 y : Z),
             j1 <> j2 -> m !! j1 = Some z1 -> m !! j2 = Some z2 ->
             z1 + (z2 + y) = z2 + (z1 + y)) as Hc by (intros; lia).
  destruct (counts !! k) as [v|] eqn:E; cbn [default].
  - rewrite (map_fold_delete_L _ 0 k v counts (Hc counts) E).
    rewrite <- (insert_delete_eq counts k (v + 1)).
    rewrite map_fold_insert_L; [lia|apply Hc|apply lookup_delete_eq].
  - rewrite map_fold_insert_L; [lia|apply Hc|exact E].
Qed.

Lemma handleAll_snoc (arrivals : list (Z * buffer)) (a : Z * buffer)
    (sv : Service) :
  handleAll (arrivals ++ [a]) sv
  = _handleMessage (fst a) (snd a) (handleAll arrivals sv).
Proof. unfold handleAll. now rewrite fold_left_app. Qed.

(** The counters over a run of datagrams. *)
Lemma handleAll_counts (arrivals : list (Z * buffer)) (sv : Service) :
  packetsReceived (handleAll arrivals sv)
  = packetsReceived sv + Z.of_nat (length arrivals)
  /\ bytesReceived (handleAll arrivals sv)
     = bytesReceived sv + totalBytes arrivals
  /\ packetRateCounter (handleAll arrivals sv)
     = packetRateCounter sv + Z.of_nat (length arrivals)
  /\ totalCount (packetCounts (handleAll arrivals sv))
     = totalCount (packetCounts sv)
       + Z.of_nat (length (List.filter (fun a => negb (isShort a)) arrivals))
  /\ length (List.filter isInvalidEvent (emitted (handleAll arrivals sv)))
     = (length (List.filter isInvalidEvent (emitted sv))
        + length (List.filter isShort arrivals))%nat.
Proof.
  induction arrivals as [|a arrivals IH] using rev_ind.
  - cbn. repeat split; lia.
  - rewrite handleAll_snoc.
    destruct IH as (I1 & I2 & I3 & I4 & I5).
    destruct (handleMessage_acts (fst a) (snd a) (handleAll arrivals sv))
      as (P1 & P2 & _ & P4 & _ & _ & Hshort & Hlong).
    rewrite P1, P2, P4, I1, I2, I3, !List.filter_app, !length_app.
    cbn [List.filter]. unfold isShort at 2 4.
    assert (totalBytes (arrivals ++ [a]) = totalBytes arrivals + blen (snd a))
      as -> by (unfold totalBytes; rewrite foldr_app; cbn;
                generalize (blen (snd a)); clear;
                induction arrivals; intros; cbn;
                [lia|rewrite IHarrivals; lia]).
    destruct (Z.ltb_spec (blen (snd a)) 29) as [Hs|Hl]; cbn [negb length].
    + destruct (Hshort Hs) as (E1 & E2 & _).
      rewrite E1, E2, List.filter_app, length_app, I4, I5. cbn.
      repeat split; lia.
    + destruct (Hlong Hl) as (E1 & E2 & _).
      rewrite E1, E2, totalCount_bump, List.filter_app, length_app, I4, I5.
      unfold published.
      destruct (Telemetry.packetFormat (Encode.headerAt (snd a)) =? 2025);
        cbn; repeat split; lia.
Qed.

(** X14. Over any run of datagrams [packetsReceived] grows by their number
    and [bytesReceived] by their octets; the per-kind counts grow, in total,
    by the number of datagrams of at least 29 octets, and one
    ['invalidPacket'] is emitted for each shorter one.  So on a service
    that starts from zero the per-kind counts and the invalid packets add
    up to [packetsReceived]. *)
Theorem handleAll_totals (arrivals : list (Z * buffer)) (sv : Service) :
  let sv' := handleAll arrivals sv in
  packetsReceived sv' = packetsReceived sv + Z.of_nat (length arrivals)
  /\ bytesReceived sv' = bytesReceived sv + totalBytes arrivals
  /\ packetRateCounter sv'
     = packetRateCounter sv + Z.of_nat (length arrivals)
  /\ totalCount (packetCounts sv')
     = totalCount (packetCounts sv)
       + Z.of_nat (length (List.filter (fun a => negb (isShort a)) arrivals))
  /\ length (List.filter isInvalidEvent (emitted sv'))
     = (length (List.filter isInvalidEvent (emitted sv))
        + length (List.filter isShort arrivals))%nat
  /\ (packetsReceived sv = 0 -> packetCounts sv = ∅ -> emitted sv = [] ->
      packetsReceived sv'
      = totalCount (packetCounts sv')
        + Z.of_nat (length (List.filter isInvalidEvent (emitted sv')))).
Proof.
  cbv zeta.
  destruct (handleAll_counts arrivals sv) as (G1 & G2 & G3 & G4 & G5).
  repeat (split; [assumption|]).
  intros Z1 Z2 Z3. rewrite G1, G4, G5, Z1, Z2, Z3. cbn.
  unfold totalCount. rewrite map_fold_empty.
  pose proof (List.filter_length isShort arrivals) as Hp.
  assert (length (List.filter (fun a => negb (isShort a)) arrivals)
          = length (List.filter (fun x => negb (isShort x)) arrivals))
    by reflexivity.
  lia.
Qed.

End ServiceFacts.

Section MonitorFacts.
Import Buf Service Monitor.
Context `{Telemetry.JsRuntime}.

Lemma onDatagrams_service (arrivals : list (Z * buffer)) (m : Monitored) :
  service (onDatagrams arrivals m) = handleAll arrivals (service m)
  /\ packetsPerSecond (onDatagrams arrivals m) = packetsPerSecond m
  /\ statsEvents (onDatagrams arrivals m) = statsEvents m.
Proof.
  revert m. induction arrivals as [|a arrivals IH]; intros m; [easy|].
  cbn [onDatagrams handleAll fold_left].
  destruct (IH (onDatagram (fst a) (snd a) m)) as (I1 & I2 & I3).
  unfold onDatagrams, handleAll in *. now rewrite I1, I2, I3.
Qed.

Lemma rateTick_fields (now : Z) (m : Monitored) :
  packetsPerSecond (rateTick now m) = packetRateCounter (service m)
  /\ packetRateCounter (service (rateTick now m)) = 0
  /\ packetsReceived (service (rateTick now m)) = packetsReceived (service m)
  /\ bytesReceived (service (rateTick now m)) = bytesReceived (service m)
  /\ exists st,
       statsEvents (rateTick now m) = statsEvents m ++ [st]
       /\ st_packetsPerSecond st = packetRateCounter (service m)
       /\ st_packetsReceived st = packetsReceived (service m)
       /\ st_bytesReceived st = bytesReceived (service m).
Proof.
  unfold rateTick. cbn. repeat split. eexists. split; [reflexivity|].
  cbn. repeat split.
Qed.

(** X15. The rate monitor is a tumbling window: at each tick
    [packetsPerSecond] becomes the number of datagrams, valid or not, that
    arrived since the tick before, the window counter restarts from zero,
    and the ['stats'] event emitted by the tick reports that number together
    with the running totals. *)
Theorem rate_window (t1 t2 : Z) (arrivals : list (Z * buffer))
    (m : Monitored) :
  let m' := rateTick t2 (onDatagrams arrivals (rateTick t1 m)) in
  packetsPerSecond m' = Z.of_nat (length arrivals)
  /\ packetRateCounter (service m') = 0
  /\ exists st,
       statsEvents m' = statsEvents (rateTick t1 m) ++ [st]
       /\ st_packetsPerSecond st = Z.of_nat (length arrivals)
       /\ st_packetsReceived st
          = packetsReceived (service m) + Z.of_nat (length arrivals)
       /\ st_bytesReceived st = bytesReceived (service m) + totalBytes arrivals.
Proof.
  cbv zeta.
  destruct (rateTick_fields t1 m) as (A1 & A2 & A3 & A4 & _).
  set (m1 := rateTick t1 m) in *.
  destruct (onDatagrams_service arrivals m1) as (S1 & S2 & S3).
  destruct (handleAll_counts arrivals (service m1)) as (P1 & P2 & P3 & _).
  set (m2 := onDatagrams arrivals m1) in *.
  destruct (rateTick_fields t2 m2) as (B1 & B2 & _ & _ & st & B5 & B6 & B7 & B8).
  rewrite B1, B2, B5, S3. rewrite S1, P3, A2.
  split; [lia|]. split; [reflexivity|].
  exists st. split; [reflexivity|].
  rewrite B6, B7, B8, S1, P1, P2, P3, A2, A3, A4. repeat split; lia.
Qed.

End MonitorFacts.

(** ** The capture recorder's data path *)

Section CaptureFacts.
Import Buf Recorder Capture.

Lemma passedTo_app (p : string) (l1 l2 : list FsOp) :
  passedTo p (l1 ++ l2) = passedTo p l1 ++ passedTo p l2.
Proof. unfold passedTo. apply flat_map_app. Qed.

Lemma passedTo_write (p : string) (bytes : buffer) :
  passedTo p [StreamWrite p bytes] = bytes.
Proof.
  unfold passedTo. cbn. destruct (decide (p = p)); [|congruence].
  apply app_nil_r.
Qed.

Lemma concatFrames_app (q1 q2 : list Frame) :
  concatFrames (q1 ++ q2) = concatFrames q1 ++ concatFrames q2.
Proof. unfold concatFrames. apply flat_map_app. Qed.

Lemma concatFrames_take_drop (n : nat) (q : list Frame) :
  concatFrames (take n q) ++ concatFrames (drop n q) = concatFrames q.
Proof. now rewrite <- concatFrames_app, take_drop. Qed.

Lemma length_le_bytes (k : nat) (v : Z) : length (le_bytes k v) = k.
Proof. revert v. induction k; intros; cbn [le_bytes length]; congruence. Qed.

Lemma length_frameOf (now : Z) (msg : buffer) :
  Z.of_nat (length (concatFrames [frameOf now msg])) = 12 + blen msg.
Proof.
  unfold concatFrames, frameOf, blen. cbn [flat_map metadata data].
  rewrite app_nil_r, !length_app, !length_le_bytes. lia.
Qed.

(** [processWriteQueue] moves frames from the queue to the stream and
    touches nothing else. *)
Lemma processWriteQueue_keeps (c : Capture) :
  let c' := processWriteQueue c in
  currentState (recorder c') = currentState (recorder c)
  /\ writeStream (recorder c') = writeStream (recorder c)
  /\ currentTempFile (recorder c') = currentTempFile (recorder c)
  /\ stats (recorder c') = stats (recorder c)
  /\ forall p, writeStream (recorder c) = Some p ->
               heldFor p (recorder c') = heldFor p (recorder c).
Proof.
  cbv zeta. unfold processWriteQueue.
  destruct (writeStream (recorder c)) as [p|] eqn:Ew; [|easy].
  destruct (isWriting c); [easy|].
  destruct (writeQueue (recorder c)) as [|f q] eqn:Eq; [easy|].
  cbn [recorder currentState writeStream currentTempFile stats fsDo
       withQueue].
  rewrite Ew. repeat split.
  intros p' [= <-]. unfold heldFor.
  cbn [recorder fsLog writeQueue fsDo withQueue]. rewrite Eq.
  rewrite passedTo_app, passedTo_write, <- app_assoc.
  f_equal. apply (concatFrames_take_drop 100 (f :: q)).
Qed.

Lemma writeDone_keeps (err : bool) (c : Capture) :
  let c' := writeDone err c in
  currentState (recorder c') = currentState (recorder c)
  /\ writeStream (recorder c') = writeStream (recorder c)
  /\ currentTempFile (recorder c') = currentTempFile (recorder c)
  /\ packetCount (stats (recorder c')) = packetCount (stats (recorder c))
  /\ dataSize (stats (recorder c')) = dataSize (stats (recorder c))
  /\ packetStats (stats (recorder c')) = packetStats (stats (recorder c))
  /\ forall p, writeStream (recorder c) = Some p ->
               heldFor p (recorder c') = heldFor p (recorder c).
Proof.
  cbv zeta. unfold writeDone.
  destruct (pending c) as [|n others]; [easy|].
  match goal with
  | |- context [processWriteQueue ?x] =>
      destruct (processWriteQueue_keeps x) as (P1 & P2 & P3 & P4 & P5);
      rewrite P1, P2, P3, P4
  end.
  destruct err; cbn; repeat split; intros p Hp;
    (rewrite P5; [reflexivity|exact Hp]).
Qed.

(** The handler on a datagram it can frame, while recording. *)
Lemma onMessage_frames (now : Z) (msg : buffer) (c : Capture) :
  currentState (recorder c) = RECORDING ->
  7 <= blen msg < 2 ^ 32 -> 0 <= now < 2 ^ 64 ->
  let c' := snd (onMessage now msg c) in
  fst (onMessage now msg c) = Returned
  /\ currentState (recorder c') = RECORDING
  /\ writeStream (recorder c') = writeStream (recorder c)
  /\ currentTempFile (recorder c') = currentTempFile (recorder c)
  /\ packetCount (stats (recorder c')) = packetCount (stats (recorder c)) + 1
  /\ dataSize (stats (recorder c'))
     = dataSize (stats (recorder c)) + 12 + blen msg
  /\ Monitor.totalCount (packetStats (stats (recorder c')))
     = Monitor.totalCount (packetStats (stats (recorder c))) + 1
  /\ forall p, writeStream (recorder c) = Some p ->
               heldFor p (recorder c')
               = heldFor p (recorder c) ++ concatFrames [frameOf now msg].
Proof.
  intros Hst Hb Hn. cbv zeta. unfold onMessage. rewrite Hst.
  unfold readUInt16LE, readUInt8.
  rewrite !readLE_at by (unfold blen in Hb; lia).
  destruct (Z.leb_spec (2 ^ 32) (blen msg)); [lia|].
  destruct (Z.ltb_spec now 0); [lia|].
  destruct (Z.leb_spec (2 ^ 64) now); [lia|].
  cbn [orb fst snd].
  match goal with
  | |- context [processWriteQueue ?x] =>
      destruct (processWriteQueue_keeps x) as (P1 & P2 & P3 & P4 & P5);
      rewrite P1, P2, P3, P4
  end.
  destruct (sessionStartTime (stats (recorder c)) =? 0);
    cbn; (repeat split; try assumption; try lia;
          [apply totalCount_bump
          |intros p Hp; rewrite P5 by (cbn; exact Hp); unfold heldFor; cbn;
           rewrite concatFrames_app, app_assoc; reflexivity]).
Qed.

(** The file operations are only ever added to. *)
Lemma processWriteQueue_log (c : Capture) :
  exists ops,
    fsLog (recorder (processWriteQueue c)) = fsLog (recorder c) ++ ops.
Proof.
  unfold processWriteQueue.
  destruct (writeStream (recorder c)); [|exists []; now rewrite app_nil_r].
  destruct (isWriting c); [exists []; now rewrite app_nil_r|].
  destruct (writeQueue (recorder c)); [exists []; now rewrite app_nil_r|].
  eexists. reflexivity.
Qed.

Lemma writeDone_log (err : bool) (c : Capture) :
  exists ops, fsLog (recorder (writeDone err c)) = fsLog (recorder c) ++ ops.
Proof.
  unfold writeDone.
  destruct (pending c); [exists []; now rewrite app_nil_r|].
  match goal with
  | |- context [processWriteQueue ?x] =>
      destruct (processWriteQueue_log x) as [ops E]; rewrite E
  end.
  exists ops. now destruct err.
Qed.

Lemma onMessage_log (now : Z) (msg : buffer) (c : Capture) :
  exists ops,
    fsLog (recorder (snd (onMessage now msg c))) = fsLog (recorder c) ++ ops.
Proof.
  unfold onMessage.
  destruct (currentState (recorder c));
    try (exists []; now rewrite app_nil_r).
  destruct (readUInt16LE msg 0), (readUInt8 msg 6);
    try (exists []; rewrite app_nil_r;
         now destruct (sessionStartTime (stats (recorder c)) =? 0)).
  destruct ((2 ^ 32 <=? blen msg) || (now <? 0) || (2 ^ 64 <=? now));
    [exists []; rewrite app_nil_r;
     now destruct (sessionStartTime (stats (recorder c)) =? 0)|].
  cbn [snd].
  match goal with
  | |- context [processWriteQueue ?x] =>
      destruct (processWriteQueue_log x) as [ops E]; rewrite E
  end.
  exists ops. now destruct (sessionStartTime (stats (recorder c)) =? 0).
Qed.

Lemma press_log (k : Key) (r : Recorder) :
  exists ops, fsLog (snd (press k r)) = fsLog r ++ ops.
Proof.
  destruct k as [stamp| |stamp renameOk|tempExists|]; cbn [press].
  - unfold startNewRecording.
    destruct (decide (currentState r = RECORDING));
      [exists []; now rewrite app_nil_r|].
    unfold endStreamIfOpen. destruct (writeStream r); cbn;
      rewrite <- ?app_assoc; eexists; reflexivity.
  - unfold finishRecording.
    destruct (currentState r); cbn; try (exists []; now rewrite app_nil_r);
      (destruct (writeStream r); cbn; [|exists []; now rewrite app_nil_r]);
      (destruct (writeQueue r); cbn; rewrite <- ?app_assoc;
       eexists; reflexivity).
  - unfold saveRecording.
    destruct (currentState r); cbn; try (exists []; now rewrite app_nil_r).
    destruct (currentTempFile r); cbn; [|exists []; now rewrite app_nil_r].
    destruct renameOk; cbn; [eexists; reflexivity|].
    exists []; now rewrite app_nil_r.
  - unfold discardRecording.
    destruct (currentTempFile r); cbn; [|exists []; now rewrite app_nil_r].
    unfold endStreamIfOpen.
    destruct (writeStream r), tempExists; cbn; rewrite <- ?app_assoc;
      try (eexists; reflexivity); exists []; now rewrite app_nil_r.
  - unfold togglePause.
    destruct (currentState r); cbn; exists []; now rewrite app_nil_r.
Qed.

Lemma step_log (e : Event) (c : Capture) :
  exists ops, fsLog (recorder (step e c)) = fsLog (recorder c) ++ ops.
Proof.
  destruct e as [now msg|err|k]; cbn [step].
  - apply onMessage_log.
  - apply writeDone_log.
  - apply press_log.
Qed.

Lemma steps_log (es : list Event) (c : Capture) :
  exists ops, fsLog (recorder (steps es c)) = fsLog (recorder c) ++ ops.
Proof.
  revert c. induction es as [|e es IH]; intros c.
  - exists []. cbn. now rewrite app_nil_r.
  - cbn [steps fold_left]. destruct (IH (step e c)) as [ops2 E2].
    destruct (step_log e c) as [ops1 E1].
    exists (ops1 ++ ops2). unfold steps in E2. rewrite E2, E1.
    now rewrite app_assoc.
Qed.

End CaptureFacts.

Section CaptureSession.
Import Buf Recorder Capture.

Lemma framesOf_cons (b : bool) (e : Event) (es : list Event) :
  framesOf b (e :: es)
  = framesOf b [e]
      ++ framesOf (match e with KeyPress _ => negb b | _ => b end) es.
Proof. destruct e, b; reflexivity. Qed.

(** One event of a session: the stream and the temporary file stay, the
    recorder stays recording or paused, and what the event adds to the
    stream, the queue and the counters is the frame of its datagram, if it
    is a datagram and the recorder records. *)
Lemma step_session (p : string) (e : Event) (c : Capture) :
  inSession e ->
  writeStream (recorder c) = Some p ->
  currentState (recorder c) = RECORDING
  \/ currentState (recorder c) = PAUSED ->
  let c' := step e c in
  let fs := framesOf (isRecording (recorder c)) [e] in
  writeStream (recorder c') = Some p
  /\ (currentState (recorder c') = RECORDING
      \/ currentState (recorder c') = PAUSED)
  /\ currentTempFile (recorder c') = currentTempFile (recorder c)
  /\ isRecording (recorder c')
     = match e with
       | KeyPress _ => negb (isRecording (recorder c))
       | _ => isRecording (recorder c)
       end
  /\ heldFor p (recorder c') = heldFor p (recorder c) ++ concatFrames fs
  /\ packetCount (stats (recorder c'))
     = packetCount (stats (recorder c)) + Z.of_nat (length fs)
  /\ dataSize (stats (recorder c'))
     = dataSize (stats (recorder c)) + Z.of_nat (length (concatFrames fs))
  /\ Monitor.totalCount (packetStats (stats (recorder c')))
     = Monitor.totalCount (packetStats (stats (recorder c)))
       + Z.of_nat (length fs).
Proof.
  intros He Hw Hst. cbv zeta. destruct e as [now msg|err|k].
  - destruct He as [Hb Hn]. cbn [step framesOf]. unfold isRecording.
    destruct Hst as [Hst|Hst].
    + destruct (onMessage_frames now msg c Hst Hb ltac:(lia))
        as (_ & P1 & P2 & P3 & P4 & P5 & P6 & P7).
      rewrite P1, P2, P3, P4, P5, P6, (P7 p Hw), Hst, length_frameOf.
      cbn [length]. repeat split; try tauto; lia.
    + unfold onMessage. rewrite Hst. cbn [snd]. rewrite Hst.
      cbn. rewrite app_nil_r. repeat split; try tauto; lia.
  - cbn [step framesOf].
    destruct (writeDone_keeps err c) as (P1 & P2 & P3 & P4 & P5 & P6 & P7).
    unfold isRecording.
    rewrite P1, P2, P3, P4, P5, P6, (P7 p Hw). cbn. rewrite app_nil_r.
    repeat split; try tauto; lia.
  - cbn in He. subst k. cbn [step framesOf onKey snd press].
    unfold isRecording, togglePause, heldFor.
    cbn [recorder withRecorder].
    destruct Hst as [Hst|Hst]; rewrite Hst; cbn; rewrite ?app_nil_r;
      repeat split; try tauto; lia.
Qed.

Lemma steps_cons (e : Event) (es : list Event) (c : Capture) :
  steps (e :: es) c = steps es (step e c).
Proof. reflexivity. Qed.

Lemma steps_session (p : string) (es : list Event) (c : Capture) :
  Forall inSession es ->
  writeStream (recorder c) = Some p ->
  currentState (recorder c) = RECORDING
  \/ currentState (recorder c) = PAUSED ->
  let c' := steps es c in
  let fs := framesOf (isRecording (recorder c)) es in
  writeStream (recorder c') = Some p
  /\ (currentState (recorder c') = RECORDING
      \/ currentState (recorder c') = PAUSED)
  /\ currentTempFile (recorder c') = currentTempFile (recorder c)
  /\ heldFor p (recorder c') = heldFor p (recorder c) ++ concatFrames fs
  /\ packetCount (stats (recorder c'))
     = packetCount (stats (recorder c)) + Z.of_nat (length fs)
  /\ dataSize (stats (recorder c'))
     = dataSize (stats (recorder c)) + Z.of_nat (length (concatFrames fs))
  /\ Monitor.totalCount (packetStats (stats (recorder c')))
     = Monitor.totalCount (packetStats (stats (recorder c)))
       + Z.of_nat (length fs).
Proof.
  cbv zeta. intros Hes. revert c.
  induction Hes as [|e es He Hes IH]; intros c Hw Hst.
  - cbn. rewrite app_nil_r. repeat split; try tauto; lia.
  - rewrite steps_cons, framesOf_cons.
    destruct (step_session p e c He Hw Hst)
      as (S1 & S2 & S3 & S4 & S5 & S6 & S7 & S8).
    destruct (IH (step e c) S1 S2) as (I1 & I2 & I3 & I4 & I5 & I6 & I7).
    rewrite S4 in I4, I5, I6, I7.
    rewrite I1, I3, I4, I5, I6, I7, S3, S5, S6, S7, S8.
    rewrite concatFrames_app, !length_app, app_assoc.
    repeat split; try tauto; lia.
Qed.

Lemma startNewRecording_fresh (stamp : string) (r : Recorder) :
  currentState r <> RECORDING ->
  let r' := snd (startNewRecording stamp r) in
  currentState r' = RECORDING
  /\ writeStream r' = Some (tempPath stamp)
  /\ currentTempFile r' = Some (tempPath stamp)
  /\ stats r' = zeroStats
  /\ writeQueue r' = []
  /\ exists ops, fsLog r' = fsLog r ++ ops /\ passedTo (tempPath stamp) ops = [].
Proof.
  intros Hst. cbv zeta. unfold startNewRecording.
  destruct (decide (currentState r = RECORDING)); [contradiction|].
  cbn. repeat split. unfold endStreamIfOpen.
  destruct (writeStream r); cbn.
  - eexists. rewrite <- app_assoc. split; [reflexivity|reflexivity].
  - eexists. split; [reflexivity|reflexivity].
Qed.

(** No write error is noted in a run of events none of which is the
    callback of a failed write. *)
Lemma processWriteQueue_notes (c : Capture) :
  notes (processWriteQueue c) = notes c.
Proof.
  unfold processWriteQueue.
  destruct (writeStream (recorder c)); [|reflexivity].
  destruct (isWriting c); [reflexivity|].
  now destruct (writeQueue (recorder c)).
Qed.

Lemma step_write_errors (e : Event) (c : Capture) :
  acknowledged e ->
  List.filter isWriteError (notes (step e c))
  = List.filter isWriteError (notes c).
Proof.
  intros He. destruct e as [now msg|err|k]; cbn [step].
  - unfold onMessage.
    destruct (currentState (recorder c)); try reflexivity.
    destruct (readUInt16LE msg 0), (readUInt8 msg 6);
      try (destruct (sessionStartTime (stats (recorder c)) =? 0);
           cbn; now rewrite ?List.filter_app, ?app_nil_r).
    destruct ((2 ^ 32 <=? blen msg) || (now <? 0) || (2 ^ 64 <=? now));
      cbn [snd]; rewrite ?processWriteQueue_notes;
      destruct (sessionStartTime (stats (recorder c)) =? 0);
      cbn; now rewrite ?List.filter_app, ?app_nil_r.
  - cbn in He. subst err. unfold writeDone.
    destruct (pending c); [reflexivity|].
    now rewrite processWriteQueue_notes.
  - reflexivity.
Qed.

Lemma steps_write_errors (es : list Event) (c : Capture) :
  Forall acknowledged es ->
  List.filter isWriteError (notes (steps es c))
  = List.filter isWriteError (notes c).
Proof.
  intros Hes. revert c. induction Hes as [|e es He Hes IH]; intros c;
    [reflexivity|].
  rewrite steps_cons, IH. now apply step_write_errors.
Qed.

(** In a session the file operations added are writes on the stream. *)
Lemma processWriteQueue_writes (p : string) (c : Capture) :
  writeStream (recorder c) = Some p ->
  exists writes,
    fsLog (recorder (processWriteQueue c)) = fsLog (recorder c) ++ writes
    /\ writesOn p writes.
Proof.
  intros Hw. unfold processWriteQueue. rewrite Hw.
  destruct (isWriting c);
    [exists []; split; [now rewrite app_nil_r|constructor]|].
  destruct (writeQueue (recorder c));
    [exists []; split; [now rewrite app_nil_r|constructor]|].
  eexists. split; [reflexivity|].
  constructor; [eexists; reflexivity|constructor].
Qed.

Lemma step_writes (p : string) (e : Event) (c : Capture) :
  inSession e ->
  writeStream (recorder c) = Some p ->
  exists writes,
    fsLog (recorder (step e c)) = fsLog (recorder c) ++ writes
    /\ writesOn p writes.
Proof.
  intros He Hw. destruct e as [now msg|err|k]; cbn [step].
  - unfold onMessage.
    destruct (currentState (recorder c));
      try (exists []; split; [now rewrite app_nil_r|constructor]).
    destruct (readUInt16LE msg 0), (readUInt8 msg 6);
      try (exists []; split; [|constructor]; rewrite app_nil_r;
           now destruct (sessionStartTime (stats (recorder c)) =? 0)).
    destruct ((2 ^ 32 <=? blen msg) || (now <? 0) || (2 ^ 64 <=? now));
      [exists []; split; [|constructor]; rewrite app_nil_r;
       now destruct (sessionStartTime (stats (recorder c)) =? 0)|].
    cbn [snd].
    match goal with
    | |- context [processWriteQueue ?x] =>
        destruct (processWriteQueue_writes p x) as (writes & E & Hws);
        [now destruct (sessionStartTime (stats (recorder c)) =? 0)|];
        rewrite E
    end.
    exists writes. split; [|exact Hws].
    now destruct (sessionStartTime (stats (recorder c)) =? 0).
  - unfold writeDone.
    destruct (pending c);
      [exists []; split; [now rewrite app_nil_r|constructor]|].
    match goal with
    | |- context [processWriteQueue ?x] =>
        destruct (processWriteQueue_writes p x) as (writes & E & Hws);
        [now destruct err|]; rewrite E
    end.
    exists writes. split; [|exact Hws]. now destruct err.
  - cbn in He. subst k. cbn [onKey press snd recorder withRecorder].
    exists []. split; [|constructor]. rewrite app_nil_r.
    unfold togglePause. now destruct (currentState (recorder c)).
Qed.

Lemma steps_writes (p : string) (es : list Event) (c : Capture) :
  Forall inSession es ->
  writeStream (recorder c) = Some p ->
  currentState (recorder c) = RECORDING
  \/ currentState (recorder c) = PAUSED ->
  exists writes,
    fsLog (recorder (steps es c)) = fsLog (recorder c) ++ writes
    /\ writesOn p writes.
Proof.
  intros Hes. revert c. induction Hes as [|e es He Hes IH]; intros c Hw Hst.
  - exists []. split; [cbn; now rewrite app_nil_r|constructor].
  - rewrite steps_cons.
    destruct (step_session p e c He Hw Hst) as (S1 & S2 & _).
    destruct (step_writes p e c He Hw) as (w1 & E1 & H1).
    destruct (IH (step e c) S1 S2) as (w2 & E2 & H2).
    exists (w1 ++ w2). split; [now rewrite E2, E1, app_assoc|].
    now apply Forall_app.
Qed.

(** X16. A recording in which no write is reported failed holds the
    datagrams of its session, each once and in the order of arrival.  From
    any state but recording, after the key R, a session of datagrams, pause
    keys and callbacks of writes, none with an error, and the key F: the
    file operations since the start open the temporary file, pass octets to
    its stream and end it, which is the last of them; the octets passed are
    the frames of the datagrams that arrived while the recorder was not
    paused, for each its length in 4 octets, its arrival time in 8 and its
    octets; no write error was noted, and the recorder is finished. *)
Theorem recording_holds_the_datagrams (stamp : string) (es : list Event)
    (c : Capture) :
  currentState (recorder c) <> RECORDING ->
  Forall inSession es ->
  Forall acknowledged es ->
  let c' := steps (KeyPress (KeyR stamp) :: es ++ [KeyPress KeyF]) c in
  currentState (recorder c') = FINISHED
  /\ currentTempFile (recorder c') = Some (tempPath stamp)
  /\ List.filter isWriteError (notes c') = List.filter isWriteError (notes c)
  /\ exists writes,
       fsLog (recorder c')
       = fsLog (recorder c)
           ++ match writeStream (recorder c) with
              | Some open => [StreamEnd open]
              | None => []
              end
           ++ [CreateWriteStream (tempPath stamp)]
           ++ writes ++ [StreamEnd (tempPath stamp)]
       /\ writesOn (tempPath stamp) writes
       /\ passedTo (tempPath stamp) writes
          = concatFrames (framesOf true es).
Proof.
  intros Hst Hes Hack. cbv zeta.
  rewrite steps_cons. unfold steps. rewrite fold_left_app. fold (steps es).
  cbn [fold_left step onKey press snd].
  destruct (startNewRecording_starts stamp (recorder c) Hst)
    as (_ & A1 & A3 & A2 & A4 & A5 & A6 & _).
  set (c0 := withRecorder (fun r => snd (startNewRecording stamp r)) c) in *.
  change (snd (startNewRecording stamp (recorder c))) with (recorder c0)
    in A1, A2, A3, A4, A5, A6.
  assert (notes c0 = notes c) as N0 by reflexivity.
  destruct (steps_session (tempPath stamp) es c0 Hes A2 (or_introl A1))
    as (S1 & S2 & S3 & S4 & _).
  destruct (steps_writes (tempPath stamp) es c0 Hes A2 (or_introl A1))
    as (writes & Hl & Hws).
  pose proof (steps_write_errors es c0 Hack) as Hn.
  unfold isRecording in S4. rewrite A1 in S4.
  change (fold_left (fun c e => step e c) es c0) with (steps es c0).
  set (c1 := steps es c0) in *.
  unfold heldFor in S4.
  rewrite Hl, A5, !passedTo_app in S4.
  cbn [concatFrames flat_map] in S4.
  rewrite !app_nil_r, <- app_assoc in S4. apply app_inv_head in S4.
  cbn [recorder withRecorder notes]. rewrite Hn, N0.
  unfold finishRecording.
  destruct S2 as [S2|S2]; rewrite S2; cbn [setState writeStream writeQueue];
    rewrite S1;
    (destruct (writeQueue (recorder c1)) as [|f q] eqn:Eq;
     cbn [snd say fsDo currentState currentTempFile fsLog setState];
     rewrite S3, A3, Hl, A6;
     (split; [reflexivity|]); (split; [reflexivity|]);
     (split; [reflexivity|])).
  1,3: exists writes; rewrite <- !app_assoc;
       (split; [reflexivity|]); (split; [exact Hws|]);
       cbn [concatFrames flat_map] in S4; now rewrite app_nil_r in S4.
  all: exists (writes
               ++ [StreamWrite (tempPath stamp) (concatFrames (f :: q))]);
       rewrite <- !app_assoc; (split; [reflexivity|]);
       (split; [unfold writesOn; apply Forall_app; split; [exact Hws|];
                constructor; [eexists; reflexivity|constructor]|]);
       rewrite passedTo_app, passedTo_write; exact S4.
Qed.

End CaptureSession.

Section CaptureCounters.
Import Buf Recorder Capture.

(** X17. The counters of a recording describe its frames: after the key R
    and a session, [packetCount] is the number of datagrams framed,
    [dataSize] the number of octets of their frames, twelve more than the
    datagram for each, and the per-kind counts add up to [packetCount]. *)
Theorem counters_describe_the_frames (stamp : string) (es : list Event)
    (c : Capture) :
  currentState (recorder c) <> RECORDING ->
  Forall inSession es ->
  let c' := steps (KeyPress (KeyR stamp) :: es) c in
  let fs := framesOf true es in
  packetCount (stats (recorder c')) = Z.of_nat (length fs)
  /\ dataSize (stats (recorder c')) = Z.of_nat (length (concatFrames fs))
  /\ dataSize (stats (recorder c'))
     = 12 * Z.of_nat (length fs)
       + Z.of_nat (length (flat_map data fs))
  /\ Monitor.totalCount (packetStats (stats (recorder c')))
     = packetCount (stats (recorder c')).
Proof.
  intros Hst Hes. cbv zeta. rewrite steps_cons.
  cbn [step onKey press snd].
  destruct (startNewRecording_fresh stamp (recorder c) Hst)
    as (A1 & A2 & A3 & A4 & A5 & _).
  set (c0 := withRecorder (fun r => snd (startNewRecording stamp r)) c) in *.
  change (snd (startNewRecording stamp (recorder c))) with (recorder c0)
    in A1, A2, A3, A4, A5.
  destruct (steps_session (tempPath stamp) es c0 Hes A2 (or_introl A1))
    as (_ & _ & _ & _ & S5 & S6 & S7).
  unfold isRecording in S5, S6, S7. rewrite A1, A4 in S5, S6, S7.
  cbn [packetCount dataSize packetStats zeroStats] in S5, S6, S7.
  unfold Monitor.totalCount in S7 at 2. rewrite map_fold_empty in S7.
  rewrite S5, S6, S7.
  assert (forall b l,
             Forall inSession l ->
             Z.of_nat (length (concatFrames (framesOf b l)))
             = 12 * Z.of_nat (length (framesOf b l))
               + Z.of_nat (length (flat_map data (framesOf b l)))) as Hsz.
  { clear. intros b l Hl. revert b.
    induction Hl as [|e l He Hl IH]; intros b; [reflexivity|].
    destruct e as [now msg|err|k]; cbn [framesOf]; try apply IH.
    destruct b; [|apply IH].
    rewrite (concatFrames_app [frameOf now msg] (framesOf true l)
             : concatFrames (frameOf now msg :: framesOf true l) = _).
    cbn [flat_map length]. rewrite !length_app, !Nat2Z.inj_add, IH.
    rewrite length_frameOf. unfold blen. cbn [data frameOf]. lia. }
  repeat split; try lia. apply Hsz, Hes.
Qed.

(** X18. A datagram shorter than 7 octets that arrives while the recorder
    records makes the handler throw at a header read.  By then the
    datagram is counted in [packetCount] and timed; it is not framed: the
    queue, the file operations, [dataSize] and the per-kind counts are as
    before. *)
Theorem short_datagram_throws (now : Z) (msg : buffer) (c : Capture) :
  currentState (recorder c) = RECORDING ->
  blen msg < 7 ->
  let c' := snd (onMessage now msg c) in
  fst (onMessage now msg c) = Threw
  /\ packetCount (stats (recorder c')) = packetCount (stats (recorder c)) + 1
  /\ lastPacketTime (stats (recorder c')) = now
  /\ writeQueue (recorder c') = writeQueue (recorder c)
  /\ fsLog (recorder c') = fsLog (recorder c)
  /\ dataSize (stats (recorder c')) = dataSize (stats (recorder c))
  /\ packetStats (stats (recorder c')) = packetStats (stats (recorder c)).
Proof.
  intros Hst Hb. cbv zeta. unfold onMessage. rewrite Hst.
  unfold readUInt16LE, readUInt8.
  rewrite (readLE_out 1 msg 6) by (right; cbn; lia).
  destruct (readLE 2 msg 0);
    destruct (sessionStartTime (stats (recorder c)) =? 0);
    cbn; repeat split.
Qed.

(** X19. Writes with a callback go out one at a time and in batches of at
    most a hundred frames: whatever the datagrams, callbacks and keys since
    the program started, at most one such write is in flight, [isWriting]
    tells whether one is, and its batch has at most a hundred frames. *)
Theorem one_write_in_flight (es : list Event) :
  let c := steps es fresh in
  (length (pending c) <= 1)%nat
  /\ (isWriting c = true <-> pending c <> [])
  /\ Forall (fun n => (n <= 100)%nat) (pending c).
Proof.
  cbv zeta.
  assert (forall c,
             (isWriting c = false /\ pending c = [])
             \/ (isWriting c = true
                 /\ exists n, pending c = [n] /\ (n <= 100)%nat) ->
             let c' := processWriteQueue c in
             (isWriting c' = false /\ pending c' = [])
             \/ (isWriting c' = true
                 /\ exists n, pending c' = [n] /\ (n <= 100)%nat)) as Hp.
  { intros c Hc. cbv zeta. unfold processWriteQueue.
    destruct (writeStream (recorder c)); [|exact Hc].
    destruct (isWriting c) eqn:Ew; [rewrite Ew; exact Hc|].
    destruct (writeQueue (recorder c)); [rewrite Ew; exact Hc|].
    destruct Hc as [[_ Hc]|[Hc _]]; [|discriminate].
    right. cbn [isWriting pending]. rewrite Hc. split; [reflexivity|].
    eexists. split; [reflexivity|]. rewrite length_take. lia. }
  assert (forall e c,
             (isWriting c = false /\ pending c = [])
             \/ (isWriting c = true
                 /\ exists n, pending c = [n] /\ (n <= 100)%nat) ->
             (isWriting (step e c) = false /\ pending (step e c) = [])
             \/ (isWriting (step e c) = true
                 /\ exists n, pending (step e c) = [n] /\ (n <= 100)%nat))
    as Hs.
  { intros e c Hc. destruct e as [now msg|err|k]; cbn [step].
    - unfold onMessage.
      destruct (currentState (recorder c)); try exact Hc.
      destruct (readUInt16LE msg 0), (readUInt8 msg 6);
        try (destruct (sessionStartTime (stats (recorder c)) =? 0);
             exact Hc).
      destruct ((2 ^ 32 <=? blen msg) || (now <? 0) || (2 ^ 64 <=? now));
        [destruct (sessionStartTime (stats (recorder c)) =? 0); exact Hc|].
      cbn [snd]. apply Hp.
      destruct (sessionStartTime (stats (recorder c)) =? 0); exact Hc.
    - unfold writeDone. destruct (pending c) as [|n others] eqn:Ep;
        [rewrite Ep; exact Hc|].
      apply Hp. destruct Hc as [[_ Hc]|[_ (m & Hc & _)]]; [discriminate|].
      injection Hc as <- ->. left. now destruct err.
    - exact Hc. }
  assert (forall c,
             (isWriting c = false /\ pending c = [])
             \/ (isWriting c = true
                 /\ exists n, pending c = [n] /\ (n <= 100)%nat) ->
             (isWriting (steps es c) = false /\ pending (steps es c) = [])
             \/ (isWriting (steps es c) = true
                 /\ exists n, pending (steps es c) = [n] /\ (n <= 100)%nat))
    as Hall.
  { induction es as [|e es IH]; intros c Hc; [exact Hc|].
    rewrite steps_cons. apply IH, Hs, Hc. }
  destruct (Hall fresh (or_introl (conj eq_refl eq_refl)))
    as [[E1 E2]|[E1 (n & E2 & Hn)]]; rewrite E1, E2.
  - cbn. repeat split; try lia; try congruence. constructor.
  - cbn. repeat split; try lia; try congruence.
    constructor; [exact Hn|constructor].
Qed.

(** X20. The key F writes the queue to the stream and leaves it in place.
    When a write is still in flight at that moment and the queue is not
    empty, the callback of that write, running after F, hands the first
    hundred frames of the queue to the stream a second time, after the
    stream was ended. *)
Theorem callback_after_finish_writes_again (p : string) (err : bool)
    (c : Capture) :
  currentState (recorder c) = RECORDING
  \/ currentState (recorder c) = PAUSED ->
  writeStream (recorder c) = Some p ->
  pending c <> [] ->
  writeQueue (recorder c) <> [] ->
  let q := writeQueue (recorder c) in
  fsLog (recorder (steps [KeyPress KeyF; WriteDone err] c))
  = fsLog (recorder c)
      ++ [StreamWrite p (concatFrames q); StreamEnd p;
          StreamWrite p (concatFrames (take 100 q))].
Proof.
  intros Hst Hw Hp Hq. cbv zeta.
  cbn [steps fold_left step onKey press snd]. unfold writeDone.
  cbn [pending withRecorder].
  destruct (pending c) as [|n others]; [congruence|].
  destruct (writeQueue (recorder c)) as [|f q] eqn:Eq; [congruence|].
  assert (snd (finishRecording (recorder c))
          = say [UpdateDisplay; InfoRecordingFinished]
                (fsDo [StreamEnd p]
                   (fsDo [StreamWrite p (concatFrames (f :: q))]
                      (setState FINISHED (recorder c))))) as Ef.
  { unfold finishRecording.
    destruct Hst as [Hst|Hst]; rewrite Hst;
      cbn [setState writeStream writeQueue]; now rewrite Hw, Eq. }
  destruct err; unfold processWriteQueue;
    cbn [recorder withRecorder withStats note isWriting pending notes];
    rewrite Ef; cbn; rewrite Hw, Eq; cbn; rewrite <- !app_assoc;
    reflexivity.
Qed.

(** X21. Shutting down with a recording open saves it.  With a stream and
    a temporary file present and the rename succeeding, the file operations
    of [cleanup] are exactly these: from a recording in progress or paused,
    the queue, if not empty, is passed to the stream in one write and the
    stream is ended; then, as from a finished recording, the temporary file
    is renamed to the final one.  The recorder is left idle with no file and
    no stream, and the notes are the shutdown line, the auto-save warning
    and the goodbye.  When the rename fails, the shutdown ends by its
    exception. *)
Theorem cleanup_saves (stamp p t : string) (c : Capture) :
  currentState (recorder c) <> IDLE ->
  writeStream (recorder c) = Some p ->
  currentTempFile (recorder c) = Some t ->
  let c' := snd (cleanup stamp true c) in
  fst (cleanup stamp true c) = Returned
  /\ currentState (recorder c') = IDLE
  /\ writeStream (recorder c') = None
  /\ currentTempFile (recorder c') = None
  /\ fsLog (recorder c')
     = fsLog (recorder c)
         ++ match currentState (recorder c) with
            | FINISHED => []
            | _ => flushOps p (writeQueue (recorder c))
            end
         ++ [RenameSync t (finalPath stamp)]
  /\ notes c'
     = notes c
         ++ [NoteShuttingDown;
             match currentState (recorder c) with
             | FINISHED => NoteUnsavedAutoSaving
             | _ => NoteAutoSaving
             end;
             NoteGoodbye]
  /\ passedTo p (fsLog (recorder c'))
     = (if decide (currentState (recorder c) = FINISHED)
        then passedTo p (fsLog (recorder c))
        else heldFor p (recorder c))
  /\ fst (cleanup stamp false c) = Threw.
Proof.
  intros Hst Hw Ht. cbv zeta. unfold cleanup.
  cbn [recorder note]. unfold heldFor, passedTo, flushOps.
  destruct (currentState (recorder c)) eqn:Es; [congruence| | |].
  1,2: unfold finishRecording; rewrite Es;
    cbn [setState writeStream writeQueue]; rewrite Hw;
    destruct (decide (_ = FINISHED)) as [|_]; [congruence|];
    (destruct (writeQueue (recorder c)) as [|f q] eqn:Eq;
     cbn; rewrite Ht; cbn; rewrite <- ?app_assoc; repeat split;
     rewrite ?flat_map_app; cbn;
     try (destruct (decide (p = p)); [|congruence]);
     now rewrite ?app_nil_r).
  unfold saveRecording. cbn [recorder note withRecorder]. rewrite Es, Ht.
  destruct (decide (_ = FINISHED)) as [_|]; [|congruence].
  cbn. rewrite ?Es, ?Ht. cbn. rewrite <- ?app_assoc. repeat split.
  rewrite flat_map_app. cbn. now rewrite app_nil_r.
Qed.

End CaptureCounters.

(** ** A capture played back *)

Section PlaybackFacts.
Import Buf Replay Playback.

Lemma u8_byte_of (z : Z) : 0 <= z < 256 -> u8 (byte_of z) = z.
Proof.
  intros Hz. unfold u8, byte_of.
  destruct (Byte.of_N (Z.to_N z)) as [x|] eqn:E.
  - apply Byte.to_of_N in E. rewrite E. lia.
  - apply Byte.of_N_None_iff in E. lia.
Qed.

Lemma le_value_le_bytes (k : nat) (v : Z) :
  0 <= v < 256 ^ Z.of_nat k -> le_value (le_bytes k v) = v.
Proof.
  revert v. induction k as [|k IH]; intros v Hv.
  - simpl in *. lia.
  - cbn [le_bytes le_value].
    rewrite Nat2Z.inj_succ, Z.pow_succ_r in Hv by lia.
    rewrite u8_byte_of by (apply Z.mod_pos_bound; lia).
    rewrite IH.
    + pose proof (Z.div_mod v 256 ltac:(lia)). lia.
    + split; [apply Z.div_pos; lia|].
      apply Z.div_lt_upper_bound; lia.
Qed.

Lemma stampOf_frameOf (now : Z) (msg : buffer) :
  0 <= now < 2 ^ 64 -> stampOf (Capture.frameOf now msg) = now.
Proof.
  intros Hn. unfold stampOf, Capture.frameOf, field.
  cbn [Recorder.metadata].
  rewrite drop_app_length' by (now rewrite length_le_bytes).
  rewrite take_ge by (rewrite length_le_bytes; lia).
  apply le_value_le_bytes. cbn. lia.
Qed.

(** One call at the start of a frame the recorder wrote. *)
Lemma sendNextPacket_captured (pre msg rest : buffer) (ts : Z)
    (sendOk : buffer -> bool) (speed : Q) (start now : Z)
    (st : ReplayState) :
  offset st = blen pre -> 0 <= ts < 2 ^ 64 -> blen msg < 2 ^ 32 ->
  sendOk msg = true ->
  sendNextPacket
    (pre ++ le_bytes 4 (blen msg) ++ le_bytes 8 ts ++ msg ++ rest)
    sendOk speed start now st
  = Sent msg
         (match firstTimestamp st with
          | None => Immediate
          | Some first =>
              if Qle_bool (inject_Z start + targetDelay first ts speed
                           - inject_Z now) 0
              then Immediate
              else After (inject_Z start + targetDelay first ts speed
                          - inject_Z now)
          end)
         {| offset := blen (pre ++ le_bytes 4 (blen msg)
                                ++ le_bytes 8 ts ++ msg);
            packetCount := packetCount st + 1;
            firstTimestamp := Some (default ts (firstTimestamp st)) |}.
Proof.
  intros Ho Hts Hb Hok.
  set (file := pre ++ le_bytes 4 (blen msg) ++ le_bytes 8 ts ++ msg ++ rest).
  assert (blen file = blen pre + 12 + blen msg + blen rest) as Hlen.
  { unfold file, blen. rewrite !length_app, !length_le_bytes. lia. }
  assert (0 <= blen msg) as Hm by (unfold blen; lia).
  assert (0 <= blen rest) as Hr by (unfold blen; lia).
  assert (0 <= blen pre) as Hp by (unfold blen; lia).
  rewrite sendNextPacket_frame by lia. cbv zeta.
  assert (field file (Z.to_nat (offset st)) 4 = blen msg) as ->.
  { unfold field, file. rewrite Ho. unfold blen at 1. rewrite Nat2Z.id.
    rewrite drop_app_length.
    rewrite take_app_length' by (now rewrite length_le_bytes).
    apply le_value_le_bytes. cbn. lia. }
  assert (field file (Z.to_nat (offset st + 4)) 8 = ts) as ->.
  { unfold field, file. rewrite Ho, app_assoc.
    rewrite drop_app_length'
      by (rewrite length_app, length_le_bytes; unfold blen; lia).
    rewrite take_app_length' by (now rewrite length_le_bytes).
    apply le_value_le_bytes. cbn. lia. }
  assert (slice file (offset st + 12) (offset st + 12 + blen msg) = msg) as ->.
  { unfold slice, file. rewrite Ho.
    rewrite (app_assoc (le_bytes 4 _)), (app_assoc pre).
    rewrite drop_app_length'
      by (rewrite !length_app, !length_le_bytes; unfold blen; lia).
    apply take_app_length'. unfold blen. lia. }
  assert (offset st + 12 + blen msg
          = blen (pre ++ le_bytes 4 (blen msg) ++ le_bytes 8 ts ++ msg)) as ->.
  { rewrite Ho. unfold blen. rewrite !length_app, !length_le_bytes. lia. }
  rewrite Hok. cbn [negb].
  destruct (firstTimestamp st); reflexivity.
Qed.

(** The run over the frames the recorder wrote, from the start of any of
    them, on a socket that sends them all. *)
Lemma run_captured (fs : list Recorder.Frame) (sendOk : buffer -> bool) :
  Forall framed fs ->
  sendsAll sendOk fs ->
  forall (fuel : nat) (pre : buffer) (speed : Q) (start now : Z)
         (st : ReplayState),
    (length fs < fuel)%nat -> offset st = blen pre ->
    run fuel (pre ++ Recorder.concatFrames fs) sendOk speed start now st
    = (combine (sendsFrom speed start (firstTimestamp st) now
                          (map stampOf fs))
               (map Recorder.data fs),
       Finished (packetCount st + Z.of_nat (length fs))).
Proof.
  intros Hfs. induction Hfs as [|f fs Hf Hfs IH];
    intros Hok fuel pre speed start now st Hfuel Ho.
  - destruct fuel as [|fuel]; [cbn in Hfuel; lia|].
    cbn [run Recorder.concatFrames flat_map]. rewrite app_nil_r.
    rewrite sendNextPacket_done by lia. cbn. now rewrite Z.add_0_r.
  - destruct fuel as [|fuel]; [cbn in Hfuel; lia|].
    apply Forall_cons_1 in Hok as [Hok1 Hok].
    destruct Hf as (ts & Hts & Hb & Ef).
    set (msg := Recorder.data f) in *.
    assert (stampOf f = ts) as Es
      by (rewrite Ef; apply stampOf_frameOf; lia).
    assert (pre ++ Recorder.concatFrames (f :: fs)
            = pre ++ le_bytes 4 (blen msg) ++ le_bytes 8 ts ++ msg
                ++ Recorder.concatFrames fs) as E1.
    { unfold Recorder.concatFrames. cbn [flat_map]. rewrite Ef at 1.
      cbn [Recorder.metadata Recorder.data Capture.frameOf].
      fold msg. now rewrite <- !app_assoc. }
    assert (pre ++ Recorder.concatFrames (f :: fs)
            = (pre ++ le_bytes 4 (blen msg) ++ le_bytes 8 ts ++ msg)
                ++ Recorder.concatFrames fs) as E2.
    { rewrite E1. now rewrite <- !app_assoc. }
    cbn [run]. rewrite E1 at 1.
    rewrite sendNextPacket_captured by (assumption || lia).
    rewrite E2.
    match goal with
    | |- context [run fuel ?file sendOk speed start ?t ?st'] =>
        rewrite (IH Hok fuel _ speed start t st')
          by (cbn [length] in Hfuel; cbn [offset]; first [lia|reflexivity])
    end.
    cbn [map combine sendsFrom length firstTimestamp packetCount].
    rewrite Es. fold msg.
    replace (packetCount st + Z.of_nat (S (length fs)))
      with (packetCount st + 1 + Z.of_nat (length fs)) by lia.
    destruct (firstTimestamp st) as [first|]; cbn [default]; [|reflexivity].
    unfold nextSend.
    now destruct (Qle_bool (inject_Z start + targetDelay first ts speed
                            - inject_Z now) 0).
Qed.

Lemma framed_length (fs : list Recorder.Frame) :
  Forall framed fs ->
  (length fs <= length (Recorder.concatFrames fs))%nat.
Proof.
  induction 1 as [|f fs Hf Hfs IH]; [cbn; lia|].
  destruct Hf as (ts & _ & _ & Ef).
  unfold Recorder.concatFrames in *. cbn [flat_map length].
  rewrite !length_app. rewrite Ef at 1.
  cbn [Recorder.metadata Capture.frameOf].
  rewrite length_app, !length_le_bytes. lia.
Qed.

Lemma startReplay_captured (fs : list Recorder.Frame)
    (sendOk : buffer -> bool) (speed : Q) (start : Z) :
  Forall framed fs ->
  sendsAll sendOk fs ->
  startReplay (Recorder.concatFrames fs) sendOk speed start
  = (combine (sendTimes speed start (map stampOf fs)) (map Recorder.data fs),
     Finished (Z.of_nat (length fs))).
Proof.
  intros Hfs Hok. unfold startReplay.
  rewrite (run_captured fs sendOk Hfs Hok _ [] speed start start initial).
  - reflexivity.
  - pose proof (framed_length fs Hfs). cbn [app]. lia.
  - reflexivity.
Qed.

Lemma framesOf_framed (es : list Capture.Event) :
  Forall Capture.inSession es ->
  forall b, Forall framed (Capture.framesOf b es).
Proof.
  induction 1 as [|e es He Hes IH]; intros b; [constructor|].
  destruct e as [now msg|err|k]; cbn [Capture.framesOf]; try apply IH.
  destruct b; [|apply IH]. constructor; [|apply IH].
  destruct He as [Hb Hn]. exists now. cbn [Recorder.data Capture.frameOf].
  repeat split; lia.
Qed.

Lemma length_sendsFrom (speed : Q) (start : Z) (stamps : list Z) :
  forall first now, length (sendsFrom speed start first now stamps)
                    = length stamps.
Proof.
  induction stamps as [|ts rest IH]; intros first now; [reflexivity|].
  cbn [sendsFrom length]. now rewrite IH.
Qed.

Lemma map_combine {A B : Type} (l : list A) (k : list B) :
  length l = length k ->
  map fst (combine l k) = l /\ map snd (combine l k) = k.
Proof.
  revert k. induction l as [|a l IH]; intros [|b k] Hl;
    try discriminate; [easy|].
  cbn in Hl. destruct (IH k) as [I1 I2]; [lia|].
  cbn. now rewrite I1, I2.
Qed.

(** X22. Playing back a recording sends the datagrams that were recorded.
    For the frames of any session of the recorder, on a socket that sends
    each of the recorded datagrams, the replay of their octets sends one
    datagram per frame, in the order of recording and with the octets
    received, then reports as many packets as were recorded; it reads no
    frame short and does not end by an exception. *)
Theorem replay_sends_the_recording (es : list Capture.Event)
    (sendOk : buffer -> bool) (speed : Q) (start : Z) :
  Forall Capture.inSession es ->
  sendsAll sendOk (Capture.framesOf true es) ->
  let fs := Capture.framesOf true es in
  let played := startReplay (Recorder.concatFrames fs) sendOk speed start in
  map snd (fst played) = map Recorder.data fs
  /\ snd played = Finished (Z.of_nat (length fs)).
Proof.
  intros Hes Hok. cbv zeta.
  rewrite startReplay_captured by (try apply framesOf_framed; assumption).
  cbn [fst snd].
  assert (length (sendTimes speed start
                            (map stampOf (Capture.framesOf true es)))
          = length (map Recorder.data (Capture.framesOf true es))) as Hl.
  { unfold sendTimes. now rewrite length_sendsFrom, !length_map. }
  destruct (map_combine _ _ Hl) as [_ M2]. now rewrite M2.
Qed.

Lemma targetDelay_mono (first a b : Z) (speed : Q) :
  (0 < speed)%Q -> a <= b ->
  (targetDelay first a speed <= targetDelay first b speed)%Q.
Proof.
  intros Hs Hab. unfold targetDelay, Qdiv.
  apply Qmult_le_compat_r.
  - rewrite <- Zle_Qle. lia.
  - apply Qlt_le_weak, Qinv_lt_0_compat, Hs.
Qed.

Lemma targetDelay_self (first : Z) (speed : Q) :
  (targetDelay first first speed == inject_Z 0)%Q.
Proof.
  unfold targetDelay. rewrite Z.sub_diag. unfold Qdiv.
  now rewrite Qmult_0_l.
Qed.

(** With whole targets the call after a frame runs at the target of that
    frame. *)
Lemma nextSend_target (speed : Q) (start first prev ts now dprev dts : Z) :
  (0 < speed)%Q -> first <= prev -> prev <= ts ->
  (targetDelay first prev speed == inject_Z dprev)%Q ->
  (targetDelay first ts speed == inject_Z dts)%Q ->
  dts <= TIMEOUT_MAX ->
  now = start + dprev ->
  nextSend speed start first ts now = start + dts.
Proof.
  intros Hs Hfp Hp Hdp Hdt Hmax ->.
  pose proof (targetDelay_mono first prev ts speed Hs Hp) as Hm.
  pose proof (targetDelay_mono first first prev speed Hs Hfp) as Hm0.
  rewrite targetDelay_self, Hdp in Hm0. rewrite Hdp, Hdt in Hm.
  rewrite <- Zle_Qle in Hm, Hm0.
  unfold nextSend.
  assert (inject_Z start + targetDelay first ts speed
          - inject_Z (start + dprev) == inject_Z (dts - dprev))%Q as Hw.
  { rewrite Hdt. unfold Z.sub.
    rewrite !inject_Z_plus, inject_Z_opp. ring. }
  set (w := (inject_Z start + targetDelay first ts speed
             - inject_Z (start + dprev))%Q) in *.
  destruct (Qle_bool w 0) eqn:E.
  - apply Qle_bool_iff in E. rewrite Hw in E.
    change 0%Q with (inject_Z 0) in E. rewrite <- Zle_Qle in E. lia.
  - assert (~ (w <= 0)%Q) as Hpos
      by (intros Hle; apply Qle_bool_iff in Hle; congruence).
    rewrite Hw in Hpos. change 0%Q with (inject_Z 0) in Hpos.
    rewrite <- Zle_Qle in Hpos.
    unfold timerDelay.
    assert (Qle_bool 1 w = true) as ->.
    { apply Qle_bool_iff. rewrite Hw. change 1%Q with (inject_Z 1).
      rewrite <- Zle_Qle. lia. }
    assert (Qle_bool w (inject_Z TIMEOUT_MAX) = true) as ->.
    { apply Qle_bool_iff. rewrite Hw. rewrite <- Zle_Qle. lia. }
    cbn [andb]. rewrite Hw, Qfloor_Z. lia.
Qed.

Lemma sendsFrom_targets (speed : Q) (start first : Z) (stamps : list Z) :
  (0 < speed)%Q ->
  forall prev now dprev : Z,
    first <= prev ->
    (targetDelay first prev speed == inject_Z dprev)%Q ->
    now = start + dprev ->
    ascending prev stamps ->
    Forall (wholeTarget speed first) stamps ->
    sendsFrom speed start (Some first) now stamps
    = match stamps with
      | [] => []
      | _ => now :: map (fun ts =>
                           start + Qfloor (targetDelay first ts speed))
                        (removelast stamps)
      end.
Proof.
  intros Hs. induction stamps as [|ts rest IH];
    intros prev now dprev Hfp Hdp Hn Ha Hw; [reflexivity|].
  destruct Ha as [Hp Ha]. apply Forall_cons_1 in Hw as [(dts & Hdt & Hmax) Hw].
  cbn [sendsFrom default].
  rewrite (nextSend_target speed start first prev ts now dprev dts)
    by assumption.
  change (id first) with first.
  rewrite (IH ts (start + dts) dts) by (assumption || lia || reflexivity).
  destruct rest as [|ts2 rest]; [reflexivity|].
  change (removelast (ts :: ts2 :: rest)) with (ts :: removelast (ts2 :: rest)).
  cbn [map]. now rewrite Hdt, Qfloor_Z.
Qed.

(** X23. On the ideal clock every frame of a recording leaves at the
    target time of the frame before it.  For frames the recorder wrote
    whose arrival times never decrease, replayed at a positive speed on a
    socket that sends them, and whose targets, the recorded delay since
    the first frame divided by the speed, are whole milliseconds within the
    range of a timer: the first frame leaves at the start of the replay and
    every other frame at the start plus the target of the frame that
    precedes it. *)
Theorem frames_leave_at_the_previous_target (fs : list Recorder.Frame)
    (sendOk : buffer -> bool) (speed : Q) (start : Z) :
  Forall framed fs ->
  sendsAll sendOk fs ->
  inOrder (map stampOf fs) ->
  (0 < speed)%Q ->
  wholeTargets speed (map stampOf fs) ->
  map fst (fst (startReplay (Recorder.concatFrames fs) sendOk speed start))
  = targetsBefore speed start (map stampOf fs).
Proof.
  intros Hfs Hok Ho Hs Hw. rewrite startReplay_captured by assumption.
  cbn [fst].
  assert (length (sendTimes speed start (map stampOf fs))
          = length (map Recorder.data fs)) as Hl
    by (unfold sendTimes; now rewrite length_sendsFrom, !length_map).
  rewrite (proj1 (map_combine _ _ Hl)). clear Hl.
  unfold sendTimes, targetsBefore, inOrder, wholeTargets in *.
  destruct (map stampOf fs) as [|ts0 rest]; [reflexivity|].
  cbn [sendsFrom default].
  apply Forall_cons_1 in Hw as [_ Hw].
  rewrite (sendsFrom_targets speed start ts0 rest Hs ts0 start 0)
    by (assumption || lia || apply targetDelay_self).
  destruct rest as [|ts1 rest]; [reflexivity|].
  change (removelast (ts0 :: ts1 :: rest))
    with (ts0 :: removelast (ts1 :: rest)).
  cbn [map]. rewrite targetDelay_self, Qfloor_Z.
  now rewrite Z.add_0_r.
Qed.

End PlaybackFacts.

Section ReplayOutcome.
Import Buf Replay.




End ReplayOutcome.

(** ** The properties above at concrete packets and sessions *)

Section Instances.
Import Buf.
#[local] Existing Instance Fixtures.plainRuntime.

Lemma parseCarTelemetry_all_slots_witness :
  1352 <= blen (Fixtures.telemetryPacket 2025)
  /\ exists s',
       Telemetry.parseCarTelemetry
         (Fixtures.telemetryPacket 2025) Fixtures.oneDriver = (Ret tt, s')
       /\ Telemetry.sameBesidesDrivers Fixtures.oneDriver s'
       /\ forall j,
            Telemetry.drivers s' !! j
            = Layout.rewriteSlot 22
                (Layout.telemetryWrite (Fixtures.telemetryPacket 2025)) j
                (Telemetry.drivers Fixtures.oneDriver !! j).
Proof.
  assert (1352 <= blen (Fixtures.telemetryPacket 2025)) as Hb
    by (vm_compute; discriminate).
  exact (conj Hb (parseCarTelemetry_all_slots
                    (Fixtures.telemetryPacket 2025) Fixtures.oneDriver Hb)).
Defined.

Lemma parseLapData_all_slots_witness :
  1131 <= blen Fixtures.lapDataPacket
  /\ exists s',
       Telemetry.parseLapData
         Fixtures.lapDataPacket Fixtures.oneDriver = (Ret tt, s')
       /\ Telemetry.sameBesidesDrivers Fixtures.oneDriver s'
       /\ forall j,
            Telemetry.drivers s' !! j
            = Layout.rewriteSlot 22
                (Layout.lapDataWrite Fixtures.lapDataPacket) j
                (Telemetry.drivers Fixtures.oneDriver !! j).
Proof.
  assert (1131 <= blen Fixtures.lapDataPacket) as Hb
    by (vm_compute; discriminate).
  exact (conj Hb (parseLapData_all_slots
                    Fixtures.lapDataPacket Fixtures.oneDriver Hb)).
Defined.

Lemma parseCarStatus_all_slots_witness :
  1239 <= blen Scenarios.carStatusPacket
  /\ exists s',
       Telemetry.parseCarStatus
         Scenarios.carStatusPacket Fixtures.oneDriver = (Ret tt, s')
       /\ Telemetry.sameBesidesDrivers Fixtures.oneDriver s'
       /\ forall j,
            Telemetry.drivers s' !! j
            = Layout.rewriteSlot 22
                (Layout.carStatusWrite Scenarios.carStatusPacket) j
                (Telemetry.drivers Fixtures.oneDriver !! j).
Proof.
  assert (1239 <= blen Scenarios.carStatusPacket) as Hb
    by (vm_compute; discriminate).
  exact (conj Hb (parseCarStatus_all_slots
                    Scenarios.carStatusPacket Fixtures.oneDriver Hb)).
Defined.

Lemma parseParticipants_all_slots_witness :
  1306 <= blen Fixtures.participantsPacket
  /\ exists s',
       Telemetry.parseParticipants
         Fixtures.participantsPacket Telemetry.initialState = (Ret tt, s')
       /\ Telemetry.sameBesidesDrivers Telemetry.initialState s'
       /\ forall j,
            Telemetry.drivers s' !! j
            = Layout.upsertSlot
                (Z.to_nat (Z.min (field Fixtures.participantsPacket 29 1) 22))
                (Layout.identityWrite
                   Fixtures.participantsPacket) j
                (Telemetry.drivers Telemetry.initialState !! j).
Proof.
  assert (1306 <= blen Fixtures.participantsPacket) as Hb
    by (vm_compute; discriminate).
  exact (conj Hb (parseParticipants_all_slots
                    Fixtures.participantsPacket Telemetry.initialState Hb)).
Defined.

Lemma parseSession_overwrites_witness :
  644 <= blen Fixtures.sessionPacket
  /\ exists s',
       Telemetry.parseSession
         Fixtures.sessionPacket Telemetry.initialState = (Ret tt, s')
       /\ Telemetry.sessionInfo s'
          = Layout.sessionAt Fixtures.sessionPacket
              (Telemetry.sessionInfo Telemetry.initialState)
       /\ Telemetry.drivers s' = Telemetry.drivers Telemetry.initialState
       /\ Telemetry.packetCount s'
          = Telemetry.packetCount Telemetry.initialState
       /\ Telemetry.errorCount s'
          = Telemetry.errorCount Telemetry.initialState
       /\ Telemetry.console s' = Telemetry.console Telemetry.initialState.
Proof.
  assert (644 <= blen Fixtures.sessionPacket) as Hb
    by (vm_compute; discriminate).
  exact (conj Hb (parseSession_overwrites
                    Fixtures.sessionPacket Telemetry.initialState Hb)).
Defined.

Lemma kinds_commute_witness :
  field (Fixtures.telemetryPacket 2025) 6 1 <> 4
  /\ field Fixtures.lapDataPacket 6 1 <> 4
  /\ field (Fixtures.telemetryPacket 2025) 6 1
     <> field Fixtures.lapDataPacket 6 1
  /\ Telemetry.drivers
       (Telemetry.onMessage Fixtures.lapDataPacket
          (Telemetry.onMessage
             (Fixtures.telemetryPacket 2025) Fixtures.oneDriver))
     = Telemetry.drivers
         (Telemetry.onMessage
            (Fixtures.telemetryPacket 2025)
            (Telemetry.onMessage
               Fixtures.lapDataPacket Fixtures.oneDriver)).
Proof.
  assert (field (Fixtures.telemetryPacket 2025) 6 1 <> 4) as N1
    by (vm_compute; discriminate).
  assert (field Fixtures.lapDataPacket 6 1 <> 4) as N2
    by (vm_compute; discriminate).
  assert (field (Fixtures.telemetryPacket 2025) 6 1
          <> field Fixtures.lapDataPacket 6 1) as Nd
    by (vm_compute; discriminate).
  exact (conj N1 (conj N2 (conj Nd
           (proj1 (kinds_commute
                     (Fixtures.telemetryPacket 2025) Fixtures.lapDataPacket
                     Fixtures.oneDriver N1 N2 Nd))))).
Defined.

Lemma last_packet_wins_witness :
  Layout.rejected (Fixtures.telemetryPacket 2025) = false
  /\ field (Fixtures.telemetryPacket 2024) 6 1
     = field (Fixtures.telemetryPacket 2025) 6 1
  /\ 1352 <= blen (Fixtures.telemetryPacket 2025)
  /\ Telemetry.drivers
       (Telemetry.onMessage
          (Fixtures.telemetryPacket 2025)
          (Telemetry.onMessage
             (Fixtures.telemetryPacket 2024) Fixtures.oneDriver))
     = Telemetry.drivers
         (Telemetry.onMessage
            (Fixtures.telemetryPacket 2025) Fixtures.oneDriver).
Proof.
  assert (Layout.rejected (Fixtures.telemetryPacket 2025) = false) as R2
    by (vm_compute; reflexivity).
  assert (field (Fixtures.telemetryPacket 2024) 6 1
          = field (Fixtures.telemetryPacket 2025) 6 1) as Eid
    by (vm_compute; reflexivity).
  assert (field (Fixtures.telemetryPacket 2025) 6 1 = 6) as E6
    by (vm_compute; reflexivity).
  assert (1352 <= blen (Fixtures.telemetryPacket 2025)) as Hb
    by (vm_compute; discriminate).
  exact (conj R2 (conj Eid (conj Hb
           (last_packet_wins
              (Fixtures.telemetryPacket 2024) (Fixtures.telemetryPacket 2025)
              Fixtures.oneDriver R2 Eid (or_introl (conj E6 Hb)))))).
Defined.

Lemma session_inSession : Forall Capture.inSession Scenarios.session.
Proof.
  repeat constructor; vm_compute; first [discriminate|reflexivity].
Defined.

Lemma session_acknowledged : Forall Capture.acknowledged Scenarios.session.
Proof. repeat constructor. Defined.

Lemma recording_holds_the_datagrams_witness :
  Recorder.currentState (Capture.recorder Capture.fresh) <> Recorder.RECORDING
  /\ Forall Capture.inSession Scenarios.session
  /\ Forall Capture.acknowledged Scenarios.session
  /\ Recorder.currentState
       (Capture.recorder
          (Capture.steps
             (Capture.KeyPress (Recorder.KeyR "t1")
                :: Scenarios.session ++ [Capture.KeyPress Recorder.KeyF])
             Capture.fresh))
     = Recorder.FINISHED.
Proof.
  assert (Recorder.currentState (Capture.recorder Capture.fresh)
          <> Recorder.RECORDING) as Hst by (vm_compute; discriminate).
  exact (conj Hst (conj session_inSession (conj session_acknowledged
           (proj1 (recording_holds_the_datagrams "t1" Scenarios.session
                     Capture.fresh Hst session_inSession
                     session_acknowledged))))).
Defined.

Lemma counters_describe_the_frames_witness :
  Recorder.currentState (Capture.recorder Capture.fresh) <> Recorder.RECORDING
  /\ Forall Capture.inSession Scenarios.session
  /\ Recorder.packetCount
       (Recorder.stats
          (Capture.recorder
             (Capture.steps
                (Capture.KeyPress (Recorder.KeyR "t1") :: Scenarios.session)
                Capture.fresh)))
     = Z.of_nat (length (Capture.framesOf true Scenarios.session)).
Proof.
  assert (Recorder.currentState (Capture.recorder Capture.fresh)
          <> Recorder.RECORDING) as Hst by (vm_compute; discriminate).
  exact (conj Hst (conj session_inSession
           (proj1 (counters_describe_the_frames "t1" Scenarios.session
                     Capture.fresh Hst session_inSession)))).
Defined.

Lemma short_datagram_throws_witness :
  Recorder.currentState (Capture.recorder Scenarios.recording)
  = Recorder.RECORDING
  /\ blen Scenarios.shortDatagram < 7
  /\ fst (Capture.onMessage 1000 Scenarios.shortDatagram Scenarios.recording)
     = Recorder.Threw.
Proof.
  assert (Recorder.currentState (Capture.recorder Scenarios.recording)
          = Recorder.RECORDING) as Hst by (vm_compute; reflexivity).
  assert (blen Scenarios.shortDatagram < 7) as Hb
    by (vm_compute; reflexivity).
  exact (conj Hst (conj Hb
           (proj1 (short_datagram_throws 1000 Scenarios.shortDatagram
                     Scenarios.recording Hst Hb)))).
Defined.

Lemma callback_after_finish_writes_again_witness :
  (Recorder.currentState (Capture.recorder Scenarios.backlogged)
   = Recorder.RECORDING
   \/ Recorder.currentState (Capture.recorder Scenarios.backlogged)
      = Recorder.PAUSED)
  /\ Recorder.writeStream (Capture.recorder Scenarios.backlogged)
     = Some (Recorder.tempPath "t1")
  /\ Capture.pending Scenarios.backlogged <> []
  /\ Recorder.writeQueue (Capture.recorder Scenarios.backlogged) <> []
  /\ Recorder.fsLog
       (Capture.recorder
          (Capture.steps
             [Capture.KeyPress Recorder.KeyF; Capture.WriteDone false]
             Scenarios.backlogged))
     = Recorder.fsLog (Capture.recorder Scenarios.backlogged)
         ++ [Recorder.StreamWrite (Recorder.tempPath "t1")
               (Recorder.concatFrames
                  (Recorder.writeQueue (Capture.recorder Scenarios.backlogged)));
             Recorder.StreamEnd (Recorder.tempPath "t1");
             Recorder.StreamWrite (Recorder.tempPath "t1")
               (Recorder.concatFrames
                  (take 100
                     (Recorder.writeQueue
                        (Capture.recorder Scenarios.backlogged))))].
Proof.
  assert (Recorder.currentState (Capture.recorder Scenarios.backlogged)
          = Recorder.RECORDING
          \/ Recorder.currentState (Capture.recorder Scenarios.backlogged)
             = Recorder.PAUSED) as Hst by (left; vm_compute; reflexivity).
  assert (Recorder.writeStream (Capture.recorder Scenarios.backlogged)
          = Some (Recorder.tempPath "t1")) as Hw by (vm_compute; reflexivity).
  assert (Capture.pending Scenarios.backlogged <> []) as Hp
    by (vm_compute; discriminate).
  assert (Recorder.writeQueue (Capture.recorder Scenarios.backlogged) <> [])
    as Hq by (vm_compute; discriminate).
  exact (conj Hst (conj Hw (conj Hp (conj Hq
           (callback_after_finish_writes_again (Recorder.tempPath "t1") false
              Scenarios.backlogged Hst Hw Hp Hq))))).
Defined.

Lemma cleanup_saves_witness :
  Recorder.currentState (Capture.recorder Scenarios.backlogged)
  <> Recorder.IDLE
  /\ Recorder.writeStream (Capture.recorder Scenarios.backlogged)
     = Some (Recorder.tempPath "t1")
  /\ Recorder.currentTempFile (Capture.recorder Scenarios.backlogged)
     = Some (Recorder.tempPath "t1")
  /\ fst (Capture.cleanup "t2" true Scenarios.backlogged) = Recorder.Returned.
Proof.
  assert (Recorder.currentState (Capture.recorder Scenarios.backlogged)
          <> Recorder.IDLE) as Hst by (vm_compute; discriminate).
  assert (Recorder.writeStream (Capture.recorder Scenarios.backlogged)
          = Some (Recorder.tempPath "t1")) as Hw by (vm_compute; reflexivity).
  assert (Recorder.currentTempFile (Capture.recorder Scenarios.backlogged)
          = Some (Recorder.tempPath "t1")) as Ht by (vm_compute; reflexivity).
  exact (conj Hst (conj Hw (conj Ht
           (proj1 (cleanup_saves "t2" (Recorder.tempPath "t1")
                     (Recorder.tempPath "t1") Scenarios.backlogged
                     Hst Hw Ht))))).
Defined.

Lemma session_sendsAll :
  Playback.sendsAll Replay.udp4 (Capture.framesOf true Scenarios.session).
Proof. repeat constructor. Defined.

Lemma replay_sends_the_recording_witness :
  Forall Capture.inSession Scenarios.session
  /\ Playback.sendsAll Replay.udp4 (Capture.framesOf true Scenarios.session)
  /\ map snd
       (fst (Replay.startReplay
               (Recorder.concatFrames
                  (Capture.framesOf true Scenarios.session))
               Replay.udp4 1 0))
     = map Recorder.data (Capture.framesOf true Scenarios.session).
Proof.
  exact (conj session_inSession (conj session_sendsAll
           (proj1 (replay_sends_the_recording Scenarios.session Replay.udp4
                     1 0 session_inSession session_sendsAll)))).
Defined.

Lemma frames_leave_at_the_previous_target_witness :
  Forall Playback.framed Scenarios.threeFrameList
  /\ Playback.sendsAll Replay.udp4 Scenarios.threeFrameList
  /\ Playback.inOrder (map Playback.stampOf Scenarios.threeFrameList)
  /\ (0 < 2)%Q
  /\ Playback.wholeTargets 2 (map Playback.stampOf Scenarios.threeFrameList)
  /\ map fst
       (fst (Replay.startReplay
               (Recorder.concatFrames Scenarios.threeFrameList)
               Replay.udp4 2 0))
     = Playback.targetsBefore 2 0
         (map Playback.stampOf Scenarios.threeFrameList).
Proof.
  assert (Forall Playback.framed Scenarios.threeFrameList) as Hf.
  { constructor; [exists 5000|constructor; [exists 6000|constructor;
      [exists 6500|constructor]]];
      (split; [lia|]); (split; [vm_compute; reflexivity|reflexivity]). }
  assert (Playback.sendsAll Replay.udp4 Scenarios.threeFrameList) as Hk
    by (repeat constructor).
  assert (Playback.inOrder (map Playback.stampOf Scenarios.threeFrameList))
    as Ho by (vm_compute; repeat split; discriminate).
  assert (0 < 2)%Q as Hs by reflexivity.
  assert (Playback.wholeTargets 2
            (map Playback.stampOf Scenarios.threeFrameList)) as Hw.
  { constructor; [exists 0|constructor; [exists 500|constructor;
      [exists 750|constructor]]];
      (split; [vm_compute; reflexivity|vm_compute; discriminate]). }
  exact (conj Hf (conj Hk (conj Ho (conj Hs (conj Hw
           (frames_leave_at_the_previous_target Scenarios.threeFrameList
              Replay.udp4 2 0 Hf Hk Ho Hs Hw)))))).
Defined.

End Instances.
